(** * Workspace file ingestion and parameter persistence

    A shallow embedding of [src/common.py] (parameter saving, directory
    reset) and [pages/FileUpload.py] (upload registry, pairing and parse
    cache, summary table, removal), followed by the properties of the
    design document that are stated about them.

    Conventions.
    - [st.session_state] is a finite map from keys to Python values.
    - The workspace tree is a finite map from directory paths to the files
      they hold.
    - Code that reads or writes the session, the disk or the page is a
      function from the world to an outcome and a new world; an exception
      keeps the mutations made before it was raised. *)

From Stdlib Require Import ZArith String Ascii List Sorted Permutation Lia.
From stdpp Require Import base option gmap strings list sorting fin_maps.

Open Scope string_scope.
Open Scope list_scope.

(** ** Python values, exceptions and string primitives *)

Module Py.

Inductive exn : Type :=
  | KeyError (key : string)
  | AttributeError (name : string)
  | TypeError
  | ValueError
  | FileNotFoundError (where_ : list string)
  | IsADirectoryError (where_ : list string)
  | ParserError (what : string).

Inductive result (A : Type) : Type :=
  | Ok (a : A)
  | Raise (e : exn).
Arguments Ok {A} a.
Arguments Raise {A} e.

(** One row of the summary table built by [getUploadedFileDF]. *)
Record row : Type := Row {
  experiment_name : string;
  deconvolved_file : string;
  annotated_file : string
}.

Section Values.
Context {frame : Type}.

(** The values the code stores in the session state and in the
    parameter dictionary.  [PFrames] is a [dict] of parsed tables keyed by
    file name, [PTable] the summary DataFrame, [PContainer] a layout
    container, [PObject] any other object. *)
Inductive pyval : Type :=
  | PNone
  | PBool (b : bool)
  | PInt (z : Z)
  | PStr (s : string)
  | PStrList (l : list string)
  | PPath (p : list string)
  | PFrames (d : gmap string frame)
  | PTable (t : list row)
  | PContainer
  | PObject (tag : string).

(** What [json.dump] accepts. *)
Definition serialisable (v : pyval) : bool :=
  match v with
  | PNone | PBool _ | PInt _ | PStr _ | PStrList _ => true
  | PPath _ | PFrames _ | PTable _ | PContainer | PObject _ => false
  end.
End Values.
Arguments pyval frame : clear implicits.

(** [s.endswith(suffix)] *)
Definition endswith (s suffix : string) : bool :=
  (String.length suffix <=? String.length s)%nat &&
  String.eqb
    (String.substring (String.length s - String.length suffix)
       (String.length suffix) s)
    suffix.

(** [s.rfind(c)] for a one-character needle: the highest index holding [c],
    or [-1]. *)
Fixpoint rfind (c : ascii) (s : string) : Z :=
  match s with
  | EmptyString => (-1)%Z
  | String a s' =>
      let r := rfind c s' in
      if (0 <=? r)%Z then (r + 1)%Z
      else if Ascii.eqb a c then 0%Z else (-1)%Z
  end.

(** [s[0:stop]] with Python's reading of a negative [stop]. *)
Definition slice_to (s : string) (stop : Z) : string :=
  let n := Z.of_nat (String.length s) in
  let stop' := if (stop <? 0)%Z then Z.max 0 (n + stop) else Z.min stop n in
  String.substring 0 (Z.to_nat stop') s.

Fixpoint split_on (c : ascii) (s : string) : list string :=
  match s with
  | EmptyString => [EmptyString]
  | String a s' =>
      if Ascii.eqb a c then EmptyString :: split_on c s'
      else match split_on c s' with
           | [] => [String a EmptyString]
           | x :: xs => String a x :: xs
           end
  end.

(** [Path(f).name]: the last component, empty and [.] components dropped. *)
Definition path_name (f : string) : string :=
  List.last
    (List.filter (fun x => negb (String.eqb x "") && negb (String.eqb x "."))
       (split_on "/" f))
    "".

(** Order of [sorted] on [str]. *)
Definition str_le (a b : string) : Prop := String.leb a b = true.

#[global] Instance str_le_dec : RelDecision str_le.
Proof. intros a b. unfold str_le. apply _. Defined.

(** [sorted(l)] *)
Definition sorted (l : list string) : list string := merge_sort str_le l.

End Py.

(** ** The workspace directory tree *)

Module Fs.
Import Py.

(** A name the file system takes as one path component: not empty, not
    [.] or [..], without [/] and without NUL, at most 255 bytes.  The files
    of a directory have such names.  For other names [Path] and the system
    resolve path components, which the disk below does not do. *)
Definition plain_name (s : string) : bool :=
  negb (String.eqb s "") && negb (String.eqb s ".") && negb (String.eqb s "..")
  && forallb (fun c => negb (Ascii.eqb c "/") && negb (Ascii.eqb c Ascii.zero))
       (list_ascii_of_string s)
  && (String.length s <=? 255)%nat.

Section Disk.
Context {frame : Type}.

Inductive content : Type :=
  | Bytes (b : list Byte.byte)
  | JsonDoc (doc : list (string * pyval frame))
  | Truncated.

(** A directory path is its list of components; a directory maps the names
    of the files directly in it to their contents. *)
Definition ensure_dir (q : list string)
    (d : gmap (list string) (gmap string content)) :
    gmap (list string) (gmap string content) :=
  match d !! q with
  | Some _ => d
  | None => <[q := ∅]> d
  end.

Definition ancestors (p : list string) : list (list string) :=
  List.map (fun n => take n p) (seq 1 (List.length p)).

(** [path.mkdir(parents=True, exist_ok=True)] *)
Definition mkdir_parents (p : list string)
    (d : gmap (list string) (gmap string content)) :
    gmap (list string) (gmap string content) :=
  List.fold_left (fun d q => ensure_dir q d) (ancestors p) d.

(** [shutil.rmtree(path)]: the directory and everything below it. *)
Definition rmtree (p : list string)
    (d : gmap (list string) (gmap string content)) :
    gmap (list string) (gmap string content) :=
  filter (fun kv => ¬ p `prefix_of` kv.1) d.

(** [os.listdir(path)] *)
Definition listdir (p : list string)
    (d : gmap (list string) (gmap string content)) : result (list string) :=
  match d !! p with
  | Some files => Ok ((map_to_list files).*1)
  | None => Raise (FileNotFoundError p)
  end.

(** [open(Path(p, name), "w")] followed by writing [c], for a [name] that
    is one path component ([plain_name]) and not the name of a directory
    in [p]. *)
Definition write_file (p : list string) (name : string) (c : content)
    (d : gmap (list string) (gmap string content)) :
    result (gmap (list string) (gmap string content)) :=
  match d !! p with
  | Some files => Ok (<[p := <[name := c]> files]> d)
  | None => Raise (FileNotFoundError (p ++ [name]))
  end.

(** [Path(p, name).unlink()], for a [name] that is one path component
    ([plain_name]) and not the name of a directory in [p]. *)
Definition unlink (p : list string) (name : string)
    (d : gmap (list string) (gmap string content)) :
    result (gmap (list string) (gmap string content)) :=
  match d !! p with
  | Some files =>
      match files !! name with
      | Some _ => Ok (<[p := delete name files]> d)
      | None => Raise (FileNotFoundError (p ++ [name]))
      end
  | None => Raise (FileNotFoundError (p ++ [name]))
  end.
End Disk.
Arguments content frame : clear implicits.

End Fs.

Abbreviation disk frame := (gmap (list string) (gmap string (Fs.content frame))).
Abbreviation session_state frame := (gmap string (Py.pyval frame)).

(** ** [src/common.py] *)

Module Common.
Import Py Fs.

Section Common.
Context {frame : Type}.

(** A [dict] with [str] keys, in insertion order. *)
Fixpoint dict_get (k : string) (d : list (string * pyval frame)) :
    option (pyval frame) :=
  match d with
  | [] => None
  | (k', v) :: d' => if String.eqb k' k then Some v else dict_get k d'
  end.

Definition dict_keys (d : list (string * pyval frame)) : list string :=
  d.*1.

(** [d[k] = v] *)
Fixpoint dict_set (k : string) (v : pyval frame)
    (d : list (string * pyval frame)) : list (string * pyval frame) :=
  match d with
  | [] => [(k, v)]
  | (k', v') :: d' =>
      if String.eqb k' k then (k, v) :: d' else (k', v') :: dict_set k v d'
  end.

(** Body of the loop of [save_params]:
    [if key in params.keys(): params[key] = value]. *)
Definition override_step (key : string) (value : pyval frame)
    (params : list (string * pyval frame)) : list (string * pyval frame) :=
  if bool_decide (key ∈ dict_keys params) then dict_set key value params
  else params.

(** [for key, value in st.session_state.items(): ...] *)
Definition merge_overrides (params : list (string * pyval frame))
    (st : session_state frame) : list (string * pyval frame) :=
  map_fold override_step params st.

(** [Path(st.session_state.workspace, ...)] *)
Definition as_path (v : pyval frame) : result (list string) :=
  match v with
  | PPath p => Ok p
  | PStr s => Ok [s]
  | _ => Raise TypeError
  end.

Definition workspace_attr (st : session_state frame) : result (list string) :=
  match st !! "workspace" with
  | Some v => as_path v
  | None => Raise (AttributeError "workspace")
  end.

(** [save_params(params)].  The dictionary is updated in place, so the
    updated dictionary is returned next to the outcome and the disk.
    [open] fails when the workspace directory is missing or a directory
    stands at [params.json].  The file is opened for writing before
    [json.dump] runs: a value that is not serialisable leaves a truncated
    file behind. *)
Definition save_params (params : list (string * pyval frame))
    (st : session_state frame) (d : disk frame) :
    result unit * list (string * pyval frame) * disk frame :=
  let params' := merge_overrides params st in
  match workspace_attr st with
  | Raise e => (Raise e, params', d)
  | Ok ws =>
      match d !! ws with
      | None => (Raise (FileNotFoundError (ws ++ ["params.json"])), params', d)
      | Some files =>
          if bool_decide (is_Some (d !! (ws ++ ["params.json"])))
          then (Raise (IsADirectoryError (ws ++ ["params.json"])), params', d)
          else if forallb (fun kv => serialisable kv.2) params'
          then (Ok (), params',
                <[ws := <["params.json" := JsonDoc params']> files]> d)
          else (Raise TypeError, params',
                <[ws := <["params.json" := Truncated]> files]> d)
      end
  end.

(** The merge as the design document words it: every key of [params]
    that is also a session key takes the session value. *)
Definition overridden (st : session_state frame)
    (params : list (string * pyval frame)) : list (string * pyval frame) :=
  List.map (fun kv => (kv.1, default kv.2 (st !! kv.1))) params.

(** [reset_directory(path)] *)
Definition reset_directory (p : list string) (d : disk frame) : disk frame :=
  let d1 := if bool_decide (is_Some (d !! p)) then rmtree p d else d in
  mkdir_parents p d1.
End Common.

End Common.

(** ** [pages/FileUpload.py] *)

Module FileUpload.
Import Py Fs Common.

Definition input_file_types : list string := ["deconv-mzMLs"; "anno-mzMLs"].
Definition parsed_df_types : list string := ["deconv_dfs"; "anno_dfs"].

(** What a run of the page shows, in order. *)
Inductive event : Type :=
  | st_error (body : string)
  | st_info (body : string)
  | st_warning (body : string)
  | st_success (body : string)
  | st_markdown (body : string)
  | st_write (body : string)
  | st_spinner (body : string)
  | st_dataframe (t : list row).

(** An uploaded file: [file.name] and [file.getbuffer()]. *)
Record upload : Type := Upload {
  name : string;
  getbuffer : list Byte.byte
}.

Definition newline : string := String (ascii_of_nat 10) EmptyString.

Section FileUpload.
Context {frame scalar : Type}.

Record world : Type := World {
  session : session_state frame;
  fs : disk frame;
  page : list event
}.

(** Computations over the world that may raise. *)
Definition M (A : Type) : Type := world -> result A * world.

Definition ret {A} (a : A) : M A := fun w => (Ok a, w).
Definition raise {A} (e : exn) : M A := fun w => (Raise e, w).
Definition bind {A B} (m : M A) (k : A -> M B) : M B :=
  fun w => match m w with
           | (Ok a, w') => k a w'
           | (Raise e, w') => (Raise e, w')
           end.
Definition lift {A} (r : result A) : M A := fun w => (r, w).

Notation "'let*' x ':=' c1 'in' c2" := (bind c1 (fun x => c2))
  (at level 10, x pattern, c1 at level 100, c2 at level 200).

Fixpoint for_each {A} (l : list A) (body : A -> M unit) : M unit :=
  match l with
  | [] => ret ()
  | x :: l' => let* _ := body x in for_each l' body
  end.

(** *** Session state *)

Definition get_item (key : string) : M (pyval frame) :=
  fun w => match session w !! key with
           | Some v => (Ok v, w)
           | None => (Raise (KeyError key), w)
           end.

Definition get_attr (key : string) : M (pyval frame) :=
  fun w => match session w !! key with
           | Some v => (Ok v, w)
           | None => (Raise (AttributeError key), w)
           end.

Definition has_item (key : string) : M bool :=
  fun w => (Ok (bool_decide (is_Some (session w !! key))), w).

Definition set_item (key : string) (v : pyval frame) : M unit :=
  fun w => (Ok (), World (<[key := v]> (session w)) (fs w) (page w)).

Definition del_item (key : string) : M unit :=
  fun w => match session w !! key with
           | Some _ => (Ok (), World (delete key (session w)) (fs w) (page w))
           | None => (Raise (KeyError key), w)
           end.

Definition emit (e : event) : M unit :=
  fun w => (Ok (), World (session w) (fs w) (page w ++ [e])).

(** [name in v] for the containers the session holds. *)
Definition contains (v : pyval frame) (x : string) : result bool :=
  match v with
  | PStrList l => Ok (bool_decide (x ∈ l))
  | PFrames d => Ok (bool_decide (is_Some (d !! x)))
  | _ => Raise TypeError
  end.

(** [st.session_state[key].append(x)] *)
Definition list_append (key : string) (x : string) : M unit :=
  let* v := get_item key in
  match v with
  | PStrList l => set_item key (PStrList (l ++ [x]))
  | _ => raise (AttributeError "append")
  end.

(** [st.session_state[key][k] = x] *)
Definition frames_store (key : string) (k : string) (x : frame) : M unit :=
  let* v := get_item key in
  match v with
  | PFrames d => set_item key (PFrames (<[k := x]> d))
  | _ => raise TypeError
  end.

(** [del st.session_state[key][k]] *)
Definition frames_del (key : string) (k : string) : M unit :=
  let* v := get_item key in
  match v with
  | PFrames d =>
      match d !! k with
      | Some _ => set_item key (PFrames (delete k d))
      | None => raise (KeyError k)
      end
  | _ => raise TypeError
  end.

(** [d.keys()] *)
Definition keys_of (d : gmap string frame) : list string :=
  (map_to_list d).*1.

(** [sorted(st.session_state[key].keys())] *)
Definition sorted_keys (key : string) : M (list string) :=
  let* v := get_item key in
  match v with
  | PFrames d => ret (sorted (keys_of d))
  | _ => raise (AttributeError "keys")
  end.

(** *** Disk *)

Definition mkdir (p : list string) : M unit :=
  fun w => (Ok (), World (session w) (mkdir_parents p (fs w)) (page w)).

Definition os_listdir (p : list string) : M (list string) :=
  fun w => (listdir p (fs w), w).

Definition disk_update
    (op : disk frame -> result (disk frame)) : M unit :=
  fun w => match op (fs w) with
           | Ok d => (Ok (), World (session w) d (page w))
           | Raise e => (Raise e, w)
           end.

(** *** The page *)

(** [initializeWorkspace(input_file_types_, parsed_df_types_)] *)
Definition initializeWorkspace (input_file_types_ parsed_df_types_ : list string)
    : M unit :=
  let* _ := for_each input_file_types_ (fun dirname =>
    let* ws := let* v := get_attr "workspace" in lift (as_path v) in
    let* _ := mkdir (ws ++ [dirname]) in
    let* present := has_item dirname in
    let* _ := if present then ret () else set_item dirname (PStrList []) in
    let* ws' := let* v := get_attr "workspace" in lift (as_path v) in
    let* names := os_listdir (ws' ++ [dirname]) in
    set_item dirname (PStrList names)) in
  for_each parsed_df_types_ (fun df_type =>
    let* present := has_item df_type in
    if present then ret () else set_item df_type (PFrames ∅)).

(** [f[0: f.rfind('_')]] *)
Definition experiment_of (f : string) : string := slice_to f (rfind "_" f).

(** [getUploadedFileDF(deconv_files_, anno_files_)]; [pd.DataFrame] wants
    columns of one length. *)
Definition getUploadedFileDF (deconv_files_ anno_files_ : list string)
    : result (list row) :=
  let deconv_files_ := List.map path_name deconv_files_ in
  let anno_files_ := List.map path_name anno_files_ in
  let experiment_names := List.map experiment_of anno_files_ in
  if (List.length deconv_files_ =? List.length anno_files_)%nat
  then Ok (List.map (fun '(e, d, a) => Row e d a)
             (zip (zip experiment_names deconv_files_) anno_files_))
  else Raise ValueError.

(** The two nested loops that open [remove_selected_mzML_files]: for
    each bucket, for each selected experiment, unlink the file and delete
    the cache entry. *)
Definition remove_files (to_remove : list string) : M unit :=
  for_each
    (zip (zip input_file_types parsed_df_types)
         ["_deconv.mzML"; "_annotated.mzML"])
    (fun '(input_type, df_type, file_postfix) =>
      let* ws := let* v := get_item "workspace" in lift (as_path v) in
      let mzml_dir := ws ++ [input_type] in
      for_each to_remove (fun exp_name =>
        let file_name := exp_name +:+ file_postfix in
        let* _ := disk_update (unlink mzml_dir file_name) in
        frames_del df_type file_name)).

(** [remove_selected_mzML_files(to_remove, params)] *)
Definition remove_selected_mzML_files (to_remove : list string)
    (params : list (string * pyval frame)) : M (list (string * pyval frame)) :=
  let* _ := remove_files to_remove in
  let* tmp_df := get_item "experiment-df" in
  match tmp_df with
  | PTable t =>
      let* _ := set_item "experiment-df"
        (PTable (List.filter
                   (fun r => negb (bool_decide (experiment_name r ∈ to_remove)))
                   t)) in
      let* _ := emit (st_success "Selected mzML files removed!") in
      ret params
  | _ => raise TypeError
  end.

(** The [session_name] chosen in the loop of [handleInputFiles]. *)
Definition session_name_of (file_name : string) : string :=
  if endswith file_name "_deconv.mzML" then "deconv-mzMLs"
  else if endswith file_name "_annotated.mzML" then "anno-mzMLs"
  else "".

(** [handleInputFiles(uploaded_files)] *)
Definition handleInputFiles (uploaded_files : list upload) : M unit :=
  for_each uploaded_files (fun file =>
    if negb (endswith (name file) "mzML") then ret ()
    else
      let session_name := session_name_of (name file) in
      let* known := get_item session_name in
      let* seen := lift (contains known (name file)) in
      if seen then ret ()
      else
        let* ws := let* v := get_attr "workspace" in lift (as_path v) in
        let* _ := disk_update
          (write_file (ws ++ [session_name]) (name file)
             (Bytes (getbuffer file))) in
        list_append session_name (name file)).

(** The names of [l] that are not keys of [d]. *)
Definition unparsed (d : gmap string frame) (l : list string) : list string :=
  List.filter (fun f => negb (bool_decide (is_Some (d !! f)))) l.

(** [[f for f in files if f not in st.session_state[cache]]]; the cache is
    looked up once per element, so not at all for an empty list. *)
Definition not_in_cache (files : pyval frame) (cache : string)
    : M (list string) :=
  match files with
  | PStrList [] => ret []
  | PStrList l =>
      let* c := get_item cache in
      match c with
      | PFrames d => ret (unparsed d l)
      | PStrList l' =>
          ret (List.filter (fun f => negb (bool_decide (f ∈ l'))) l)
      | _ => raise TypeError
      end
  | _ => raise TypeError
  end.

Definition mismatch_message : string :=
  "Added files are not in pair, so not parsed. " +:+ newline +:+
  " Here are uploaded ones, but not parsed ones:".

Variable parseFLASHDeconvOutput :
  list string -> list string -> disk frame ->
  result (frame * frame * scalar * scalar * scalar).

(** Body of the pairing loop of [parseUploadedFiles]. *)
Definition parse_pair (pair : string * string) : M unit :=
  let '(anno_f, deconv_f) := pair in
  if negb (endswith anno_f ".mzML") then ret ()
  else
    let exp_name := experiment_of anno_f in
    let* _ := emit (st_spinner ("Parsing the experiment " +:+ exp_name +:+ "...")) in
    let* ws_a := let* v := get_item "workspace" in lift (as_path v) in
    let* ws_d := let* v := get_item "workspace" in lift (as_path v) in
    let* parsed := fun w =>
      (parseFLASHDeconvOutput (ws_a ++ ["anno-mzMLs"; anno_f])
         (ws_d ++ ["deconv-mzMLs"; deconv_f]) (fs w), w) in
    let '(spec_df, anno_df, _, _, _) := parsed in
    let* _ := frames_store "anno_dfs" anno_f anno_df in
    let* _ := frames_store "deconv_dfs" deconv_f spec_df in
    emit (st_success ("Done parsing the experiment " +:+ exp_name +:+ "!")).

(** [parseUploadedFiles()] *)
Definition parseUploadedFiles : M unit :=
  let* deconv_files := get_item "deconv-mzMLs" in
  let* anno_files := get_item "anno-mzMLs" in
  let* new_deconv_files := not_in_cache deconv_files "deconv_dfs" in
  let* new_anno_files := not_in_cache anno_files "anno_dfs" in
  if (List.length new_deconv_files =? 0)%nat && (List.length new_anno_files =? 0)%nat
  then ret ()
  else if negb (List.length new_deconv_files =? List.length new_anno_files)%nat
  then
    let* _ := emit (st_error mismatch_message) in
    let not_parsed := new_deconv_files ++ new_anno_files in
    for_each not_parsed (fun i => emit (st_markdown ("- " +:+ i)))
  else
    let new_deconv_files := sorted new_deconv_files in
    let new_anno_files := sorted new_anno_files in
    let* bar := get_item "progress_bar_space" in
    match bar with
    | PContainer => for_each (zip new_anno_files new_deconv_files) parse_pair
    | _ => raise (AttributeError "__enter__")
    end.

(** [v_space(n)] of [src/common.py], without a column: [st.write("#")],
    [n] times. *)
Definition v_space (n : nat) : M unit :=
  for_each (seq 0 n) (fun _ => emit (st_write "#")).

(** [showUploadedFilesTable()] *)
Definition showUploadedFilesTable : M bool :=
  let* deconv_files := sorted_keys "deconv_dfs" in
  let* anno_files := sorted_keys "anno_dfs" in
  if (List.length deconv_files =? 0)%nat && (List.length anno_files =? 0)%nat then
    let* _ := emit (st_info "No mzML added yet!") in ret false
  else if (List.length deconv_files =? 0)%nat then
    let* _ := emit (st_error "FLASHDeconv deconvolved mzML file is not added yet!") in
    ret false
  else if (List.length anno_files =? 0)%nat then
    let* _ := emit (st_error "FLASHDeconv annotated mzML file is not added yet!") in
    ret false
  else if negb (List.length deconv_files =? List.length anno_files)%nat then
    let* _ := emit (st_error
      "The same number of deconvolved and annotated mzML file should be uploaded!") in
    ret false
  else
    let* _ := v_space 2 in
    let* df := lift (getUploadedFileDF deconv_files anno_files) in
    let* _ := set_item "experiment-df" (PTable df) in
    let* _ := emit (st_markdown "**Uploaded experiments in current workspace**") in
    let* shown := get_item "experiment-df" in
    let* _ := match shown with
              | PTable t => emit (st_dataframe t)
              | _ => raise TypeError
              end in
    let* _ := v_space 1 in
    ret true.

(** The branch of the page behind the [Remove all] button. *)
Definition remove_all : M unit :=
  let* _ := for_each (zip input_file_types parsed_df_types)
    (fun '(file_option, df_option) =>
      let* has_files := has_item file_option in
      let* _ :=
        if has_files then
          let* ws := let* v := get_attr "workspace" in lift (as_path v) in
          let* _ := fun w =>
            (Ok (), World (session w)
                      (reset_directory (ws ++ [file_option]) (fs w)) (page w)) in
          set_item file_option (PStrList [])
        else ret () in
      let* has_dfs := has_item df_option in
      if has_dfs then set_item df_option (PFrames ∅) else ret ()) in
  let* _ := emit (st_success "All mzML files removed!") in
  del_item "experiment-df".

(** One run of the page script from the statement after
    [params = page_setup()] up to the summary table, in the session that
    [page_setup] leaves, which has the workspace bound: workspace
    initialisation, the upload form ([submitted] is what the form handed
    over, if its button was pressed), the pairing cycle and the display
    step. *)
Definition page_run (submitted : option (list upload)) : M bool :=
  let* _ := initializeWorkspace input_file_types parsed_df_types in
  let* _ :=
    match submitted with
    | None => ret ()
    | Some [] => emit (st_warning "Upload some files before adding them.")
    | Some uploaded_file =>
        let* _ := handleInputFiles uploaded_file in
        emit (st_success "Successfully added uploaded files!")
    end in
  let* _ := set_item "progress_bar_space" PContainer in
  let* _ := parseUploadedFiles in
  showUploadedFilesTable.

(** [postprocessingAfterUpload_FD(uploaded_files)] *)
Definition postprocessingAfterUpload_FD (uploaded_files : list upload)
    : M unit :=
  let* _ := initializeWorkspace input_file_types parsed_df_types in
  let* _ := parseUploadedFiles in
  let* _ := showUploadedFilesTable in
  ret ().

(** *** Vocabulary of the properties *)

(** The two lists of known file names. *)
Definition registries (w : world) (dl al : list string) : Prop :=
  session w !! "deconv-mzMLs" = Some (PStrList dl) /\
  session w !! "anno-mzMLs" = Some (PStrList al).

(** The two parse caches. *)
Definition caches (w : world) (dc ac : gmap string frame) : Prop :=
  session w !! "deconv_dfs" = Some (PFrames dc) /\
  session w !! "anno_dfs" = Some (PFrames ac).

(** Neither list of known file names holds a name twice. *)
Definition registry_distinct (w : world) : Prop :=
  forall key l,
    key ∈ input_file_types -> session w !! key = Some (PStrList l) -> NoDup l.

(** The file names that [remove_selected_mzML_files] builds from
    [to_remove] are plain names, and no directory stands in a bucket
    directory under one of them. *)
Definition plain_targets (ws : list string) (to_remove : list string)
    (d : disk frame) : Prop :=
  forall e, e ∈ to_remove ->
    plain_name (e +:+ "_deconv.mzML") = true
    /\ plain_name (e +:+ "_annotated.mzML") = true
    /\ d !! (ws ++ ["deconv-mzMLs"; e +:+ "_deconv.mzML"]) = None
    /\ d !! (ws ++ ["anno-mzMLs"; e +:+ "_annotated.mzML"]) = None.

(** The summary table, none before the first successful display. *)
Definition summary (w : world) : option (list row) :=
  match session w !! "experiment-df" with
  | Some (PTable t) => Some t
  | _ => None
  end.
End FileUpload.

Arguments world frame : clear implicits.
Arguments M frame A : clear implicits.

End FileUpload.


(** ** More of [src/common.py]: reading parameters, switching workspace *)

Module FsSpec.
Import Py Fs.

(** No file has the name of [p] or of a directory on the way to [p], so
    that [mkdir] and [rmtree] find at each step a directory or nothing. *)
Definition no_file_on_path {frame : Type} (p : list string) (d : disk frame)
    : Prop :=
  forall q n (files : gmap string (content frame)),
    (q ++ [n]) `prefix_of` p -> d !! q = Some files -> files !! n = None.

End FsSpec.

Module Params.
Import Py Fs Common.

(** What reading a file can raise: the exceptions of [Py.exn], or
    [IsADirectoryError] when the path names a directory. *)
Inductive raised : Type :=
  | PyExn (e : exn)
  | IsADirectoryError (where_ : list string).

Inductive outcome (A : Type) : Type :=
  | Returns (a : A)
  | Raises (e : raised).
Arguments Returns {A} a.
Arguments Raises {A} e.

Section Params.
Context {frame : Type}.

(** The JSON decoder on raw bytes is not part of this development;
    [None] stands for [json.JSONDecodeError], a [ValueError]. *)
Variable json_loads : list Byte.byte -> option (list (string * pyval frame)).

(** [json.load(f)] on what the file holds.  A document written by
    [json.dump] reads back as the dictionary it was written from. *)
Definition json_load (c : content frame) : result (list (string * pyval frame)) :=
  match c with
  | JsonDoc doc => Ok doc
  | Truncated => Raise ValueError
  | Bytes b =>
      match json_loads b with
      | Some doc => Ok doc
      | None => Raise ValueError
      end
  end.

(** [Path(dir, name).exists()] *)
Definition path_exists (dir : list string) (name : string) (d : disk frame) : bool :=
  bool_decide (is_Some (d !! (dir ++ [name])))
  || match d !! dir with
     | Some files => bool_decide (is_Some (files !! name))
     | None => false
     end.

(** [with open(Path(dir, name), "r") as f: json.load(f)] *)
Definition read_json (dir : list string) (name : string) (d : disk frame) :
    outcome (list (string * pyval frame)) :=
  if bool_decide (is_Some (d !! (dir ++ [name])))
  then Raises (IsADirectoryError (dir ++ [name]))
  else
    match d !! dir with
    | Some files =>
        match files !! name with
        | Some c =>
            match json_load c with
            | Ok doc => Returns doc
            | Raise e => Raises (PyExn e)
            end
        | None => Raises (PyExn (FileNotFoundError (dir ++ [name])))
        end
    | None => Raises (PyExn (FileNotFoundError (dir ++ [name])))
    end.

(** [load_params(default)] *)
Definition load_params (default : bool) (st : session_state frame) (d : disk frame) :
    outcome (list (string * pyval frame)) :=
  match workspace_attr st with
  | Raise e => Raises (PyExn e)
  | Ok ws =>
      if path_exists ws "params.json" d && negb default
      then read_json ws "params.json" d
      else read_json ["assets"] "default-params.json" d
  end.
End Params.

End Params.

Module Sidebar.
Import Py Fs Common.

(** The components of a path given as a string: empty and [.] components
    are dropped. *)
Definition path_parts (s : string) : list string :=
  List.filter (fun x => negb (String.eqb x "") && negb (String.eqb x "."))
    (split_on "/" s).

Definition is_absolute (s : string) : bool :=
  match s with
  | String c _ => Ascii.eqb c "/"
  | EmptyString => false
  end.

(** [Path(base, s)] for a string [s]: an absolute [s] replaces [base]. *)
Definition path_join (base : list string) (s : string) : list string :=
  if is_absolute s then "/" :: path_parts s else base ++ path_parts s.

(** [Path(base, p)] for a path [p]. *)
Definition path_join_path (base p : list string) : list string :=
  match p with
  | "/" :: _ => p
  | _ => base ++ p
  end.

Section Sidebar.
Context {frame : Type}.

(** The loop of [change_workspace]:
    [if key in st.session_state.keys(): del st.session_state[key]]. *)
Definition drop_overrides (params : list (string * pyval frame))
    (st : session_state frame) : session_state frame :=
  List.fold_left
    (fun st key => if bool_decide (is_Some (st !! key)) then delete key st else st)
    (dict_keys params) st.

(** The callback [change_workspace] that [render_sidebar] hands to the
    workspace selector; [params] is the dictionary [render_sidebar] loaded.
    The session is returned next to the outcome: the deletions stay when
    the look-up of the chosen workspace raises. *)
Definition change_workspace (params : list (string * pyval frame))
    (st : session_state frame) : result unit * session_state frame :=
  let st1 := drop_overrides params st in
  match st1 !! "chosen-workspace" with
  | None => (Raise (KeyError "chosen-workspace"), st1)
  | Some (PStr s) =>
      (Ok (), <["workspace" := PPath (path_join ["workspaces"] s)]> st1)
  | Some (PPath p) =>
      (Ok (), <["workspace" := PPath (path_join_path ["workspaces"] p)]> st1)
  | Some _ => (Raise TypeError, st1)
  end.
End Sidebar.

End Sidebar.

(** ** More vocabulary for [pages/FileUpload.py] *)

Module UploadSpec.
Import Py Fs Common FileUpload FsSpec.

Section UploadSpec.
Context {frame : Type}.

(** Every file of a bucket directory is in the list kept under the
    session key of the same name. *)
Definition listed (w : world frame) : Prop :=
  forall ws key l (files : gmap string (content frame)) n,
    key ∈ input_file_types ->
    workspace_attr (session w) = Ok ws ->
    session w !! key = Some (PStrList l) ->
    fs w !! (ws ++ [key]) = Some files ->
    is_Some (files !! n) -> n ∈ l.

(** No file present in [w] is missing or different in [w']. *)
Definition files_kept (w w' : world frame) : Prop :=
  forall dir (files : gmap string (content frame)) n c,
    fs w !! dir = Some files -> files !! n = Some c ->
    exists files', fs w' !! dir = Some files' /\ files' !! n = Some c.

(** The lists of names of [w] are initial segments of those of [w']. *)
Definition lists_extended (w w' : world frame) : Prop :=
  forall key l,
    session w !! key = Some (PStrList l) ->
    exists more, session w' !! key = Some (PStrList (l ++ more)).

(** The bucket directories of workspace [ws] hold files only, no
    directories. *)
Definition flat_buckets (ws : list string) (d : disk frame) : Prop :=
  forall bucket q,
    bucket ∈ input_file_types -> q <> [] -> d !! (ws ++ bucket :: q) = None.

(** No file is in the way of a bucket directory of workspace [ws]. *)
Definition clear_way (ws : list string) (d : disk frame) : Prop :=
  forall bucket,
    bucket ∈ input_file_types -> no_file_on_path (ws ++ [bucket]) d.

(** What a batch of uploads preserves: both lists there, no list under the
    empty key, every file of a bucket directory listed, no directory inside
    a bucket directory. *)
Definition ingest_inv (w : world frame) : Prop :=
  (exists dl al, registries w dl al) /\ session w !! "" = None /\ listed w
  /\ (forall ws, workspace_attr (session w) = Ok ws -> flat_buckets ws (fs w)).

(** [if key not in st.session_state: st.session_state[key] = {}] *)
Definition ensure_frames (key : string) (st : session_state frame)
    : session_state frame :=
  if bool_decide (is_Some (st !! key)) then st else <[key := PFrames ∅]> st.

(** The names [os.listdir] gives for a bucket of workspace [ws] once the
    bucket directory was made. *)
Definition bucket_names (ws : list string) (bucket : string) (d : disk frame)
    : list string :=
  (map_to_list (default ∅ (d !! (ws ++ [bucket])))).*1.

(** The world [initializeWorkspace] leaves for workspace [ws]. *)
Definition initialised (ws : list string) (w : world frame) : world frame :=
  World
    (ensure_frames "anno_dfs"
       (ensure_frames "deconv_dfs"
          (<["anno-mzMLs" := PStrList (bucket_names ws "anno-mzMLs" (fs w))]>
             (<["deconv-mzMLs" := PStrList (bucket_names ws "deconv-mzMLs" (fs w))]>
                (session w)))))
    (mkdir_parents (ws ++ ["anno-mzMLs"])
       (mkdir_parents (ws ++ ["deconv-mzMLs"]) (fs w)))
    (page w).
End UploadSpec.

End UploadSpec.
(** ** Example worlds *)

Module Examples.
Import Py Fs Common FileUpload.

(** The scenario of the design document: the session holds ["png"] for
    ["image-format"], the file on disk and the loaded parameters still hold
    ["svg"]. *)
Definition example_workspace : list string := ["workspaces"; "default"].

Definition example_params : list (string * pyval unit) :=
  [("image-format", PStr "svg"); ("threads", PInt 4)].

Definition example_session : session_state unit :=
  <["image-format" := PStr "png"]>
    (<["workspace" := PPath example_workspace]>
       (<["deconv-mzMLs" := PStrList ["exp1_deconv.mzML"]]> ∅)).

Definition example_files : gmap string (content unit) :=
  <["params.json" := JsonDoc example_params]> ∅.

Definition example_disk : disk unit := <[example_workspace := example_files]> ∅.

(** A second session with the same value under the key of [params] it
    shares, and different entries elsewhere. *)
Definition example_session' : session_state unit :=
  <["image-format" := PStr "png"]>
    (<["workspace" := PPath example_workspace]>
       (<["anno_dfs" := PFrames ∅]> ∅)).

(** A session bound to the example workspace, nothing uploaded yet, and an
    empty disk. *)
Definition fresh_world {frame : Type} : world frame :=
  World (<["workspace" := PPath example_workspace]> ∅) ∅ [].

(** In the examples a parsed table is the path of the file it was parsed
    from, so that a cache entry shows which file went into it. *)
Definition example_parser :
    list string -> list string -> disk (list string) ->
    result (list string * list string * Z * Z * Z) :=
  fun anno_path deconv_path _ => Ok (deconv_path, anno_path, 0%Z, 0%Z, 0%Z).

(** A parser that rejects the annotated file [bad]. *)
Definition rejecting_parser (bad : string) :
    list string -> list string -> disk (list string) ->
    result (list string * list string * Z * Z * Z) :=
  fun anno_path deconv_path _ =>
    if bool_decide (List.last anno_path "" = bad)
    then Raise (ParserError "malformed mzML")
    else Ok (deconv_path, anno_path, 0%Z, 0%Z, 0%Z).

Definition named (file_name : string) : upload := Upload file_name [].

(** The world in which [parseUploadedFiles] starts after the named files
    were submitted to a fresh session. *)
Definition after_upload (names : list string) : world (list string) :=
  (bind (initializeWorkspace input_file_types parsed_df_types) (fun _ =>
   bind (handleInputFiles (List.map named names)) (fun _ =>
   set_item "progress_bar_space" PContainer)) fresh_world).2.

(** Two deconvolved files and one annotated file. *)
Definition unpaired_world : world (list string) :=
  after_upload ["a_deconv.mzML"; "b_deconv.mzML"; "a_annotated.mzML"].

(** Two complete pairs, submitted out of order. *)
Definition two_pairs_world : world (list string) :=
  after_upload ["b_deconv.mzML"; "a_deconv.mzML"; "a_annotated.mzML"; "b_annotated.mzML"].

(** The world after the page ran on a submission of the [exp1] pair. *)
Definition exp1_world : world (list string) :=
  (page_run example_parser
     (Some [named "exp1_deconv.mzML"; named "exp1_annotated.mzML"])
     fresh_world).2.

(** Deconvolved files of [A] and [B], annotated files of [A] and [C]: the
    counts match, the second positional pair is ([C_annotated], [B_deconv]). *)
Definition mispaired_world : world (list string) :=
  (page_run example_parser
     (Some [named "A_deconv.mzML"; named "B_deconv.mzML";
            named "A_annotated.mzML"; named "C_annotated.mzML"])
     fresh_world).2.

(** Paths and summary row of the [exp1] pair. *)
Definition exp1_deconv_path : list string :=
  example_workspace ++ ["deconv-mzMLs"; "exp1_deconv.mzML"].

Definition exp1_anno_path : list string :=
  example_workspace ++ ["anno-mzMLs"; "exp1_annotated.mzML"].

Definition exp1_row : row := Row "exp1" "exp1_deconv.mzML" "exp1_annotated.mzML".

(** A session in which the key ["threads"] of the parameters holds an
    object that [json.dump] cannot encode. *)
Definition unserialisable_session : session_state unit :=
  <["threads" := PObject "slider"]>
    (<["workspace" := PPath example_workspace]> ∅).

(** A session in which the workspace selector holds ["other"]. *)
Definition switching_session : session_state unit :=
  <["chosen-workspace" := PStr "other"]> example_session.

(** The example workspace with a deconvolved bucket that holds a file and
    a subdirectory. *)
Definition nested_disk : disk unit :=
  <[example_workspace ++ ["deconv-mzMLs"; "cache"] := ∅]>
    (<[example_workspace ++ ["deconv-mzMLs"] := {[ "exp1_deconv.mzML" := Bytes [] ]}]>
       example_disk).

(** The fresh world after [initializeWorkspace]: both bucket directories
    exist and are empty, both lists and both caches are empty. *)
Definition initialised_world : world unit :=
  (initializeWorkspace input_file_types parsed_df_types fresh_world).2.

(** A world whose deconvolved bucket holds a file the session does not
    know about yet, with a populated parse cache. *)
Definition stale_world : world unit :=
  World
    (<["deconv_dfs" := PFrames {[ "old_deconv.mzML" := tt ]}]>
       (<["workspace" := PPath example_workspace]> ∅))
    (<[example_workspace ++ ["deconv-mzMLs"] := {[ "exp1_deconv.mzML" := Bytes [] ]}]>
       example_disk)
    [].

(** One new name in each bucket, the annotated one not an mzML file. *)
Definition stray_world : world (list string) :=
  World
    (<["progress_bar_space" := PContainer]>
       (<["anno_dfs" := PFrames ∅]>
          (<["deconv_dfs" := PFrames ∅]>
             (<["anno-mzMLs" := PStrList ["Thumbs.db"]]>
                (<["deconv-mzMLs" := PStrList ["a_deconv.mzML"]]>
                   (<["workspace" := PPath example_workspace]> ∅))))))
    ∅ [].


(** The complete pairs of the identities [a] and [a_b]. *)
Definition crossed_world : world (list string) :=
  after_upload ["a_deconv.mzML"; "a_annotated.mzML";
                "a_b_deconv.mzML"; "a_b_annotated.mzML"].

End Examples.

(** * Properties *)

(** ** Parameter persistence *)

Module CommonProofs.
Import Py Fs Common Examples.

Section Merge.
Context {frame : Type}.
Implicit Types (params : list (string * pyval frame)).
Implicit Types (st : session_state frame).

Lemma dict_keys_overridden st params :
  dict_keys (overridden st params) = dict_keys params.
Proof.
  unfold dict_keys, overridden.
  induction params as [|[k v] ps IH]; [done|]. simpl. by f_equal.
Qed.




Lemma overridden_empty params : overridden ∅ params = params.
Proof.
  unfold overridden. induction params as [|[k v] ps IH]; simpl; [done|].
  by rewrite lookup_empty, IH.
Qed.

Lemma overridden_insert_fresh st params i x :
  i ∉ dict_keys params -> overridden (<[i:=x]> st) params = overridden st params.
Proof.
  unfold overridden, dict_keys. induction params as [|[k v] ps IH]; simpl; [done|].
  intros Hnotin. apply not_elem_of_cons in Hnotin as [Hne Hnotin].
  rewrite lookup_insert_ne by done. by rewrite IH.
Qed.

Lemma dict_set_overridden st params i x :
  NoDup (dict_keys params) -> i ∈ dict_keys params -> st !! i = None ->
  dict_set i x (overridden st params) = overridden (<[i:=x]> st) params.
Proof.
  induction params as [|[k v] ps IH]; simpl; intros Hnd Hin Hfresh.
  - by apply elem_of_nil in Hin.
  - apply NoDup_cons in Hnd as [Hk Hnd].
    destruct (String.eqb_spec k i) as [->|Hne].
    + rewrite lookup_insert_eq. simpl.
      by rewrite (overridden_insert_fresh st ps i x Hk).
    + rewrite lookup_insert_ne by done.
      apply elem_of_cons in Hin as [->|Hin]; [done|].
      by rewrite IH.
Qed.

(** On a dictionary (distinct keys) the loop of [save_params] computes the
    merge of the design document. *)
Lemma merge_overrides_overridden params st :
  NoDup (dict_keys params) -> merge_overrides params st = overridden st params.
Proof.
  intros Hnd. unfold merge_overrides.
  apply (map_fold_weak_ind (fun r m => r = overridden m params)).
  - by rewrite overridden_empty.
  - intros i x m r Hfresh ->. unfold override_step.
    rewrite dict_keys_overridden. case_bool_decide as Hin.
    + by apply dict_set_overridden.
    + by rewrite overridden_insert_fresh.
Qed.

Lemma dict_get_overridden st params k :
  dict_get k (overridden st params)
  = (fun v => default v (st !! k)) <$> dict_get k params.
Proof.
  induction params as [|[k' v'] ps IH]; simpl; [done|].
  destruct (String.eqb_spec k' k) as [->|Hne]; [done|]. apply IH.
Qed.

Lemma dict_get_is_Some params k :
  is_Some (dict_get k params) <-> k ∈ dict_keys params.
Proof.
  unfold dict_keys. induction params as [|[k' v'] ps IH]; simpl.
  - split; [by intros [? ?]|by intros ?%elem_of_nil].
  - destruct (String.eqb_spec k' k) as [->|Hne].
    + split; [intros _; apply elem_of_cons; by left|by eauto].
    + rewrite IH, elem_of_cons. split; [by right|].
      intros [?|?]; [congruence|done].
Qed.


Lemma serialisable_overridden st params :
  (forall k v, (k, v) ∈ params -> serialisable v = true) ->
  (forall k v, k ∈ dict_keys params -> st !! k = Some v -> serialisable v = true) ->
  forallb (fun kv => serialisable kv.2) (overridden st params) = true.
Proof.
  unfold overridden, dict_keys. induction params as [|[k v] ps IH]; simpl; [done|].
  intros Hp Hs. apply andb_true_iff. split.
  - destruct (st !! k) as [x|] eqn:Hx; simpl.
    + apply (Hs k x); [apply elem_of_cons; by left|done].
    + apply (Hp k v). apply elem_of_cons. by left.
  - apply IH.
    + intros k' v' Hin. apply (Hp k' v'). apply elem_of_cons. by right.
    + intros k' v' Hin. apply Hs. apply elem_of_cons. by right.
Qed.


(** C8: when parameters are saved to a workspace directory in which no
    directory stands at [params.json], every key of [params] that is also
    a session key takes the session value, and the merged mapping replaces
    whatever the workspace parameter file held.  The persisted document is
    [overridden st params]; in it [key] holds the session value [v]
    whatever [params] held before ([old], for instance a stale value read
    from disk). *)
Theorem save_params_override_wins params st d ws files key old v :
  NoDup (dict_keys params) ->
  workspace_attr st = Ok ws ->
  d !! ws = Some files ->
  d !! (ws ++ ["params.json"]) = None ->
  (forall k x, (k, x) ∈ params -> serialisable x = true) ->
  (forall k x, k ∈ dict_keys params -> st !! k = Some x -> serialisable x = true) ->
  dict_get key params = Some old ->
  st !! key = Some v ->
  exists params',
    save_params params st d
    = (Ok (), params', <[ws := <["params.json" := JsonDoc params']> files]> d)
    /\ params' = overridden st params
    /\ dict_get key params' = Some v.
Proof.
  intros Hnd Hws Hdir Hfree Hp Hs Hold Hv. exists (overridden st params).
  split; [|split; [done|]].
  - unfold save_params. rewrite Hws, Hdir, Hfree.
    rewrite bool_decide_eq_false_2 by (by intros [? ?]).
    rewrite (merge_overrides_overridden params st Hnd).
    by rewrite (serialisable_overridden st params Hp Hs).
  - by rewrite dict_get_overridden, Hold, Hv.
Qed.

End Merge.

Lemma save_params_override_wins_witness :
  exists params',
    save_params example_params example_session example_disk
    = (Ok (), params',
       <[example_workspace := <["params.json" := JsonDoc params']> example_files]>
         example_disk)
    /\ params' = overridden example_session example_params
    /\ dict_get "image-format" params' = Some (PStr "png").
Proof.
  apply (save_params_override_wins example_params example_session example_disk
           example_workspace example_files "image-format" (PStr "svg") (PStr "png")).
  - compute_done.
  - reflexivity.
  - reflexivity.
  - reflexivity.
  - intros k x Hin. unfold example_params in Hin.
    repeat (apply elem_of_cons in Hin as [Heq|Hin];
            [injection Heq as -> ->; reflexivity|]).
    by apply elem_of_nil in Hin.
  - intros k x Hin. unfold example_params, dict_keys in Hin. simpl in Hin.
    repeat (apply elem_of_cons in Hin as [->|Hin];
            [vm_compute; intros [= <-]; reflexivity|]).
    by apply elem_of_nil in Hin.
  - reflexivity.
  - reflexivity.
Defined.


End CommonProofs.

(** ** The directory tree *)

Module FsProofs.
Import Py Fs Common.

Section Disk.
Context {frame : Type}.
Implicit Types (d : disk frame) (p q : list string).

Lemma lookup_ensure_dirs (l : list (list string)) : forall d q,
  fold_left (fun d q => ensure_dir q d) l d !! q
  = match d !! q with
    | Some x => Some x
    | None => if bool_decide (q ∈ l) then Some ∅ else None
    end.
Proof.
  induction l as [|p l IH]; intros d q; cbn [fold_left].
  - by destruct (d !! q).
  - rewrite IH. unfold ensure_dir. destruct (d !! p) as [x|] eqn:Hp.
    + destruct (d !! q) as [y|] eqn:Hq; [done|].
      assert (q <> p) as Hne by congruence.
      destruct (decide (q ∈ l)) as [Hin|Hnotin].
      * rewrite !bool_decide_eq_true_2; [done| |done]. by right.
      * rewrite !bool_decide_eq_false_2; [done| |done].
        by intros [?|?]%elem_of_cons.
    + destruct (decide (p = q)) as [->|Hne].
      * rewrite lookup_insert_eq, Hp. rewrite bool_decide_eq_true_2; [done|by left].
      * rewrite lookup_insert_ne by done. destruct (d !! q) as [y|]; [done|].
        destruct (decide (q ∈ l)) as [Hin|Hnotin].
        -- rewrite !bool_decide_eq_true_2; [done| |done]. by right.
        -- rewrite !bool_decide_eq_false_2; [done| |done].
           intros [?|?]%elem_of_cons; [congruence|done].
Qed.

(** [mkdir] keeps what exists and adds empty directories along [p]. *)
Lemma lookup_mkdir_parents p d q :
  mkdir_parents p d !! q
  = match d !! q with
    | Some x => Some x
    | None => if bool_decide (q ∈ ancestors p) then Some ∅ else None
    end.
Proof. apply lookup_ensure_dirs. Qed.

Lemma ancestors_self p : p <> [] -> p ∈ ancestors p.
Proof.
  intros Hne. unfold ancestors. apply list_elem_of_In, in_map_iff.
  exists (List.length p). split; [apply firstn_all|].
  apply in_seq. destruct p; [done|]. simpl. lia.
Qed.

Lemma elem_of_ancestors p q : q ∈ ancestors p -> q `prefix_of` p.
Proof.
  unfold ancestors. intros Hin. apply list_elem_of_In, in_map_iff in Hin.
  destruct Hin as (n & <- & _). apply prefix_take.
Qed.

Lemma lookup_rmtree p d q :
  rmtree p d !! q = if bool_decide (p `prefix_of` q) then None else d !! q.
Proof.
  unfold rmtree. case_bool_decide as Hpre.
  - apply map_lookup_filter_None. right. intros x _ Hnot. by apply Hnot.
  - destruct (d !! q) as [x|] eqn:Hq.
    + by apply map_lookup_filter_Some.
    + apply map_lookup_filter_None. by left.
Qed.

(** After [reset_directory] the directory exists and is empty. *)
Lemma lookup_reset_directory_eq p d :
  p <> [] -> reset_directory p d !! p = Some ∅.
Proof.
  intros Hne. unfold reset_directory. rewrite lookup_mkdir_parents.
  case_bool_decide as Hex.
  - rewrite lookup_rmtree, bool_decide_eq_true_2 by done.
    by rewrite bool_decide_eq_true_2 by (by apply ancestors_self).
  - apply eq_None_not_Some in Hex. rewrite Hex.
    by rewrite bool_decide_eq_true_2 by (by apply ancestors_self).
Qed.

(** Directories that are neither below [p] nor above it are untouched. *)
Lemma lookup_reset_directory_ne p d q :
  ¬ p `prefix_of` q -> ¬ q `prefix_of` p ->
  reset_directory p d !! q = d !! q.
Proof.
  intros Hpq Hqp. unfold reset_directory. rewrite lookup_mkdir_parents.
  assert (q ∉ ancestors p) as Hanc by (by intros ?%elem_of_ancestors).
  rewrite (bool_decide_eq_false_2 _ Hanc).
  case_bool_decide.
  - rewrite lookup_rmtree, bool_decide_eq_false_2 by done. by destruct (d !! q).
  - by destruct (d !! q).
Qed.

Lemma sibling_not_prefix (ws : list string) a b :
  a <> b -> ¬ (ws ++ [a]) `prefix_of` (ws ++ [b]).
Proof.
  intros Hne [k Hk]. rewrite <- app_assoc in Hk. apply app_inv_head in Hk.
  by injection Hk.
Qed.
End Disk.

End FsProofs.

(** ** Upload registry, pairing cycle, summary table, removal *)

Module FileUploadProofs.
Import Py Fs Common FileUpload Examples FsProofs.

(** *** Strings and sorting *)

#[local] Instance str_le_total : Total str_le.
Proof. intros a b. unfold str_le. apply String.leb_total. Qed.

Lemma sorted_Sorted l : Sorted str_le (sorted l).
Proof. apply Sorted_merge_sort, _. Qed.

Lemma sorted_Permutation l : sorted l ≡ₚ l.
Proof. apply merge_sort_Permutation. Qed.

Lemma sorted_length l : List.length (sorted l) = List.length l.
Proof. apply Permutation_length, sorted_Permutation. Qed.

Lemma sorted_NoDup l : NoDup l -> NoDup (sorted l).
Proof. intros H. by rewrite sorted_Permutation. Qed.

(** [rfind] returns [-1] or an index. *)
Lemma rfind_lower c s : (-1 <= rfind c s)%Z.
Proof.
  induction s as [|a s IH]; simpl; [lia|].
  destruct (0 <=? rfind c s)%Z eqn:E; [lia|]. destruct (Ascii.eqb a c); lia.
Qed.

Lemma rfind_split_nat c s :
  (0 <= rfind c s)%Z ->
  (Z.to_nat (rfind c s) < String.length s)%nat /\
  exists rest,
    s = String.substring 0 (Z.to_nat (rfind c s)) s +:+ String c rest
    /\ rfind c rest = (-1)%Z.
Proof.
  induction s as [|a s IH]; [simpl; lia|].
  pose proof (rfind_lower c s) as Hlow.
  cbn [rfind]. destruct (0 <=? rfind c s)%Z eqn:E.
  - intros _. apply Z.leb_le in E. destruct (IH E) as (Hlen & rest & Hs & Hrest).
    replace (Z.to_nat (rfind c s + 1)) with (S (Z.to_nat (rfind c s))) by lia.
    split; [simpl; lia|]. exists rest. split; [|done].
    etransitivity; [apply (f_equal (String a) Hs)|reflexivity].
  - apply Z.leb_gt in E. destruct (Ascii.eqb_spec a c) as [->|Hne]; [|lia].
    intros _. split; [simpl; lia|]. exists s. split; [|lia].
    simpl. by destruct s.
Qed.

(** Cutting at the last occurrence of [c] leaves a prefix, [c], and a rest
    without [c]. *)
Lemma rfind_split c s :
  (0 <= rfind c s)%Z ->
  exists rest,
    s = slice_to s (rfind c s) +:+ String c rest /\ rfind c rest = (-1)%Z.
Proof.
  intros H. destruct (rfind_split_nat c s H) as (Hlen & rest & Hs & Hrest).
  exists rest. split; [|done]. unfold slice_to.
  assert ((rfind c s <? 0)%Z = false) as -> by lia.
  replace (Z.min (rfind c s) (Z.of_nat (String.length s))) with (rfind c s) by lia.
  done.
Qed.

Lemma NoDup_lookup_drop {A} (l : list A) i x :
  NoDup l -> l !! i = Some x -> x ∉ drop (S i) l.
Proof.
  intros Hnd Hi. rewrite <- (take_drop_middle l i x Hi) in Hnd.
  apply NoDup_app in Hnd as (_ & _ & Hnd). by apply NoDup_cons in Hnd as [? _].
Qed.

Lemma NoDup_app_middle {A} (l1 l2 : list A) x :
  NoDup (l1 ++ x :: l2) -> (x ∉ l1) /\ (x ∉ l2) /\ forall y, y ∈ l2 -> y ∉ l1.
Proof.
  intros Hnd. apply NoDup_app in Hnd as (_ & Hdisj & Hnd).
  apply NoDup_cons in Hnd as [Hx _]. split_and!; [|done|].
  - intros Hin. apply (Hdisj x Hin). by left.
  - intros y Hy Hin. apply (Hdisj y Hin). by right.
Qed.

Lemma append_length a p : String.length (a +:+ p) = String.length a + String.length p.
Proof. induction a as [|x a IH]; simpl; [done|]. by rewrite IH. Qed.

(** A suffix can be cancelled. *)
Lemma append_inj_l p a b : a +:+ p = b +:+ p -> a = b.
Proof.
  revert b. induction a as [|x a IH]; intros [|y b] H.
  - done.
  - apply (f_equal String.length) in H. rewrite !append_length in H. simpl in H. lia.
  - apply (f_equal String.length) in H. rewrite !append_length in H. simpl in H. lia.
  - injection H as -> H. f_equal. by apply IH.
Qed.

(** Without a separator the string is its only component. *)
Lemma split_on_absent c s : rfind c s = (-1)%Z -> split_on c s = [s].
Proof.
  induction s as [|a s IH]; [done|]. cbn [rfind split_on].
  pose proof (rfind_lower c s).
  destruct (0 <=? rfind c s)%Z eqn:E; [lia|]. apply Z.leb_gt in E.
  destruct (Ascii.eqb a c); [lia|]. intros _. rewrite IH by lia. done.
Qed.

(** [Path(f).name] of a plain file name is the name. *)
Lemma path_name_plain f :
  rfind "/" f = (-1)%Z -> f <> "" -> f <> "." -> path_name f = f.
Proof.
  intros Hsep Hne Hdot. unfold path_name. rewrite (split_on_absent _ _ Hsep).
  cbn [List.filter].
  destruct (String.eqb_spec f ""); [done|].
  destruct (String.eqb_spec f "."); [done|]. done.
Qed.

(** The columns of the table that [getUploadedFileDF] builds. *)
Lemma rows_columns (A : list string) : forall E D : list string,
  List.length E = List.length A -> List.length D = List.length A ->
  let t := List.map (fun '(e, d, a) => Row e d a) (zip (zip E D) A) in
  List.length t = List.length A
  /\ List.map experiment_name t = E
  /\ List.map deconvolved_file t = D
  /\ List.map annotated_file t = A.
Proof.
  induction A as [|a A IH]; intros [|e E] [|d D] HE HD; try done.
  cbn [zip zip_with List.map]. injection HE as HE. injection HD as HD.
  destruct (IH E D HE HD) as (Hl & H1 & H2 & H3). cbn zeta in *.
  cbn [List.length experiment_name deconvolved_file annotated_file].
  by rewrite Hl, H1, H2, H3.
Qed.

Section Upload.
Context {frame scalar : Type}.
Implicit Types (w : world frame) (dl al : list string).
Implicit Types (dc ac : gmap string frame).

(** *** Running computations *)

Lemma bind_ok {A B} (m : M frame A) (k : A -> M frame B) w a w' :
  m w = (Ok a, w') -> bind m k w = k a w'.
Proof. unfold bind. by intros ->. Qed.

Lemma bind_raise {A B} (m : M frame A) (k : A -> M frame B) w e w' :
  m w = (Raise e, w') -> bind m k w = (Raise e, w').
Proof. unfold bind. by intros ->. Qed.

Lemma get_item_ok key v w :
  session w !! key = Some v -> get_item key w = (Ok v, w).
Proof. unfold get_item. by intros ->. Qed.

Lemma get_attr_ok key v w :
  session w !! key = Some v -> get_attr key w = (Ok v, w).
Proof. unfold get_attr. by intros ->. Qed.

Lemma for_each_app {A} (l1 l2 : list A) (body : A -> M frame unit) w :
  for_each (l1 ++ l2) body w
  = match for_each l1 body w with
    | (Ok _, w1) => for_each l2 body w1
    | (Raise e, w1) => (Raise e, w1)
    end.
Proof.
  revert w. induction l1 as [|x l1 IH]; intros w; simpl; [done|].
  unfold bind. destruct (body x w) as [[[]|e] w1]; [apply IH|done].
Qed.

Lemma for_each_emit {A} (l : list A) (f : A -> event) w :
  for_each l (fun i => emit (f i)) w
  = (Ok (), World (session w) (fs w) (page w ++ List.map f l)).
Proof.
  revert w. induction l as [|x l IH]; intros w; simpl.
  - rewrite app_nil_r. by destruct w.
  - unfold bind, emit at 1. rewrite IH. simpl. by rewrite <- app_assoc.
Qed.

Lemma not_in_cache_frames l cache d w :
  session w !! cache = Some (PFrames d) ->
  not_in_cache (PStrList l) cache w = (Ok (unparsed d l), w).
Proof.
  intros H. destruct l as [|x l]; [done|]. unfold not_in_cache.
  by rewrite (bind_ok _ _ _ _ _ (get_item_ok _ _ _ H)).
Qed.

Lemma elem_of_unparsed (d : gmap string frame) l f :
  f ∈ unparsed d l <-> f ∈ l /\ d !! f = None.
Proof.
  unfold unparsed. rewrite !list_elem_of_In, filter_In, negb_true_iff.
  rewrite bool_decide_eq_false, <- eq_None_not_Some. done.
Qed.

Lemma NoDup_unparsed (d : gmap string frame) l : NoDup l -> NoDup (unparsed d l).
Proof. rewrite !NoDup_ListNoDup. apply List.NoDup_filter. Qed.

(** *** Upload registry *)

(** One turn of the loop of [handleInputFiles]. *)
Lemma handleInputFiles_cons file rest w :
  handleInputFiles (file :: rest) w
  = match handleInputFiles [file] w with
    | (Ok _, w1) => handleInputFiles rest w1
    | (Raise e, w1) => (Raise e, w1)
    end.
Proof. apply (for_each_app [file] rest). Qed.

Lemma handleInputFiles_known w file known :
  session w !! session_name_of (name file) = Some (PStrList known) ->
  name file ∈ known ->
  handleInputFiles [file] w = (Ok (), w).
Proof.
  intros Hknown Hin. unfold handleInputFiles. cbn [for_each].
  destruct (endswith (name file) "mzML"); [|done]. cbn [negb].
  cbv [bind get_item lift contains ret]. rewrite Hknown.
  by rewrite bool_decide_eq_true_2.
Qed.

Lemma handleInputFiles_skipped w file :
  endswith (name file) "mzML" = false -> handleInputFiles [file] w = (Ok (), w).
Proof. intros H. unfold handleInputFiles. cbn [for_each]. by rewrite H. Qed.

(** A name that ends in [mzML] without either suffix selects the session
    key [""], which the session does not have. *)
Lemma handleInputFiles_unclassified w file rest :
  endswith (name file) "mzML" = true ->
  endswith (name file) "_deconv.mzML" = false ->
  endswith (name file) "_annotated.mzML" = false ->
  session w !! "" = None ->
  handleInputFiles (file :: rest) w = (Raise (KeyError ""), w).
Proof.
  intros Hm Hd Ha Hkey. rewrite handleInputFiles_cons.
  unfold handleInputFiles. cbn [for_each]. rewrite Hm. cbn [negb].
  unfold session_name_of. rewrite Hd, Ha.
  cbv [bind get_item]. by rewrite Hkey.
Qed.

(** Whatever a single file does, the lists of known names stay free of
    duplicates. *)
Lemma handleInputFiles_one_distinct w file :
  registry_distinct w -> registry_distinct (handleInputFiles [file] w).2.
Proof.
  intros Hinv. unfold handleInputFiles. cbn [for_each].
  destruct (endswith (name file) "mzML"); [|done]. cbn [negb].
  cbv [bind get_item get_attr lift ret disk_update list_append set_item raise].
  destruct (session w !! session_name_of (name file)) as [v|] eqn:Hv; [|done].
  destruct (contains v (name file)) as [[]|] eqn:Hc; [done| |done].
  destruct (session w !! "workspace") as [p|]; [|done].
  destruct (as_path p) as [ws|]; [|done].
  destruct (write_file _ _ _ _) as [d'|]; [|done]. cbn [session fs page].
  rewrite Hv. destruct v as [| | | |known| | | | |]; try done. cbn [snd].
  intros key l Hkey. cbn [session].
  destruct (decide (session_name_of (name file) = key)) as [<-|Hne].
  - rewrite lookup_insert_eq. intros [= <-].
    apply NoDup_app. split_and!.
    + by apply (Hinv _ _ Hkey Hv).
    + intros x Hx ->%list_elem_of_singleton. cbn [contains] in Hc.
      injection Hc as Hc. by apply bool_decide_eq_false in Hc.
    + apply NoDup_singleton.
  - rewrite lookup_insert_ne by done. by apply Hinv.
Qed.

Lemma handleInputFiles_distinct files : forall w,
  registry_distinct w -> registry_distinct (handleInputFiles files w).2.
Proof.
  induction files as [|file files IH]; intros w Hinv; [done|].
  rewrite handleInputFiles_cons.
  pose proof (handleInputFiles_one_distinct w file Hinv) as H1.
  destruct (handleInputFiles [file] w) as [[[]|e] w1]; [by apply IH|done].
Qed.

(** C5: ingesting a file whose name is already registered under its
    session key changes nothing, neither the disk nor the list of known
    names, and the rest of the batch proceeds from the same world; over
    any sequence of upload calls the lists of known names of both buckets
    stay free of duplicates. *)
Theorem handleInputFiles_idempotent :
  (forall (w : world frame) file rest known,
      session w !! session_name_of (name file) = Some (PStrList known) ->
      name file ∈ known ->
      handleInputFiles [file] w = (Ok (), w)
      /\ handleInputFiles (file :: rest) w = handleInputFiles rest w)
  /\ (forall (batches : list (list upload)) (w : world frame),
        registry_distinct w ->
        registry_distinct
          (fold_left (fun w batch => (handleInputFiles batch w).2) batches w)).
Proof.
  split.
  - intros w file rest known Hknown Hin.
    pose proof (handleInputFiles_known w file known Hknown Hin) as H1.
    split; [done|]. by rewrite handleInputFiles_cons, H1.
  - induction batches as [|batch batches IH]; intros w Hinv; [done|].
    cbn [fold_left]. by apply IH, handleInputFiles_distinct.
Qed.

(** *** Removal *)

(** The loop of [remove_selected_mzML_files] over the selected names, for
    one bucket: directory [dir], cache key [dfk], file names [f e]. *)
Lemma remove_loop dir dfk (f : string -> string) to_remove :
  forall w (files : gmap string (content frame)) (c : gmap string frame),
  fs w !! dir = Some files ->
  session w !! dfk = Some (PFrames c) ->
  exists r w' files' c',
    for_each to_remove
      (fun e => bind (disk_update (unlink dir (f e))) (fun _ => frames_del dfk (f e))) w
    = (r, w')
    /\ fs w' = <[dir := files']> (fs w)
    /\ session w' = <[dfk := PFrames c']> (session w)
    /\ page w' = page w
    /\ (forall k, k ∉ f <$> to_remove -> files' !! k = files !! k /\ c' !! k = c !! k)
    /\ (forall k, files !! k = None -> files' !! k = None)
    /\ (r = Ok () ->
        forall k, k ∈ f <$> to_remove -> files' !! k = None /\ c' !! k = None)
    /\ (NoDup (f <$> to_remove) ->
        (forall k, k ∈ f <$> to_remove -> is_Some (files !! k) /\ is_Some (c !! k)) ->
        r = Ok ())
    /\ ((forall k, k ∈ f <$> to_remove -> is_Some (files !! k) -> is_Some (c !! k)) ->
        r = Ok () \/ exists p, r = Raise (FileNotFoundError p))
    /\ ((forall k, k ∈ f <$> to_remove -> is_Some (files !! k) -> is_Some (c !! k)) ->
        (exists k, k ∈ f <$> to_remove /\ files !! k = None) ->
        exists p, r = Raise (FileNotFoundError p))
    /\ (forall e rest, to_remove = e :: rest -> files !! f e = None ->
          r = Raise (FileNotFoundError (dir ++ [f e])) /\ w' = w).
Proof.
  induction to_remove as [|e rest IH]; intros w files c Hdir Hc.
  - exists (Ok ()), w, files, c. split_and!; try done.
    + by rewrite insert_id.
    + by rewrite insert_id.
    + intros _ k Hk. by apply elem_of_nil in Hk.
    + by left.
    + intros _ (k & Hk & _). by apply elem_of_nil in Hk.
  - cbn [for_each]. unfold bind at 1. unfold bind at 1.
    unfold disk_update at 1, unlink at 1. rewrite Hdir.
    destruct (files !! f e) as [x|] eqn:Hfile.
    2:{ exists (Raise (FileNotFoundError (dir ++ [f e]))), w, files, c.
        split_and!; try done.
        - by rewrite insert_id.
        - by rewrite insert_id.
        - intros _ Hall. destruct (Hall (f e)) as [[? ?] _]; [|congruence].
          rewrite fmap_cons. by left.
        - intros _. right. by eexists.
        - intros _ _. by eexists.
        - by intros e' rest' [= <- <-] _. }
    unfold frames_del at 1, bind at 1, get_item at 1. cbn [session fs page].
    rewrite Hc. destruct (c !! f e) as [y|] eqn:Hcache.
    2:{ unfold raise.
        eexists (Raise (KeyError (f e))), _, (delete (f e) files), c.
        split_and!; try done.
        - cbn [session]. by rewrite insert_id.
        - intros k Hk. rewrite fmap_cons in Hk.
          apply not_elem_of_cons in Hk as [Hne _]. by rewrite lookup_delete_ne.
        - intros k Hk. destruct (decide (f e = k)) as [<-|Hne].
          + by rewrite lookup_delete_eq.
          + by rewrite lookup_delete_ne.
        - intros _ Hall. destruct (Hall (f e)) as [_ [? ?]]; [|congruence].
          rewrite fmap_cons. by left.
        - intros Hall. destruct (Hall (f e)) as [? ?]; [|by eexists|congruence].
          rewrite fmap_cons. by left.
        - intros Hall _. destruct (Hall (f e)) as [? ?]; [|by eexists|congruence].
          rewrite fmap_cons. by left.
        - intros e' rest' [= <- <-]. congruence. }
    unfold set_item at 1. cbn [session fs page].
    match goal with |- context [for_each _ _ ?w'] => set (w2 := w') end.
    assert (fs w2 !! dir = Some (delete (f e) files)) as Hdir2
      by (subst w2; cbn [fs]; by rewrite lookup_insert_eq).
    assert (session w2 !! dfk = Some (PFrames (delete (f e) c))) as Hc2
      by (subst w2; cbn [session]; by rewrite lookup_insert_eq).
    destruct (IH w2 _ _ Hdir2 Hc2)
      as (r & w' & files' & c' & Hrun & Hfs & Hsess & Hpage & Hframe & Hgone
          & Hok & Htot & Hkind & Hnf & _).
    exists r, w', files', c'. split_and!; try done.
    + rewrite Hfs. subst w2. cbn [fs]. by rewrite insert_insert_eq.
    + rewrite Hsess. subst w2. cbn [session]. by rewrite insert_insert_eq.
    + intros k Hk. rewrite fmap_cons in Hk. apply not_elem_of_cons in Hk as [Hne Hk].
      destruct (Hframe k Hk) as [-> ->]. by rewrite !lookup_delete_ne.
    + intros k Hk. apply Hgone. destruct (decide (f e = k)) as [<-|Hne].
      * by rewrite lookup_delete_eq.
      * by rewrite lookup_delete_ne.
    + intros Hr k Hk. rewrite fmap_cons in Hk.
      destruct (decide (k ∈ f <$> rest)) as [Hin|Hnotin]; [by apply Hok|].
      apply elem_of_cons in Hk as [->|Hk]; [|done].
      destruct (Hframe (f e) Hnotin) as [-> ->]. by rewrite !lookup_delete_eq.
    + intros Hnd Hall. rewrite fmap_cons in Hnd, Hall.
      apply NoDup_cons in Hnd as [Hhead Hnd]. apply (Htot Hnd).
      intros k Hk. assert (f e <> k) as Hne by (by intros <-).
      rewrite !lookup_delete_ne by done. apply Hall. by right.
    + intros Hall. rewrite fmap_cons in Hall. apply Hkind.
      intros k' Hk'. destruct (decide (f e = k')) as [<-|Hne'].
      * rewrite lookup_delete_eq. by intros [? ?].
      * rewrite !lookup_delete_ne by done. apply Hall. by right.
    + intros Hall (k & Hk & Habs). rewrite fmap_cons in Hk, Hall.
      assert (f e <> k) as Hne by (intros <-; congruence).
      apply elem_of_cons in Hk as [->|Hk]; [done|].
      apply Hnf.
      * intros k' Hk'. destruct (decide (f e = k')) as [<-|Hne'].
        -- rewrite lookup_delete_eq. by intros [? ?].
        -- rewrite !lookup_delete_ne by done. apply Hall. by right.
      * exists k. split; [done|]. by rewrite lookup_delete_ne.
    + intros e' rest' [= <- <-]. congruence.
Qed.

Lemma remove_selected_unfold to_remove params w :
  remove_selected_mzML_files to_remove params w
  = match remove_files to_remove w with
    | (Ok _, w2) =>
        match session w2 !! "experiment-df" with
        | Some (PTable t) =>
            (Ok params,
             World (<["experiment-df" :=
                        PTable (List.filter
                                  (fun r => negb (bool_decide (experiment_name r ∈ to_remove)))
                                  t)]> (session w2))
               (fs w2) (page w2 ++ [st_success "Selected mzML files removed!"]))
        | Some _ => (Raise TypeError, w2)
        | None => (Raise (KeyError "experiment-df"), w2)
        end
    | (Raise e, w2) => (Raise e, w2)
    end.
Proof.
  unfold remove_selected_mzML_files.
  unfold bind at 1. destruct (remove_files to_remove w) as [[[]|e] w2]; [|done].
  unfold bind at 1, get_item at 1.
  destruct (session w2 !! "experiment-df") as [v|]; [|done].
  destruct v; try done.
Qed.

Lemma bucket_dirs_differ (ws : list string) :
  ws ++ ["deconv-mzMLs"] <> ws ++ ["anno-mzMLs"].
Proof. by intros H%app_inv_head. Qed.

(** How the two loops run: the deconvolved bucket first, the annotated
    bucket only if the first loop ended normally. *)
Lemma remove_files_run to_remove w ws r1 w1 :
  session w !! "workspace" = Some (PPath ws) ->
  for_each to_remove
    (fun e => bind (disk_update (unlink (ws ++ ["deconv-mzMLs"]) (e +:+ "_deconv.mzML")))
                (fun _ => frames_del "deconv_dfs" (e +:+ "_deconv.mzML"))) w
  = (r1, w1) ->
  session w1 !! "workspace" = Some (PPath ws) ->
  remove_files to_remove w
  = match r1 with
    | Ok _ =>
        for_each to_remove
          (fun e => bind (disk_update (unlink (ws ++ ["anno-mzMLs"]) (e +:+ "_annotated.mzML")))
                      (fun _ => frames_del "anno_dfs" (e +:+ "_annotated.mzML"))) w1
    | Raise e => (Raise e, w1)
    end.
Proof.
  intros Hws Hrun1 Hws1.
  unfold remove_files. cbn [zip zip_with input_file_types parsed_df_types for_each].
  unfold bind at 1. unfold bind at 1. unfold bind at 1.
  unfold get_item at 1, lift at 1. rewrite Hws. cbn [as_path].
  rewrite Hrun1. destruct r1 as [[]|e]; [|done].
  unfold bind at 1. unfold bind at 1. unfold bind at 1.
  unfold get_item at 1, lift at 1. rewrite Hws1. cbn [as_path].
  by destruct (for_each _ _ w1) as [[[]|e] w2].
Qed.

(** A loop that ends normally found every file it was to delete. *)
Lemma remove_loop_ok_present dir dfk (f : string -> string) to_remove :
  forall w w' (files : gmap string (content frame)),
  fs w !! dir = Some files ->
  for_each to_remove
    (fun e => bind (disk_update (unlink dir (f e))) (fun _ => frames_del dfk (f e))) w
  = (Ok (), w') ->
  forall k, k ∈ f <$> to_remove -> is_Some (files !! k).
Proof.
  induction to_remove as [|e rest IH]; intros w w' files Hdir Hrun k Hk.
  { by apply elem_of_nil in Hk. }
  cbn [for_each] in Hrun. unfold bind at 1 in Hrun. unfold bind at 1 in Hrun.
  unfold disk_update at 1, unlink at 1 in Hrun. rewrite Hdir in Hrun.
  destruct (files !! f e) as [x|] eqn:Hfile; [|done].
  unfold frames_del at 1, bind at 1, get_item at 1 in Hrun.
  cbn [session fs page] in Hrun.
  destruct (session w !! dfk) as [v|]; [|done].
  destruct v as [| | | | | |c| | |]; try done.
  destruct (c !! f e); [|done].
  unfold set_item at 1 in Hrun. cbn [session fs page] in Hrun.
  rewrite fmap_cons in Hk. apply elem_of_cons in Hk as [->|Hk]; [by eexists|].
  match type of Hrun with for_each _ _ ?w2 = _ =>
    assert (is_Some (delete (f e) files !! k)) as [y Hy]
      by (apply (IH w2 w' (delete (f e) files));
            [cbn [fs]; by rewrite lookup_insert_eq|done|done])
  end.
  apply lookup_delete_Some in Hy as [_ Hy]. by eexists.
Qed.

(** Once the loop has deleted the file of the first name, the file stays
    deleted however the loop ends. *)
Lemma remove_loop_head dir dfk (f : string -> string) e rest w
    (files : gmap string (content frame)) (c : gmap string frame) :
  fs w !! dir = Some files ->
  session w !! dfk = Some (PFrames c) ->
  is_Some (files !! f e) ->
  exists files',
    fs (for_each (e :: rest)
          (fun e => bind (disk_update (unlink dir (f e)))
                      (fun _ => frames_del dfk (f e))) w).2 !! dir
    = Some files'
    /\ files' !! f e = None.
Proof.
  intros Hdir Hc [x Hfile].
  cbn [for_each]. unfold bind at 1. unfold bind at 1.
  unfold disk_update at 1, unlink at 1. rewrite Hdir, Hfile.
  unfold frames_del at 1, bind at 1, get_item at 1. cbn [session fs page].
  rewrite Hc. destruct (c !! f e) as [y|] eqn:Hcache.
  2:{ unfold raise. cbn [snd fs]. exists (delete (f e) files).
      by rewrite lookup_insert_eq, lookup_delete_eq. }
  unfold set_item at 1. cbn [session fs page].
  match goal with |- context [for_each _ _ ?w'] => set (w2 := w') end.
  assert (fs w2 !! dir = Some (delete (f e) files)) as Hdir2
    by (subst w2; cbn [fs]; by rewrite lookup_insert_eq).
  assert (session w2 !! dfk = Some (PFrames (delete (f e) c))) as Hc2
    by (subst w2; cbn [session]; by rewrite lookup_insert_eq).
  destruct (remove_loop dir dfk f rest w2 _ _ Hdir2 Hc2)
    as (r & w' & files' & c' & Hrun & Hfs & _ & _ & _ & Hgone & _).
  rewrite Hrun. cbn [snd]. exists files'. rewrite Hfs, lookup_insert_eq.
  split; [done|]. apply Hgone. by rewrite lookup_delete_eq.
Qed.

(** The loop over distinct names whose files and cache entries are
    present, followed by a name whose file is absent: the loop stops there
    with the not-found error, having removed exactly what came before. *)
Lemma remove_loop_prefix dir dfk (f : string -> string) pre e post w
    (files : gmap string (content frame)) (c : gmap string frame) :
  fs w !! dir = Some files ->
  session w !! dfk = Some (PFrames c) ->
  NoDup (f <$> pre) ->
  (forall k, k ∈ f <$> pre -> is_Some (files !! k) /\ is_Some (c !! k)) ->
  files !! f e = None ->
  exists files' c',
    for_each (pre ++ e :: post)
      (fun e => bind (disk_update (unlink dir (f e))) (fun _ => frames_del dfk (f e))) w
    = (Raise (FileNotFoundError (dir ++ [f e])),
       World (<[dfk := PFrames c']> (session w)) (<[dir := files']> (fs w)) (page w))
    /\ (forall k, k ∈ f <$> pre -> files' !! k = None /\ c' !! k = None)
    /\ (forall k, k ∉ f <$> pre -> files' !! k = files !! k /\ c' !! k = c !! k).
Proof.
  intros Hdir Hc Hnd Hpresent Habsent.
  destruct (remove_loop dir dfk f pre w files c Hdir Hc)
    as (r & w1 & files' & c' & Hrun & Hfs & Hsess & Hpage & Hframe & _
        & Hok & Htot & _).
  rewrite (Htot Hnd Hpresent) in *.
  assert (f e ∉ f <$> pre) as Hnotin.
  { intros Hin. destruct (Hpresent _ Hin) as [[? ?] _]. congruence. }
  assert (fs w1 !! dir = Some files') as Hdir1 by (by rewrite Hfs, lookup_insert_eq).
  assert (session w1 !! dfk = Some (PFrames c')) as Hc1
    by (by rewrite Hsess, lookup_insert_eq).
  destruct (remove_loop dir dfk f (e :: post) w1 files' c' Hdir1 Hc1)
    as (r2 & w2 & _ & _ & Hrun2 & _ & _ & _ & _ & _ & _ & _ & _ & _ & Hfirst).
  destruct (Hfirst e post eq_refl) as [-> ->].
  { destruct (Hframe _ Hnotin) as [-> _]. done. }
  exists files', c'. rewrite for_each_app, Hrun, Hrun2.
  split; [|split; [by apply Hok|done]].
  f_equal. destruct w1 as [s1 d1 p1]. cbn [session fs page] in *. by subst.
Qed.

(** C6, as the code has it.  When the selected identities are distinct
    and both files and both cache entries of each are present, exactly
    these files and entries are removed, the rows of the selected
    identities are dropped from the summary table and nothing else
    changes.  For plain file names with no directory in their place: when
    a target file is absent the call fails, with a not-found error if
    every target file that is present is cached; the failure is not rolled
    back: when the first absent file is reached after distinct identities
    whose files and entries were present, exactly their files and entries
    of that bucket are gone, and for a failure in the annotated bucket all
    selected deconvolved files and entries as well; and a failing call
    leaves the world as it was exactly when the deconvolved file of the
    first selected identity is absent. *)
Theorem remove_selected_mzML_files_exact to_remove params w ws fd fa dc ac t :
  session w !! "workspace" = Some (PPath ws) ->
  fs w !! (ws ++ ["deconv-mzMLs"]) = Some fd ->
  fs w !! (ws ++ ["anno-mzMLs"]) = Some fa ->
  caches w dc ac ->
  session w !! "experiment-df" = Some (PTable t) ->
  let dn := (fun e => e +:+ "_deconv.mzML") <$> to_remove in
  let an := (fun e => e +:+ "_annotated.mzML") <$> to_remove in
  (NoDup to_remove ->
   (forall k, k ∈ dn -> is_Some (fd !! k) /\ is_Some (dc !! k)) ->
   (forall k, k ∈ an -> is_Some (fa !! k) /\ is_Some (ac !! k)) ->
   exists fd' fa' dc' ac',
     remove_selected_mzML_files to_remove params w
     = (Ok params,
        World
          (<["experiment-df" :=
               PTable (List.filter
                         (fun r => negb (bool_decide (experiment_name r ∈ to_remove)))
                         t)]>
             (<["anno_dfs" := PFrames ac']>
                (<["deconv_dfs" := PFrames dc']> (session w))))
          (<[ws ++ ["anno-mzMLs"] := fa']>
             (<[ws ++ ["deconv-mzMLs"] := fd']> (fs w)))
          (page w ++ [st_success "Selected mzML files removed!"]))
     /\ (forall k, k ∈ dn -> fd' !! k = None /\ dc' !! k = None)
     /\ (forall k, k ∉ dn -> fd' !! k = fd !! k /\ dc' !! k = dc !! k)
     /\ (forall k, k ∈ an -> fa' !! k = None /\ ac' !! k = None)
     /\ (forall k, k ∉ an -> fa' !! k = fa !! k /\ ac' !! k = ac !! k))
  /\ (plain_targets ws to_remove (fs w) ->
      ((exists k, (k ∈ dn /\ fd !! k = None) \/ (k ∈ an /\ fa !! k = None)) ->
       exists e w', remove_selected_mzML_files to_remove params w = (Raise e, w'))
      /\ ((forall k, k ∈ dn -> is_Some (fd !! k) -> is_Some (dc !! k)) ->
          (forall k, k ∈ an -> is_Some (fa !! k) -> is_Some (ac !! k)) ->
          (exists k, (k ∈ dn /\ fd !! k = None) \/ (k ∈ an /\ fa !! k = None)) ->
          exists p w',
            remove_selected_mzML_files to_remove params w
            = (Raise (FileNotFoundError p), w'))
      /\ (forall pre e post,
            to_remove = pre ++ e :: post ->
            NoDup pre ->
            (forall x, x ∈ pre ->
               (is_Some (fd !! (x +:+ "_deconv.mzML"))
                /\ is_Some (dc !! (x +:+ "_deconv.mzML")))) ->
            fd !! (e +:+ "_deconv.mzML") = None ->
            exists fd' dc',
              remove_selected_mzML_files to_remove params w
              = (Raise (FileNotFoundError
                          ((ws ++ ["deconv-mzMLs"]) ++ [e +:+ "_deconv.mzML"])),
                 World (<["deconv_dfs" := PFrames dc']> (session w))
                   (<[ws ++ ["deconv-mzMLs"] := fd']> (fs w))
                   (page w))
              /\ (forall x, x ∈ pre ->
                    fd' !! (x +:+ "_deconv.mzML") = None
                    /\ dc' !! (x +:+ "_deconv.mzML") = None)
              /\ (forall k, k ∉ (fun x => x +:+ "_deconv.mzML") <$> pre ->
                    fd' !! k = fd !! k /\ dc' !! k = dc !! k))
      /\ (forall pre e post,
            to_remove = pre ++ e :: post ->
            NoDup to_remove ->
            (forall k, k ∈ dn -> is_Some (fd !! k) /\ is_Some (dc !! k)) ->
            (forall x, x ∈ pre ->
               (is_Some (fa !! (x +:+ "_annotated.mzML"))
                /\ is_Some (ac !! (x +:+ "_annotated.mzML")))) ->
            fa !! (e +:+ "_annotated.mzML") = None ->
            exists fd' dc' fa' ac',
              remove_selected_mzML_files to_remove params w
              = (Raise (FileNotFoundError
                          ((ws ++ ["anno-mzMLs"]) ++ [e +:+ "_annotated.mzML"])),
                 World
                   (<["anno_dfs" := PFrames ac']>
                      (<["deconv_dfs" := PFrames dc']> (session w)))
                   (<[ws ++ ["anno-mzMLs"] := fa']>
                      (<[ws ++ ["deconv-mzMLs"] := fd']> (fs w)))
                   (page w))
              /\ (forall k, k ∈ dn -> fd' !! k = None /\ dc' !! k = None)
              /\ (forall k, k ∉ dn -> fd' !! k = fd !! k /\ dc' !! k = dc !! k)
              /\ (forall x, x ∈ pre ->
                    fa' !! (x +:+ "_annotated.mzML") = None
                    /\ ac' !! (x +:+ "_annotated.mzML") = None)
              /\ (forall k, k ∉ (fun x => x +:+ "_annotated.mzML") <$> pre ->
                    fa' !! k = fa !! k /\ ac' !! k = ac !! k))
      /\ (forall e rest,
            to_remove = e :: rest -> fd !! (e +:+ "_deconv.mzML") = None ->
            remove_selected_mzML_files to_remove params w
            = (Raise (FileNotFoundError
                        ((ws ++ ["deconv-mzMLs"]) ++ [e +:+ "_deconv.mzML"])), w))
      /\ (forall e w',
            remove_selected_mzML_files to_remove params w = (Raise e, w') ->
            w' = w
            <-> exists e0 rest,
                  to_remove = e0 :: rest /\ fd !! (e0 +:+ "_deconv.mzML") = None)).
Proof.
  intros Hws Hfd Hfa [Hdc Hac] Ht dn an.
  destruct (remove_loop (ws ++ ["deconv-mzMLs"]) "deconv_dfs"
              (fun e => e +:+ "_deconv.mzML") to_remove w fd dc Hfd Hdc)
    as (r1 & w1 & fd' & dc' & Hrun1 & Hfs1 & Hsess1 & Hpage1 & Hframe1 & _
        & Hok1 & Htot1 & Hkind1 & Hnf1 & Hfirst1).
  assert (session w1 !! "workspace" = Some (PPath ws)) as Hws1
    by (by rewrite Hsess1, lookup_insert_ne).
  assert (fs w1 !! (ws ++ ["anno-mzMLs"]) = Some fa) as Hfa1.
  { rewrite Hfs1, lookup_insert_ne; [done|apply bucket_dirs_differ]. }
  assert (session w1 !! "anno_dfs" = Some (PFrames ac)) as Hac1
    by (by rewrite Hsess1, lookup_insert_ne).
  destruct (remove_loop (ws ++ ["anno-mzMLs"]) "anno_dfs"
              (fun e => e +:+ "_annotated.mzML") to_remove w1 fa ac Hfa1 Hac1)
    as (r2 & w2 & fa' & ac' & Hrun2 & Hfs2 & Hsess2 & Hpage2 & Hframe2 & _
        & Hok2 & Htot2 & Hkind2 & Hnf2 & _).
  pose proof (remove_files_run to_remove w ws r1 w1 Hws Hrun1 Hws1) as Hrun.
  assert (forall (l : list string) p, NoDup l -> NoDup ((fun e => e +:+ p) <$> l))
    as Hndp.
  { intros l p Hl. apply NoDup_fmap_2_strong; [|done].
    intros x y _ _. apply append_inj_l. }
  assert (session w1 = <["deconv_dfs" := PFrames dc']> (session w) ->
          w1 = World (<["deconv_dfs" := PFrames dc']> (session w))
                 (<[ws ++ ["deconv-mzMLs"] := fd']> (fs w)) (page w)) as Heta1.
  { intros _. destruct w1 as [s1 d1 p1]. cbn [session fs page] in *. by subst. }
  rewrite remove_selected_unfold.
  split.
  - rewrite Hrun, Hrun2.
    intros Hnd Hdpresent Hapresent.
    rewrite (Htot1 (Hndp _ _ Hnd) Hdpresent) in *.
    rewrite (Htot2 (Hndp _ _ Hnd) Hapresent) in *.
    assert (session w2 !! "experiment-df" = Some (PTable t)) as ->.
    { rewrite Hsess2, Hsess1. by rewrite !lookup_insert_ne. }
    exists fd', fa', dc', ac'. split_and!.
    + by rewrite Hfs2, Hfs1, Hsess2, Hsess1, Hpage2, Hpage1.
    + by apply Hok1.
    + apply Hframe1.
    + by apply Hok2.
    + apply Hframe2.
  - intros _. split_and!.
    + intros (k & Habsent). rewrite Hrun.
      destruct r1 as [[]|e1]; [|by eexists _, _].
      rewrite Hrun2. destruct r2 as [[]|e2]; [|by eexists _, _].
      exfalso. destruct Habsent as [[Hk Hnone]|[Hk Hnone]].
      * destruct (remove_loop_ok_present _ _ _ _ _ _ _ Hfd Hrun1 k Hk). congruence.
      * destruct (remove_loop_ok_present _ _ _ _ _ _ _ Hfa1 Hrun2 k Hk). congruence.
    + rewrite Hrun, Hrun2. intros Hinv1 Hinv2 (k & Habsent).
      destruct (Hkind1 Hinv1) as [->|[p ->]]; [|by eexists _, _].
      destruct Habsent as [[Hk Hnone]|[Hk Hnone]].
      * destruct Hnf1 as [p Hp]; [done|by exists k|congruence].
      * destruct Hnf2 as [p ->]; [done|by exists k|by eexists _, _].
    + intros pre e post Hsplit Hnd Hpresent Habsent.
      destruct (remove_loop_prefix (ws ++ ["deconv-mzMLs"]) "deconv_dfs"
                  (fun e => e +:+ "_deconv.mzML") pre e post w fd dc Hfd Hdc)
        as (fd1 & dc1 & Hrunp & Hgone & Hkept); [by apply Hndp| |done|].
      { intros k (x & -> & Hx)%list_elem_of_fmap. by apply Hpresent. }
      exists fd1, dc1. split; [|split; [|done]].
      * rewrite Hsplit in Hrun1. rewrite Hrunp in Hrun1.
        injection Hrun1 as <- <-. by rewrite Hrun.
      * intros x Hx. apply Hgone. apply list_elem_of_fmap. by exists x.
    + intros pre e post Hsplit Hnd Hdpresent Hapresent Habsent.
      rewrite (Htot1 (Hndp _ _ Hnd) Hdpresent) in *.
      assert (NoDup pre) as Hndpre.
      { rewrite Hsplit in Hnd. by apply NoDup_app in Hnd as [? _]. }
      destruct (remove_loop_prefix (ws ++ ["anno-mzMLs"]) "anno_dfs"
                  (fun e => e +:+ "_annotated.mzML") pre e post w1 fa ac Hfa1 Hac1)
        as (fa1 & ac1 & Hrunp & Hgone & Hkept); [by apply Hndp| |done|].
      { intros k (x & -> & Hx)%list_elem_of_fmap. by apply Hapresent. }
      exists fd', dc', fa1, ac1. split_and!.
      * rewrite Hrun, Hrun2. rewrite Hsplit in Hrun2. rewrite Hrunp in Hrun2.
        injection Hrun2 as <- <-. by rewrite Hfs1, Hsess1, Hpage1.
      * by apply Hok1.
      * apply Hframe1.
      * intros x Hx. apply Hgone. apply list_elem_of_fmap. by exists x.
      * done.
    + intros e rest -> Hnone. rewrite Hrun.
      by destruct (Hfirst1 e rest eq_refl Hnone) as [-> ->].
    + intros e w' Hfail.
      assert (w' = match r1 with Ok _ => w2 | Raise _ => w1 end) as Hw'.
      { rewrite Hrun in Hfail. destruct r1 as [[]|e1]; [|congruence].
        rewrite Hrun2 in Hfail. destruct r2 as [[]|e2]; [|congruence].
        destruct (session w2 !! "experiment-df") as [[]|]; congruence. }
      assert (fs w' !! (ws ++ ["deconv-mzMLs"]) = Some fd') as Hfd'.
      { rewrite Hw'. destruct r1.
        - rewrite Hfs2, lookup_insert_ne by (symmetry; apply bucket_dirs_differ).
          by rewrite Hfs1, lookup_insert_eq.
        - by rewrite Hfs1, lookup_insert_eq. }
      split.
      * intros ->. destruct to_remove as [|e0 rest] eqn:Hto.
        { exfalso. cbn [for_each] in Hrun1, Hrun2. unfold ret in Hrun1.
          injection Hrun1 as <- <-. unfold ret in Hrun2. injection Hrun2 as <- <-.
          rewrite Hrun in Hfail. cbn [for_each] in Hfail. unfold ret in Hfail.
          by rewrite Ht in Hfail. }
        exists e0, rest. split; [done|].
        destruct (fd !! (e0 +:+ "_deconv.mzML")) as [x|] eqn:Hx; [|done].
        exfalso.
        destruct (remove_loop_head (ws ++ ["deconv-mzMLs"]) "deconv_dfs"
                    (fun e => e +:+ "_deconv.mzML") e0 rest w fd dc Hfd Hdc)
          as (files' & Hl & Hgone); [by eexists|].
        rewrite Hrun1 in Hl. cbn [snd] in Hl.
        rewrite Hfs1, lookup_insert_eq in Hl. injection Hl as <-.
        rewrite Hfd in Hfd'. injection Hfd' as <-. congruence.
      * intros (e0 & rest & -> & Hnone).
        destruct (Hfirst1 e0 rest eq_refl Hnone) as [-> ->]. by rewrite Hw'.
Qed.

(** Removal leaves every session entry but the two caches alone, also
    when it fails. *)
Lemma remove_loop_frame dir dfk (f : string -> string) key to_remove :
  key <> dfk -> forall w,
  session
    (for_each to_remove
       (fun e => bind (disk_update (unlink dir (f e)))
                   (fun _ => frames_del dfk (f e))) w).2 !! key
  = session w !! key.
Proof.
  intros Hne. induction to_remove as [|e rest IH]; intros w; [done|].
  cbn [for_each]. unfold bind at 1. unfold bind at 1.
  unfold disk_update at 1. destruct (unlink dir (f e) (fs w)) as [d'|]; [|done].
  unfold frames_del at 1, bind at 1, get_item at 1. cbn [session].
  destruct (session w !! dfk) as [v|]; [|done].
  destruct v as [| | | | | |c| | |]; try done.
  destruct (c !! f e); [|done].
  unfold set_item at 1. cbn [session fs page]. rewrite IH. cbn [session].
  by rewrite lookup_insert_ne.
Qed.

Lemma remove_files_frame to_remove key w :
  key <> "deconv_dfs" -> key <> "anno_dfs" ->
  session (remove_files to_remove w).2 !! key = session w !! key.
Proof.
  intros Hd Ha. unfold remove_files.
  cbn [zip zip_with input_file_types parsed_df_types for_each].
  unfold bind at 1. unfold bind at 1. unfold bind at 1.
  unfold get_item at 1. destruct (session w !! "workspace") as [v|]; [|done].
  unfold lift at 1. destruct (as_path v) as [ws|]; [|done].
  pose proof (remove_loop_frame (ws ++ ["deconv-mzMLs"]) "deconv_dfs"
                (fun e => e +:+ "_deconv.mzML") key to_remove Hd w) as H1.
  cbv beta in H1.
  destruct (for_each to_remove _ w) as [[[]|e] w1]; [|done]. cbn [snd] in H1.
  unfold bind at 1. unfold bind at 1. unfold bind at 1.
  unfold get_item at 1. destruct (session w1 !! "workspace") as [v1|]; [|done].
  unfold lift at 1. destruct (as_path v1) as [ws1|]; [|done].
  pose proof (remove_loop_frame (ws1 ++ ["anno-mzMLs"]) "anno_dfs"
                (fun e => e +:+ "_annotated.mzML") key to_remove Ha w1) as H2.
  cbv beta in H2.
  destruct (for_each to_remove _ w1) as [[[]|e] w2]; unfold ret; cbn [snd] in *;
    congruence.
Qed.

(** *** The display step *)

Lemma keys_of_length (d : gmap string frame) : List.length (keys_of d) = size d.
Proof. unfold keys_of. by rewrite length_fmap, length_map_to_list. Qed.

Lemma keys_of_NoDup (d : gmap string frame) : NoDup (keys_of d).
Proof. apply NoDup_fst_map_to_list. Qed.

Lemma elem_of_keys_of (d : gmap string frame) k : k ∈ keys_of d <-> is_Some (d !! k).
Proof.
  unfold keys_of. rewrite list_elem_of_fmap. split.
  - intros ([k' x] & -> & Hin). apply elem_of_map_to_list in Hin. by eexists.
  - intros [x Hx]. exists (k, x). split; [done|]. by apply elem_of_map_to_list.
Qed.

Lemma sorted_keys_ok key (d : gmap string frame) w :
  session w !! key = Some (PFrames d) ->
  sorted_keys key w = (Ok (sorted (keys_of d)), w).
Proof. intros H. unfold sorted_keys, bind, get_item. by rewrite H. Qed.

Lemma showUploadedFilesTable_unfold w dc ac :
  caches w dc ac ->
  showUploadedFilesTable w
  = (if (size dc =? 0)%nat && (size ac =? 0)%nat then
       (Ok false, World (session w) (fs w) (page w ++ [st_info "No mzML added yet!"]))
     else if (size dc =? 0)%nat then
       (Ok false,
        World (session w) (fs w)
          (page w ++ [st_error "FLASHDeconv deconvolved mzML file is not added yet!"]))
     else if (size ac =? 0)%nat then
       (Ok false,
        World (session w) (fs w)
          (page w ++ [st_error "FLASHDeconv annotated mzML file is not added yet!"]))
     else if negb (size dc =? size ac)%nat then
       (Ok false,
        World (session w) (fs w)
          (page w ++ [st_error
             "The same number of deconvolved and annotated mzML file should be uploaded!"]))
     else
       match getUploadedFileDF (sorted (keys_of dc)) (sorted (keys_of ac)) with
       | Ok t =>
           (Ok true,
            World (<["experiment-df" := PTable t]> (session w)) (fs w)
              (page w ++ [st_write "#"; st_write "#";
                          st_markdown "**Uploaded experiments in current workspace**";
                          st_dataframe t; st_write "#"]))
       | Raise e =>
           (Raise e, World (session w) (fs w) (page w ++ [st_write "#"; st_write "#"]))
       end).
Proof.
  intros [Hdc Hac]. unfold showUploadedFilesTable.
  rewrite (bind_ok _ _ _ _ _ (sorted_keys_ok _ _ _ Hdc)).
  rewrite (bind_ok _ _ _ _ _ (sorted_keys_ok _ _ _ Hac)).
  rewrite !sorted_length, !keys_of_length.
  destruct (size dc =? 0)%nat, (size ac =? 0)%nat; cbn [andb]; try done.
  destruct (size dc =? size ac)%nat; cbn [negb]; [|done].
  unfold v_space. cbn [seq for_each].
  cbv [bind emit ret lift set_item get_item]. cbn [session fs page].
  destruct (getUploadedFileDF _ _) as [t|e].
  - rewrite lookup_insert_eq. cbn [session fs page]. by rewrite <- !app_assoc.
  - by rewrite <- !app_assoc.
Qed.

(** C4, as the code has it: a display step that finds both caches
    non-empty and of one size rebuilds the summary table from the sorted
    keys of the two caches, one row per key of the annotated cache, the
    [i]-th row carrying the [i]-th deconvolved and the [i]-th annotated key;
    any other display step shows one message and leaves the table as it
    was; and a successful removal drops the rows of the selected
    experiments from the table it finds. *)
Theorem showUploadedFilesTable_rebuilds w dc ac :
  caches w dc ac ->
  (size dc = size ac -> size ac <> 0 ->
   exists t,
     getUploadedFileDF (sorted (keys_of dc)) (sorted (keys_of ac)) = Ok t
     /\ showUploadedFilesTable w
        = (Ok true,
           World (<["experiment-df" := PTable t]> (session w)) (fs w)
             (page w ++ [st_write "#"; st_write "#";
                         st_markdown "**Uploaded experiments in current workspace**";
                         st_dataframe t; st_write "#"]))
     /\ List.length t = size ac
     /\ List.map annotated_file t = List.map path_name (sorted (keys_of ac))
     /\ List.map deconvolved_file t = List.map path_name (sorted (keys_of dc))
     /\ List.map experiment_name t
        = List.map experiment_of (List.map path_name (sorted (keys_of ac))))
  /\ (sorted (keys_of ac) ≡ₚ keys_of ac /\ NoDup (keys_of ac)
      /\ (forall k, k ∈ keys_of ac <-> is_Some (ac !! k)))
  /\ (sorted (keys_of dc) ≡ₚ keys_of dc /\ NoDup (keys_of dc)
      /\ (forall k, k ∈ keys_of dc <-> is_Some (dc !! k)))
  /\ (forall k, rfind "/" k = (-1)%Z -> k <> "" -> k <> "." -> path_name k = k)
  /\ (size dc <> size ac \/ size ac = 0 ->
      exists msg,
        showUploadedFilesTable w
        = (Ok false, World (session w) (fs w) (page w ++ [msg])))
  /\ (forall to_remove params t0 r w',
        session w !! "experiment-df" = Some (PTable t0) ->
        remove_selected_mzML_files to_remove params w = (Ok r, w') ->
        session w' !! "experiment-df"
        = Some (PTable (List.filter
                          (fun r => negb (bool_decide (experiment_name r ∈ to_remove)))
                          t0))).
Proof.
  intros Hcache. split_and!.
  - intros Hsize Hne. rewrite (showUploadedFilesTable_unfold w dc ac Hcache).
    rewrite Hsize. apply Nat.eqb_neq in Hne. rewrite Hne, Nat.eqb_refl. cbn [andb negb].
    unfold getUploadedFileDF. rewrite !length_map, !sorted_length, !keys_of_length.
    rewrite Hsize, Nat.eqb_refl.
    eexists. split; [done|]. split; [done|].
    pose proof (rows_columns (List.map path_name (sorted (keys_of ac)))
                  (List.map experiment_of (List.map path_name (sorted (keys_of ac))))
                  (List.map path_name (sorted (keys_of dc)))) as Hcols.
    cbn zeta in Hcols. rewrite !length_map, !sorted_length, !keys_of_length in Hcols.
    destruct (Hcols eq_refl Hsize) as (Hl & H1 & H2 & H3).
    split_and!; [by rewrite length_map|done..].
  - apply sorted_Permutation.
  - apply keys_of_NoDup.
  - apply elem_of_keys_of.
  - apply sorted_Permutation.
  - apply keys_of_NoDup.
  - apply elem_of_keys_of.
  - apply path_name_plain.
  - intros Hcase. rewrite (showUploadedFilesTable_unfold w dc ac Hcache).
    destruct (Nat.eqb_spec (size dc) 0), (Nat.eqb_spec (size ac) 0); cbn [andb];
      try by eexists.
    destruct (Nat.eqb_spec (size dc) (size ac)); cbn [negb]; [|by eexists].
    destruct Hcase; lia.
  - intros to_remove params t0 r w' Ht. rewrite remove_selected_unfold.
    pose proof (remove_files_frame to_remove "experiment-df" w) as Hframe.
    destruct (remove_files to_remove w) as [[[]|e] w2]; [|done]. cbn [snd] in Hframe.
    rewrite Hframe, Ht by done. intros [= <- <-]. cbn [session].
    by rewrite lookup_insert_eq.
Qed.

(** *** Remove all *)

Lemma has_item_true key v w :
  session w !! key = Some v -> has_item key w = (Ok true, w).
Proof.
  intros H. unfold has_item. rewrite H. by rewrite bool_decide_eq_true_2.
Qed.

Lemma workspace_attr_ok w ws :
  session w !! "workspace" = Some (PPath ws) ->
  bind (get_attr "workspace") (fun v => lift (as_path v)) w = (Ok ws, w).
Proof. intros H. by rewrite (bind_ok _ _ _ _ _ (get_attr_ok _ _ _ H)). Qed.

(** One turn of the loop behind the [Remove all] button. *)
Lemma remove_all_turn file_option df_option w ws v1 v2
    (k : unit -> M frame unit) :
  session w !! "workspace" = Some (PPath ws) ->
  session w !! file_option = Some v1 ->
  session w !! df_option = Some v2 ->
  file_option <> "workspace" -> file_option <> df_option ->
  bind (bind (has_item file_option) (fun has_files =>
          bind (if has_files
                then bind (bind (get_attr "workspace") (fun v => lift (as_path v)))
                       (fun ws =>
                          bind (fun w =>
                                  (Ok (),
                                   World (session w)
                                     (reset_directory (ws ++ [file_option]) (fs w))
                                     (page w)))
                            (fun _ => set_item file_option (PStrList [])))
                else ret ())
            (fun _ => bind (has_item df_option) (fun has_dfs =>
               if has_dfs then set_item df_option (PFrames ∅) else ret ())))) k w
  = k () (World (<[df_option := PFrames ∅]>
                   (<[file_option := PStrList []]> (session w)))
            (reset_directory (ws ++ [file_option]) (fs w)) (page w)).
Proof.
  intros Hws H1 H2 Hne1 Hne2.
  unfold bind at 1. unfold bind at 1.
  rewrite (has_item_true _ _ _ H1). unfold bind at 1. unfold bind at 1.
  rewrite (workspace_attr_ok _ _ Hws).
  unfold bind at 1. unfold set_item at 1. cbn [session fs page].
  unfold bind at 1.
  rewrite (has_item_true df_option v2); [done|].
  cbn [session]. by rewrite lookup_insert_ne.
Qed.

Lemma remove_all_run w ws v1 v2 v3 v4 v5 :
  session w !! "workspace" = Some (PPath ws) ->
  session w !! "deconv-mzMLs" = Some v1 ->
  session w !! "anno-mzMLs" = Some v2 ->
  session w !! "deconv_dfs" = Some v3 ->
  session w !! "anno_dfs" = Some v4 ->
  session w !! "experiment-df" = Some v5 ->
  remove_all w
  = (Ok (),
     World
       (delete "experiment-df"
          (<["anno_dfs" := PFrames ∅]>
             (<["anno-mzMLs" := PStrList []]>
                (<["deconv_dfs" := PFrames ∅]>
                   (<["deconv-mzMLs" := PStrList []]> (session w))))))
       (reset_directory (ws ++ ["anno-mzMLs"])
          (reset_directory (ws ++ ["deconv-mzMLs"]) (fs w)))
       (page w ++ [st_success "All mzML files removed!"])).
Proof.
  intros Hws H1 H2 H3 H4 H5. unfold remove_all.
  cbn [zip zip_with input_file_types parsed_df_types for_each].
  unfold bind at 1.
  rewrite (remove_all_turn "deconv-mzMLs" "deconv_dfs" w ws v1 v3) by done.
  rewrite (remove_all_turn "anno-mzMLs" "anno_dfs" _ ws v2 v4);
    [|cbn [session]; by rewrite ?lookup_insert_ne..|done|done].
  unfold ret at 1. unfold bind at 1, emit at 1. cbn [session fs page].
  unfold del_item. cbn [session fs page].
  by rewrite !lookup_insert_ne, H5.
Qed.

(** *** Workspace initialisation *)

(** One turn of the first loop of [initializeWorkspace]: the directory
    is made if missing and the list of known names is what the directory
    holds. *)
Lemma initializeWorkspace_dir_turn dirname w ws (k : unit -> M frame unit) :
  session w !! "workspace" = Some (PPath ws) ->
  dirname <> "workspace" ->
  bind
    (bind (bind (get_attr "workspace") (fun v => lift (as_path v))) (fun ws =>
     bind (mkdir (ws ++ [dirname])) (fun _ =>
     bind (has_item dirname) (fun present =>
     bind (if present then ret () else set_item dirname (PStrList [])) (fun _ =>
     bind (bind (get_attr "workspace") (fun v => lift (as_path v))) (fun ws' =>
     bind (os_listdir (ws' ++ [dirname])) (fun names =>
     set_item dirname (PStrList names)))))))) k w
  = k ()
      (World
         (<[dirname :=
              PStrList (map_to_list (default ∅ (fs w !! (ws ++ [dirname])))).*1]>
            (session w))
         (mkdir_parents (ws ++ [dirname]) (fs w)) (page w)).
Proof.
  intros Hws Hne.
  assert (mkdir_parents (ws ++ [dirname]) (fs w) !! (ws ++ [dirname])
          = Some (default ∅ (fs w !! (ws ++ [dirname])))) as Hdir.
  { rewrite lookup_mkdir_parents. destruct (fs w !! (ws ++ [dirname])); [done|].
    rewrite bool_decide_eq_true_2; [done|]. apply ancestors_self. by destruct ws. }
  unfold bind at 1. unfold bind at 1.
  rewrite (workspace_attr_ok _ _ Hws).
  unfold bind at 1, mkdir at 1. unfold bind at 1, has_item at 1. cbn [session fs page].
  destruct (session w !! dirname) as [v|] eqn:Hv.
  - rewrite bool_decide_eq_true_2 by done. unfold bind at 1, ret at 1.
    unfold bind at 1.
    rewrite (workspace_attr_ok (World _ _ _) ws Hws).
    unfold bind at 1, os_listdir at 1, listdir at 1. cbn [session fs page].
    by rewrite Hdir.
  - rewrite bool_decide_eq_false_2 by (by intros [? ?]).
    unfold bind at 1, set_item at 1. cbn [session fs page].
    unfold bind at 1.
    rewrite (workspace_attr_ok (World _ _ _) ws);
      [|cbn [session]; by rewrite lookup_insert_ne].
    unfold bind at 1, os_listdir at 1, listdir at 1. cbn [session fs page].
    rewrite Hdir. unfold set_item. cbn [session fs page].
    by rewrite insert_insert_eq.
Qed.

Lemma initializeWorkspace_df_turn df_type w v (k : unit -> M frame unit) :
  session w !! df_type = Some v ->
  bind (bind (has_item df_type) (fun present =>
          if present then ret () else set_item df_type (PFrames ∅))) k w
  = k () w.
Proof.
  intros H. unfold bind at 1. unfold bind at 1.
  by rewrite (has_item_true _ _ _ H).
Qed.

(** [initializeWorkspace] on a session that already has both caches: both
    directories exist afterwards and both lists of known names are the
    directory listings. *)
Lemma initializeWorkspace_run w ws v3 v4 :
  session w !! "workspace" = Some (PPath ws) ->
  session w !! "deconv_dfs" = Some v3 ->
  session w !! "anno_dfs" = Some v4 ->
  initializeWorkspace input_file_types parsed_df_types w
  = (Ok (),
     World
       (<["anno-mzMLs" :=
            PStrList (map_to_list (default ∅ (fs w !! (ws ++ ["anno-mzMLs"])))).*1]>
          (<["deconv-mzMLs" :=
               PStrList (map_to_list (default ∅ (fs w !! (ws ++ ["deconv-mzMLs"])))).*1]>
             (session w)))
       (mkdir_parents (ws ++ ["anno-mzMLs"])
          (mkdir_parents (ws ++ ["deconv-mzMLs"]) (fs w)))
       (page w)).
Proof.
  intros Hws H3 H4. unfold initializeWorkspace.
  cbn [input_file_types parsed_df_types for_each].
  unfold bind at 1.
  rewrite (initializeWorkspace_dir_turn "deconv-mzMLs" w ws) by done.
  rewrite (initializeWorkspace_dir_turn "anno-mzMLs" _ ws);
    [|cbn [session]; by rewrite lookup_insert_ne|done].
  cbn [session fs page]. unfold ret at 1.
  rewrite (initializeWorkspace_df_turn "deconv_dfs" _ v3);
    [|cbn [session]; by rewrite !lookup_insert_ne].
  rewrite (initializeWorkspace_df_turn "anno_dfs" _ v4);
    [|cbn [session]; by rewrite !lookup_insert_ne].
  unfold ret. do 3 f_equal.
  rewrite lookup_mkdir_parents.
  destruct (fs w !! (ws ++ ["anno-mzMLs"])) as [x|]; [done|].
  case_bool_decide as Hanc; [|done].
  apply elem_of_ancestors in Hanc.
  by apply (sibling_not_prefix ws "anno-mzMLs" "deconv-mzMLs") in Hanc.
Qed.

(** The page depends on the parser through its results only. *)
Lemma for_each_ext {A} (l : list A) (f g : A -> M frame unit) w :
  (forall x w, f x w = g x w) -> for_each l f w = for_each l g w.
Proof.
  intros H. revert w. induction l as [|x l IH]; intros w; simpl; [done|].
  unfold bind. rewrite H. destruct (g x w) as [[[]|e] w1]; [apply IH|done].
Qed.

Lemma parse_pair_ext
    (p1 p2 : list string -> list string -> disk frame ->
             result (frame * frame * scalar * scalar * scalar)) :
  (forall a d fsx, p1 a d fsx = p2 a d fsx) ->
  forall pair w, parse_pair p1 pair w = parse_pair p2 pair w.
Proof.
  intros H [a d] w. unfold parse_pair. destruct (endswith a ".mzML"); [|done].
  cbn [negb]. unfold bind.
  destruct (emit _ w) as [[[]|?] w1]; [|done].
  destruct (get_item "workspace" w1) as [[v|?] w2]; [|done].
  cbv [lift]. destruct (as_path v) as [ws|?]; [|done].
  destruct (get_item "workspace" w2) as [[v'|?] w3]; [|done].
  destruct (as_path v') as [ws'|?]; [|done].
  by rewrite H.
Qed.

Lemma parseUploadedFiles_ext
    (p1 p2 : list string -> list string -> disk frame ->
             result (frame * frame * scalar * scalar * scalar)) w :
  (forall a d fsx, p1 a d fsx = p2 a d fsx) ->
  parseUploadedFiles p1 w = parseUploadedFiles p2 w.
Proof.
  intros H. unfold parseUploadedFiles, bind.
  repeat case_match; try done.
  apply for_each_ext, parse_pair_ext, H.
Qed.

Lemma page_run_ext
    (p1 p2 : list string -> list string -> disk frame ->
             result (frame * frame * scalar * scalar * scalar)) sub w :
  (forall a d fsx, p1 a d fsx = p2 a d fsx) ->
  page_run p1 sub w = page_run p2 sub w.
Proof.
  intros H. unfold page_run, bind.
  repeat case_match; try done; simplify_eq.
  all: rewrite (parseUploadedFiles_ext p1 p2 _ H) in *; congruence.
Qed.

Section Pairing.
Variable parser :
  list string -> list string -> disk frame ->
  result (frame * frame * scalar * scalar * scalar).

(** The start of [parseUploadedFiles]: the new names of both buckets. *)
Lemma parseUploadedFiles_new w dl al dc ac :
  registries w dl al -> caches w dc ac ->
  parseUploadedFiles parser w
  = (let new_deconv_files := unparsed dc dl in
     let new_anno_files := unparsed ac al in
     if (List.length new_deconv_files =? 0)%nat
        && (List.length new_anno_files =? 0)%nat
     then ret ()
     else if negb (List.length new_deconv_files =? List.length new_anno_files)%nat
     then bind (emit (st_error mismatch_message)) (fun _ =>
            for_each (new_deconv_files ++ new_anno_files)
              (fun i => emit (st_markdown ("- " +:+ i))))
     else bind (get_item "progress_bar_space") (fun bar =>
            match bar with
            | PContainer =>
                for_each (zip (sorted new_anno_files) (sorted new_deconv_files))
                  (parse_pair parser)
            | _ => raise (AttributeError "__enter__")
            end)) w.
Proof.
  intros [Hdl Hal] [Hdc Hac]. unfold parseUploadedFiles.
  rewrite (bind_ok _ _ _ _ _ (get_item_ok _ _ _ Hdl)).
  rewrite (bind_ok _ _ _ _ _ (get_item_ok _ _ _ Hal)).
  rewrite (bind_ok _ _ _ _ _ (not_in_cache_frames _ _ _ _ Hdc)).
  by rewrite (bind_ok _ _ _ _ _ (not_in_cache_frames _ _ _ _ Hac)).
Qed.

(** C1: when the numbers of new deconvolved and new annotated names
    differ, the cycle shows the pairing error followed by one line per
    new name of either bucket, calls the parser for none of them and
    leaves session and disk as they were; when there is no new name in
    either bucket the cycle does nothing at all. *)
Theorem parseUploadedFiles_mismatch w dl al dc ac :
  registries w dl al -> caches w dc ac ->
  (List.length (unparsed dc dl) <> List.length (unparsed ac al) ->
   parseUploadedFiles parser w
   = (Ok (),
      World (session w) (fs w)
        (page w ++ st_error mismatch_message
           :: List.map (fun f => st_markdown ("- " +:+ f))
                (unparsed dc dl ++ unparsed ac al))))
  /\ (unparsed dc dl = [] -> unparsed ac al = [] ->
      parseUploadedFiles parser w = (Ok (), w)).
Proof.
  intros Hreg Hcache. rewrite (parseUploadedFiles_new w dl al dc ac Hreg Hcache).
  split.
  - intros Hlen. cbv zeta.
    assert ((List.length (unparsed dc dl) =? 0)%nat
            && (List.length (unparsed ac al) =? 0)%nat = false) as ->.
    { apply andb_false_iff.
      destruct (Nat.eqb_spec (List.length (unparsed dc dl)) 0); [right|by left].
      apply Nat.eqb_neq. lia. }
    assert ((List.length (unparsed dc dl) =? List.length (unparsed ac al))%nat
            = false) as -> by (by apply Nat.eqb_neq).
    cbn [negb].
    rewrite (bind_ok _ _ w ()
               (World (session w) (fs w) (page w ++ [st_error mismatch_message]))
               eq_refl).
    rewrite (for_each_emit _ (fun f => st_markdown ("- " +:+ f))).
    cbn [session fs page]. by rewrite <- app_assoc.
  - by intros -> ->.
Qed.

(** *** One pair *)

Lemma parse_pair_skip a d w :
  endswith a ".mzML" = false -> parse_pair parser (a, d) w = (Ok (), w).
Proof. unfold parse_pair. by intros ->. Qed.

Lemma parse_pair_raise a d w ws e :
  session w !! "workspace" = Some (PPath ws) ->
  endswith a ".mzML" = true ->
  parser (ws ++ ["anno-mzMLs"; a]) (ws ++ ["deconv-mzMLs"; d]) (fs w) = Raise e ->
  parse_pair parser (a, d) w
  = (Raise e,
     World (session w) (fs w)
       (page w ++ [st_spinner ("Parsing the experiment " +:+ experiment_of a +:+ "...")])).
Proof.
  intros Hws Hend Hparse. unfold parse_pair. rewrite Hend. cbn [negb].
  cbv [bind emit get_item lift as_path]. cbn [session fs page].
  repeat (rewrite Hws; cbn [session fs page]). by rewrite Hparse.
Qed.

Lemma parse_pair_ok a d w ws dc ac spec anno t o c :
  session w !! "workspace" = Some (PPath ws) ->
  caches w dc ac ->
  endswith a ".mzML" = true ->
  parser (ws ++ ["anno-mzMLs"; a]) (ws ++ ["deconv-mzMLs"; d]) (fs w)
  = Ok (spec, anno, t, o, c) ->
  parse_pair parser (a, d) w
  = (Ok (),
     World (<["deconv_dfs" := PFrames (<[d := spec]> dc)]>
              (<["anno_dfs" := PFrames (<[a := anno]> ac)]> (session w)))
       (fs w)
       (page w
        ++ [st_spinner ("Parsing the experiment " +:+ experiment_of a +:+ "...");
            st_success ("Done parsing the experiment " +:+ experiment_of a +:+ "!")])).
Proof.
  intros Hws [Hdc Hac] Hend Hparse. unfold parse_pair. rewrite Hend. cbn [negb].
  cbv [bind emit get_item lift as_path frames_store set_item].
  cbn [session fs page]. repeat (rewrite Hws; cbn [session fs page]).
  rewrite Hparse. cbn [session fs page].
  rewrite Hac. cbn [session fs page].
  rewrite lookup_insert_ne by done. rewrite Hdc. cbn [session fs page].
  by rewrite <- app_assoc.
Qed.

(** *** The pairing loop *)

(** What a run of the loop over [pairs] leaves behind, whether it ends
    normally or with an exception: the disk and every session entry but
    the two caches are as before, the caches changed at most at the
    names of [pairs], and after a normal end every pair with an
    [.mzML] annotated name was parsed and stored. *)
Lemma parse_loop ws pairs : forall w dc ac,
  session w !! "workspace" = Some (PPath ws) ->
  caches w dc ac ->
  exists r w1 dc1 ac1,
    for_each pairs (parse_pair parser) w = (r, w1)
    /\ caches w1 dc1 ac1
    /\ fs w1 = fs w
    /\ (forall k, k <> "anno_dfs" -> k <> "deconv_dfs" ->
                  session w1 !! k = session w !! k)
    /\ (forall k, k ∉ pairs.*1 -> ac1 !! k = ac !! k)
    /\ (forall k, k ∉ pairs.*2 -> dc1 !! k = dc !! k)
    /\ (exists evs, page w1 = page w ++ evs)
    /\ (r = Ok () ->
        forall i a d, pairs !! i = Some (a, d) -> endswith a ".mzML" = true ->
          exists spec anno t o c,
            parser (ws ++ ["anno-mzMLs"; a]) (ws ++ ["deconv-mzMLs"; d]) (fs w)
            = Ok (spec, anno, t, o, c)
            /\ (a ∉ (drop (S i) pairs).*1 -> ac1 !! a = Some anno)
            /\ (d ∉ (drop (S i) pairs).*2 -> dc1 !! d = Some spec)
            /\ st_success ("Done parsing the experiment "
                             +:+ experiment_of a +:+ "!") ∈ page w1)
    /\ ((forall a d, (a, d) ∈ pairs -> endswith a ".mzML" = true ->
          exists x,
            parser (ws ++ ["anno-mzMLs"; a]) (ws ++ ["deconv-mzMLs"; d]) (fs w)
            = Ok x) ->
        r = Ok ()).
Proof.
  induction pairs as [|[a d] pairs IH]; intros w dc ac Hws Hcache.
  - exists (Ok ()), w, dc, ac. split_and!; try done.
    + exists []. by rewrite app_nil_r.
  - cbn [for_each]. destruct (endswith a ".mzML") eqn:Hend.
    2:{ rewrite (bind_ok _ _ _ _ _ (parse_pair_skip a d w Hend)).
        destruct (IH w dc ac Hws Hcache)
          as (r & w1 & dc1 & ac1 & Hrun & Hc1 & Hfs & Hframe & Hac & Hdc
              & Hev & Hok & Htot).
        exists r, w1, dc1, ac1. split_and!; try done.
        - intros k Hk. apply Hac. rewrite fmap_cons in Hk.
          by apply not_elem_of_cons in Hk as [_ ?].
        - intros k Hk. apply Hdc. rewrite fmap_cons in Hk.
          by apply not_elem_of_cons in Hk as [_ ?].
        - intros Hr [|i] a' d' Hi Hend'.
          + injection Hi as <- <-. congruence.
          + apply (Hok Hr i a' d' Hi Hend').
        - intros Hall. apply Htot. intros a' d' Hin. apply Hall.
          apply elem_of_cons. by right. }
    destruct (parser (ws ++ ["anno-mzMLs"; a]) (ws ++ ["deconv-mzMLs"; d]) (fs w))
      as [[[[[spec anno] t] o] c]|e] eqn:Hparse.
    2:{ rewrite (bind_raise _ _ _ _ _ (parse_pair_raise a d w ws e Hws Hend Hparse)).
        eexists _, _, dc, ac. split_and!; try done.
        - by eexists.
        - intros Hall. destruct (Hall a d) as [x Hx]; [|done|congruence].
          apply elem_of_cons. by left. }
    rewrite (bind_ok _ _ _ _ _
               (parse_pair_ok a d w ws dc ac spec anno t o c Hws Hcache Hend Hparse)).
    match goal with |- context [for_each _ _ ?w'] => set (w2 := w') end.
    assert (session w2 !! "workspace" = Some (PPath ws)) as Hws2.
    { subst w2. cbn [session]. by rewrite !lookup_insert_ne. }
    assert (caches w2 (<[d:=spec]> dc) (<[a:=anno]> ac)) as Hcache2.
    { subst w2. split; cbn [session].
      - by rewrite lookup_insert_eq.
      - rewrite lookup_insert_ne by done. by rewrite lookup_insert_eq. }
    destruct (IH w2 _ _ Hws2 Hcache2)
      as (r & w1 & dc1 & ac1 & Hrun & Hc1 & Hfs & Hframe & Hac & Hdc
          & [evs Hev] & Hok & Htot).
    exists r, w1, dc1, ac1. split_and!; try done.
    + intros k Hk1 Hk2. rewrite (Hframe k Hk1 Hk2). subst w2. cbn [session].
      by rewrite !lookup_insert_ne.
    + intros k Hk. rewrite fmap_cons in Hk. apply not_elem_of_cons in Hk as [Hne Hk].
      rewrite (Hac k Hk). by rewrite lookup_insert_ne.
    + intros k Hk. rewrite fmap_cons in Hk. apply not_elem_of_cons in Hk as [Hne Hk].
      rewrite (Hdc k Hk). by rewrite lookup_insert_ne.
    + rewrite Hev. subst w2. cbn [page]. rewrite <- app_assoc. by eexists.
    + intros Hr [|i] a' d' Hi Hend'.
      * injection Hi as <- <-. exists spec, anno, t, o, c. split_and!; try done.
        -- intros Hfresh. cbn [drop] in Hfresh. rewrite (Hac a Hfresh).
           by rewrite lookup_insert_eq.
        -- intros Hfresh. cbn [drop] in Hfresh. rewrite (Hdc d Hfresh).
           by rewrite lookup_insert_eq.
        -- rewrite Hev. subst w2. cbn [page]. apply elem_of_app. left.
           apply elem_of_app. right. apply elem_of_cons. right. by left.
      * apply (Hok Hr i a' d' Hi Hend').
    + intros Hall. apply Htot. intros a' d' Hin. apply Hall.
      apply elem_of_cons. by right.
Qed.

(** The round trip of the design document: on a fresh session, a
    submission of [exp1_deconv.mzML] and [exp1_annotated.mzML] that the
    parser accepts ends with a summary table of one row. *)
Lemma page_run_exp1 b1 b2 x :
  (forall fsx,
      parser (example_workspace ++ ["anno-mzMLs"; "exp1_annotated.mzML"])
        (example_workspace ++ ["deconv-mzMLs"; "exp1_deconv.mzML"]) fsx = Ok x) ->
  exists w',
    page_run parser
      (Some [Upload "exp1_deconv.mzML" b1; Upload "exp1_annotated.mzML" b2])
      fresh_world = (Ok true, w')
    /\ summary w' = Some [Row "exp1" "exp1_deconv.mzML" "exp1_annotated.mzML"].
Proof.
  intros H.
  set (A := (example_workspace ++ ["anno-mzMLs"; "exp1_annotated.mzML"])%list) in *.
  set (D := (example_workspace ++ ["deconv-mzMLs"; "exp1_deconv.mzML"])%list) in *.
  rewrite (page_run_ext parser
             (fun a d fsx =>
                if bool_decide (a = A /\ d = D) then Ok x else parser a d fsx)).
  2:{ intros a d fsx. case_bool_decide as Heq; [|done].
      destruct Heq as [-> ->]. apply H. }
  destruct x as [[[[spec anno] t] o] c].
  match goal with |- exists w', ?m = _ /\ _ => exists (snd m) end.
  split; vm_compute; reflexivity.
Qed.

(** C2: with equally many new names in both buckets, each list of new
    names is sorted on its own and the two sorted lists are paired
    position by position: the tables the parser returns for the [i]-th
    annotated and the [i]-th deconvolved name are stored under these two
    names.  The experiment identity reported for the pair is the
    annotated name cut at its last underscore.  In particular, a
    submission of exactly [exp1_deconv.mzML] and [exp1_annotated.mzML]
    gives the summary row [exp1] with both names. *)
Theorem parseUploadedFiles_pairs_sorted :
  (forall w dl al dc ac ws,
    session w !! "workspace" = Some (PPath ws) ->
    session w !! "progress_bar_space" = Some PContainer ->
    registries w dl al -> caches w dc ac ->
    NoDup dl -> NoDup al ->
    List.length (unparsed dc dl) = List.length (unparsed ac al) ->
    unparsed ac al <> [] ->
    let new_deconv_files := sorted (unparsed dc dl) in
    let new_anno_files := sorted (unparsed ac al) in
    (forall i a d,
        new_anno_files !! i = Some a -> new_deconv_files !! i = Some d ->
        endswith a ".mzML" = true ->
        exists x,
          parser (ws ++ ["anno-mzMLs"; a]) (ws ++ ["deconv-mzMLs"; d]) (fs w)
          = Ok x) ->
    (Sorted str_le new_deconv_files /\ new_deconv_files ≡ₚ unparsed dc dl)
    /\ (Sorted str_le new_anno_files /\ new_anno_files ≡ₚ unparsed ac al)
    /\ exists w' dc' ac',
        parseUploadedFiles parser w = (Ok (), w')
        /\ caches w' dc' ac' /\ fs w' = fs w
        /\ forall i a d,
            new_anno_files !! i = Some a -> new_deconv_files !! i = Some d ->
            endswith a ".mzML" = true ->
            (exists spec anno t o c,
                parser (ws ++ ["anno-mzMLs"; a]) (ws ++ ["deconv-mzMLs"; d]) (fs w)
                = Ok (spec, anno, t, o, c)
                /\ ac' !! a = Some anno /\ dc' !! d = Some spec)
            /\ st_success ("Done parsing the experiment "
                             +:+ experiment_of a +:+ "!") ∈ page w'
            /\ ((0 <= rfind "_" a)%Z ->
                exists rest,
                  a = experiment_of a +:+ String "_" rest
                  /\ rfind "_" rest = (-1)%Z))
  /\ (forall b1 b2 x,
        (forall fsx,
            parser (example_workspace ++ ["anno-mzMLs"; "exp1_annotated.mzML"])
              (example_workspace ++ ["deconv-mzMLs"; "exp1_deconv.mzML"]) fsx
            = Ok x) ->
        exists w',
          page_run parser
            (Some [Upload "exp1_deconv.mzML" b1; Upload "exp1_annotated.mzML" b2])
            fresh_world = (Ok true, w')
          /\ summary w'
             = Some [Row "exp1" "exp1_deconv.mzML" "exp1_annotated.mzML"]).
Proof.
  split; [|apply page_run_exp1].
  intros w dl al dc ac ws.
  intros Hws Hbar Hreg Hcache Hndd Hnda Hlen Hne new_deconv_files new_anno_files Hparse.
  split; [split; [apply sorted_Sorted|apply sorted_Permutation]|].
  split; [split; [apply sorted_Sorted|apply sorted_Permutation]|].
  rewrite (parseUploadedFiles_new w dl al dc ac Hreg Hcache). cbv zeta.
  assert ((List.length (unparsed dc dl) =? 0)%nat
          && (List.length (unparsed ac al) =? 0)%nat = false) as ->.
  { apply andb_false_iff. right. apply Nat.eqb_neq.
    by destruct (unparsed ac al). }
  rewrite Hlen, Nat.eqb_refl. cbn [negb].
  rewrite (bind_ok _ _ _ _ _ (get_item_ok _ _ _ Hbar)).
  fold new_deconv_files new_anno_files.
  assert (List.length new_anno_files = List.length new_deconv_files) as Hlen'.
  { unfold new_anno_files, new_deconv_files. by rewrite !sorted_length. }
  destruct (parse_loop ws (zip new_anno_files new_deconv_files) w dc ac Hws Hcache)
    as (r & w1 & dc1 & ac1 & Hrun & Hc1 & Hfs & Hframe & Hac & Hdc
        & _ & Hok & Htot).
  assert (r = Ok ()) as ->.
  { apply Htot. intros a d Hin Hend.
    apply list_elem_of_lookup in Hin as [i Hi].
    apply lookup_zip_with_Some in Hi as (a' & d' & [= -> ->] & Ha & Hd).
    by apply (Hparse i). }
  exists w1, dc1, ac1. split_and!; try done.
  intros i a d Ha Hd Hend.
  assert (zip new_anno_files new_deconv_files !! i = Some (a, d)) as Hi.
  { apply lookup_zip_with_Some. by exists a, d. }
  destruct (Hok eq_refl i a d Hi Hend)
    as (spec & anno & t & o & c & Hp & Hca & Hcd & Hmsg).
  split_and!; [|done|apply rfind_split].
  exists spec, anno, t, o, c. split_and!; [done| |].
  - apply Hca. rewrite fmap_drop, fst_zip by lia.
    apply NoDup_lookup_drop; [|done].
    by apply sorted_NoDup, NoDup_unparsed.
  - apply Hcd. rewrite fmap_drop, snd_zip by lia.
    apply NoDup_lookup_drop; [|done].
    by apply sorted_NoDup, NoDup_unparsed.
Qed.

(** C3: when the parser raises on a pair, the exception leaves
    [parseUploadedFiles]; neither cache has an entry for that pair or
    for any later pair of the cycle, and the entries of the pairs
    processed before are in place. *)
Theorem parseUploadedFiles_parser_failure w dl al dc ac ws pre a d post e :
  session w !! "workspace" = Some (PPath ws) ->
  session w !! "progress_bar_space" = Some PContainer ->
  registries w dl al -> caches w dc ac ->
  NoDup dl -> NoDup al ->
  List.length (unparsed dc dl) = List.length (unparsed ac al) ->
  zip (sorted (unparsed ac al)) (sorted (unparsed dc dl)) = pre ++ (a, d) :: post ->
  (forall a' d', (a', d') ∈ pre -> endswith a' ".mzML" = true ->
     exists x,
       parser (ws ++ ["anno-mzMLs"; a']) (ws ++ ["deconv-mzMLs"; d']) (fs w) = Ok x) ->
  endswith a ".mzML" = true ->
  parser (ws ++ ["anno-mzMLs"; a]) (ws ++ ["deconv-mzMLs"; d]) (fs w) = Raise e ->
  exists w' dc' ac',
    parseUploadedFiles parser w = (Raise e, w')
    /\ caches w' dc' ac' /\ fs w' = fs w
    /\ ac' !! a = None /\ dc' !! d = None
    /\ (forall a' d', (a', d') ∈ post -> ac' !! a' = None /\ dc' !! d' = None)
    /\ (forall a' d', (a', d') ∈ pre -> endswith a' ".mzML" = true ->
          exists spec anno t o c,
            parser (ws ++ ["anno-mzMLs"; a']) (ws ++ ["deconv-mzMLs"; d']) (fs w)
            = Ok (spec, anno, t, o, c)
            /\ ac' !! a' = Some anno /\ dc' !! d' = Some spec)
    /\ (forall k, k ∉ pre.*1 -> ac' !! k = ac !! k)
    /\ (forall k, k ∉ pre.*2 -> dc' !! k = dc !! k).
Proof.
  intros Hws Hbar Hreg Hcache Hndd Hnda Hlen Hzip Hpre Hend Hfail.
  assert (List.length (sorted (unparsed ac al))
          = List.length (sorted (unparsed dc dl))) as Hlen'
    by (by rewrite !sorted_length).
  assert (NoDup (pre.*1 ++ a :: post.*1)) as Hnd1.
  { rewrite <- (fmap_cons fst (a, d)), <- fmap_app, <- Hzip, fst_zip by lia.
    by apply sorted_NoDup, NoDup_unparsed. }
  assert (NoDup (pre.*2 ++ d :: post.*2)) as Hnd2.
  { rewrite <- (fmap_cons snd (a, d)), <- fmap_app, <- Hzip, snd_zip by lia.
    by apply sorted_NoDup, NoDup_unparsed. }
  assert (forall a' d', (a', d') ∈ pre ++ (a, d) :: post ->
            ac !! a' = None /\ dc !! d' = None) as Hnew.
  { intros a' d' Hin. rewrite <- Hzip in Hin. split.
    - apply elem_of_zip_l in Hin. rewrite sorted_Permutation in Hin.
      by apply elem_of_unparsed in Hin as [_ ?].
    - apply elem_of_zip_r in Hin. rewrite sorted_Permutation in Hin.
      by apply elem_of_unparsed in Hin as [_ ?]. }
  rewrite (parseUploadedFiles_new w dl al dc ac Hreg Hcache). cbv zeta.
  assert ((List.length (unparsed dc dl) =? 0)%nat
          && (List.length (unparsed ac al) =? 0)%nat = false) as ->.
  { apply andb_false_iff. right. apply Nat.eqb_neq.
    rewrite <- (sorted_length (unparsed ac al)), <- (fst_zip _ _ (Nat.eq_le_incl _ _ Hlen')).
    rewrite Hzip, length_fmap, length_app. simpl. lia. }
  rewrite Hlen, Nat.eqb_refl. cbn [negb].
  rewrite (bind_ok _ _ _ _ _ (get_item_ok _ _ _ Hbar)).
  rewrite Hzip, for_each_app.
  destruct (parse_loop ws pre w dc ac Hws Hcache)
    as (r & w1 & dc1 & ac1 & Hrun & Hc1 & Hfs & Hframe & Hac & Hdc
        & _ & Hok & Htot).
  rewrite Hrun. rewrite (Htot Hpre) in *. cbn [for_each].
  assert (session w1 !! "workspace" = Some (PPath ws)) as Hws1
    by (by rewrite Hframe).
  rewrite <- Hfs in Hfail.
  rewrite (bind_raise _ _ _ _ _ (parse_pair_raise a d w1 ws e Hws1 Hend Hfail)).
  destruct (NoDup_app_middle _ _ _ Hnd1) as (Ha1 & Ha2 & Ha3).
  destruct (NoDup_app_middle _ _ _ Hnd2) as (Hd1 & Hd2 & Hd3).
  eexists _, dc1, ac1. split_and!; try done.
  - rewrite (Hac a Ha1). apply (Hnew a d). apply elem_of_app. right. by left.
  - rewrite (Hdc d Hd1). apply (Hnew a d). apply elem_of_app. right. by left.
  - intros a' d' Hin. split.
    + rewrite Hac; [apply (Hnew a' d'); apply elem_of_app; right; by right|].
      apply Ha3. apply list_elem_of_fmap. by exists (a', d').
    + rewrite Hdc; [apply (Hnew a' d'); apply elem_of_app; right; by right|].
      apply Hd3. apply list_elem_of_fmap. by exists (a', d').
  - intros a' d' Hin Hend'. apply list_elem_of_lookup in Hin as [i Hi].
    destruct (Hok eq_refl i a' d' Hi Hend')
      as (spec & anno & t & o & c & Hp & Hca & Hcd & _).
    exists spec, anno, t, o, c. split_and!; [done| |].
    + apply Hca. rewrite fmap_drop. apply NoDup_lookup_drop.
      * by apply NoDup_app in Hnd1 as [? _].
      * by rewrite list_lookup_fmap, Hi.
    + apply Hcd. rewrite fmap_drop. apply NoDup_lookup_drop.
      * by apply NoDup_app in Hnd2 as [? _].
      * by rewrite list_lookup_fmap, Hi.
Qed.

(** *** A cycle on an empty workspace *)

Lemma page_run_nothing_uploaded w ws dl al :
  session w !! "workspace" = Some (PPath ws) ->
  registries w dl al -> caches w ∅ ∅ ->
  fs w !! (ws ++ ["deconv-mzMLs"]) = Some ∅ ->
  fs w !! (ws ++ ["anno-mzMLs"]) = Some ∅ ->
  page_run parser None w
  = (Ok false,
     World
       (<["progress_bar_space" := PContainer]>
          (<["anno-mzMLs" := PStrList []]>
             (<["deconv-mzMLs" := PStrList []]> (session w))))
       (mkdir_parents (ws ++ ["anno-mzMLs"])
          (mkdir_parents (ws ++ ["deconv-mzMLs"]) (fs w)))
       (page w ++ [st_info "No mzML added yet!"])).
Proof.
  intros Hws [Hdl Hal] [Hdc Hac] Hd1 Hd2. unfold page_run.
  rewrite (bind_ok _ _ _ _ _
             (initializeWorkspace_run w ws _ _ Hws Hdc Hac)).
  rewrite Hd1, Hd2. cbn [default from_option id].
  rewrite map_to_list_empty. cbn [fmap list_fmap].
  unfold bind at 1, ret at 1. unfold bind at 1, set_item at 1. cbn [session fs page].
  unfold bind at 1.
  match goal with |- context [parseUploadedFiles _ ?w'] => set (w3 := w') end.
  assert (registries w3 [] []) as Hreg3.
  { subst w3. split; cbn [session].
    - rewrite !lookup_insert_ne by done; by rewrite lookup_insert_eq.
    - rewrite !lookup_insert_ne by done; by rewrite lookup_insert_eq. }
  assert (caches w3 ∅ ∅) as Hcache3.
  { subst w3. split; cbn [session]; by rewrite !lookup_insert_ne. }
  rewrite (parseUploadedFiles_new w3 [] [] ∅ ∅ Hreg3 Hcache3). cbn.
  rewrite (showUploadedFilesTable_unfold w3 ∅ ∅ Hcache3).
  by rewrite map_size_empty.
Qed.

(** C7: after the [Remove all] branch both bucket directories exist and
    are empty, both lists of known names and both parse caches are
    empty and the summary table is gone; the next run of the page on
    this state shows the [No mzML added yet!] information and no error,
    and leaves everything empty. *)
Theorem remove_all_then_nothing_uploaded w ws v1 v2 v3 v4 v5 :
  session w !! "workspace" = Some (PPath ws) ->
  session w !! "deconv-mzMLs" = Some v1 ->
  session w !! "anno-mzMLs" = Some v2 ->
  session w !! "deconv_dfs" = Some v3 ->
  session w !! "anno_dfs" = Some v4 ->
  session w !! "experiment-df" = Some v5 ->
  exists w1,
    remove_all w = (Ok (), w1)
    /\ fs w1 !! (ws ++ ["deconv-mzMLs"]) = Some ∅
    /\ fs w1 !! (ws ++ ["anno-mzMLs"]) = Some ∅
    /\ registries w1 [] [] /\ caches w1 ∅ ∅
    /\ session w1 !! "experiment-df" = None
    /\ page w1 = page w ++ [st_success "All mzML files removed!"]
    /\ exists w2,
        page_run parser None w1 = (Ok false, w2)
        /\ page w2 = page w1 ++ [st_info "No mzML added yet!"]
        /\ fs w2 !! (ws ++ ["deconv-mzMLs"]) = Some ∅
        /\ fs w2 !! (ws ++ ["anno-mzMLs"]) = Some ∅
        /\ registries w2 [] [] /\ caches w2 ∅ ∅
        /\ session w2 !! "experiment-df" = None.
Proof.
  intros Hws H1 H2 H3 H4 H5.
  rewrite (remove_all_run w ws v1 v2 v3 v4 v5 Hws H1 H2 H3 H4 H5).
  eexists. split; [done|].
  match goal with |- fs ?w' !! _ = _ /\ _ => set (w1 := w') end.
  assert (fs w1 !! (ws ++ ["deconv-mzMLs"]) = Some ∅) as Hd1.
  { subst w1. cbn [fs]. rewrite lookup_reset_directory_ne.
    - apply lookup_reset_directory_eq. by destruct ws.
    - by apply sibling_not_prefix.
    - by apply sibling_not_prefix. }
  assert (fs w1 !! (ws ++ ["anno-mzMLs"]) = Some ∅) as Hd2.
  { subst w1. cbn [fs]. apply lookup_reset_directory_eq. by destruct ws. }
  assert (session w1 !! "workspace" = Some (PPath ws)) as Hws1.
  { subst w1. cbn [session]. by rewrite lookup_delete_ne, !lookup_insert_ne. }
  assert (registries w1 [] []) as Hreg1.
  { subst w1. split; cbn [session]; rewrite lookup_delete_ne by done.
    - rewrite !lookup_insert_ne by done; by rewrite lookup_insert_eq.
    - rewrite !lookup_insert_ne by done; by rewrite lookup_insert_eq. }
  assert (caches w1 ∅ ∅) as Hcache1.
  { subst w1. split; cbn [session]; rewrite lookup_delete_ne by done.
    - rewrite !lookup_insert_ne by done; by rewrite lookup_insert_eq.
    - by rewrite lookup_insert_eq. }
  assert (session w1 !! "experiment-df" = None) as Hdf1.
  { subst w1. cbn [session]. by rewrite lookup_delete_eq. }
  split_and!; try done.
  rewrite (page_run_nothing_uploaded w1 ws [] [] Hws1 Hreg1 Hcache1 Hd1 Hd2).
  eexists. split; [done|]. cbn [session fs page].
  split_and!; try done.
  - by rewrite !lookup_mkdir_parents, Hd1.
  - by rewrite !lookup_mkdir_parents, Hd2.
  - split; cbn [session].
    + rewrite !lookup_insert_ne by done; by rewrite lookup_insert_eq.
    + rewrite !lookup_insert_ne by done; by rewrite lookup_insert_eq.
  - split; cbn [session]; rewrite !lookup_insert_ne by done; apply Hcache1.
  - by rewrite !lookup_insert_ne.
Qed.
End Pairing.
End Upload.

End FileUploadProofs.

(** ** The properties on the example worlds *)

Module Scenarios.
Import Py Fs Common FileUpload Examples FsProofs FileUploadProofs.

Lemma unpaired_world_bound :
  registries unpaired_world ["a_deconv.mzML"; "b_deconv.mzML"] ["a_annotated.mzML"]
  /\ caches unpaired_world ∅ ∅.
Proof. repeat split; vm_compute; reflexivity. Qed.

Lemma two_pairs_world_bound :
  session two_pairs_world !! "workspace" = Some (PPath example_workspace)
  /\ session two_pairs_world !! "progress_bar_space" = Some PContainer
  /\ registries two_pairs_world ["b_deconv.mzML"; "a_deconv.mzML"]
       ["a_annotated.mzML"; "b_annotated.mzML"]
  /\ caches two_pairs_world ∅ ∅.
Proof. repeat split; vm_compute; reflexivity. Qed.

(** Two deconvolved files and one annotated file: the pairing error names
    all three, nothing is parsed. *)
Lemma parseUploadedFiles_mismatch_witness :
  parseUploadedFiles example_parser unpaired_world
  = (Ok (),
     World (session unpaired_world) (fs unpaired_world)
       (page unpaired_world
        ++ [st_error mismatch_message;
            st_markdown "- a_deconv.mzML"; st_markdown "- b_deconv.mzML";
            st_markdown "- a_annotated.mzML"])).
Proof.
  apply (proj1 (parseUploadedFiles_mismatch example_parser unpaired_world
                  ["a_deconv.mzML"; "b_deconv.mzML"] ["a_annotated.mzML"] ∅ ∅
                  (proj1 unpaired_world_bound) (proj2 unpaired_world_bound))).
  vm_compute. lia.
Defined.

(** Two pairs submitted out of order: [b] goes with [b]. *)
Lemma parseUploadedFiles_pairs_sorted_witness :
  exists w' dc' ac',
    parseUploadedFiles example_parser two_pairs_world = (Ok (), w')
    /\ caches w' dc' ac'
    /\ ac' !! "b_annotated.mzML"
       = Some (example_workspace ++ ["anno-mzMLs"; "b_annotated.mzML"])
    /\ dc' !! "b_deconv.mzML"
       = Some (example_workspace ++ ["deconv-mzMLs"; "b_deconv.mzML"]).
Proof.
  destruct two_pairs_world_bound as (Hws & Hbar & Hreg & Hcache).
  assert (NoDup ["b_deconv.mzML"; "a_deconv.mzML"]) as Hnd1 by compute_done.
  assert (NoDup ["a_annotated.mzML"; "b_annotated.mzML"]) as Hnd2 by compute_done.
  destruct (proj1 (parseUploadedFiles_pairs_sorted example_parser)
              two_pairs_world _ _ ∅ ∅ example_workspace
              Hws Hbar Hreg Hcache Hnd1 Hnd2 eq_refl
              ltac:(vm_compute; discriminate)
              ltac:(intros; by eexists))
    as (_ & _ & w' & dc' & ac' & Hrun & Hc & _ & Hpairs).
  exists w', dc', ac'. split; [exact Hrun|]. split; [exact Hc|].
  destruct (Hpairs 1 "b_annotated.mzML" "b_deconv.mzML")
    as ((spec & anno & t & o & c & Hp & Ha & Hd) & _);
    [vm_compute; reflexivity..|].
  injection Hp as <- <- _ _ _. split; assumption.
Defined.

Lemma parseUploadedFiles_parser_failure_witness :
  exists w' dc' ac',
    parseUploadedFiles (rejecting_parser "b_annotated.mzML") two_pairs_world
    = (Raise (ParserError "malformed mzML"), w')
    /\ caches w' dc' ac'
    /\ ac' !! "b_annotated.mzML" = None /\ dc' !! "b_deconv.mzML" = None
    /\ is_Some (ac' !! "a_annotated.mzML") /\ is_Some (dc' !! "a_deconv.mzML").
Proof.
  destruct two_pairs_world_bound as (Hws & Hbar & Hreg & Hcache).
  assert (NoDup ["b_deconv.mzML"; "a_deconv.mzML"]) as Hnd1 by compute_done.
  assert (NoDup ["a_annotated.mzML"; "b_annotated.mzML"]) as Hnd2 by compute_done.
  destruct (parseUploadedFiles_parser_failure (rejecting_parser "b_annotated.mzML")
              two_pairs_world _ _ ∅ ∅ example_workspace
              [("a_annotated.mzML", "a_deconv.mzML")]
              "b_annotated.mzML" "b_deconv.mzML" [] (ParserError "malformed mzML")
              Hws Hbar Hreg Hcache Hnd1 Hnd2 eq_refl)
    as (w' & dc' & ac' & Hrun & Hc & _ & Ha & Hd & _ & Hpre & _).
  - vm_compute. reflexivity.
  - intros a' d' Hin _. apply list_elem_of_singleton in Hin. injection Hin as -> ->.
    by eexists.
  - reflexivity.
  - reflexivity.
  - exists w', dc', ac'.
    destruct (Hpre "a_annotated.mzML" "a_deconv.mzML")
      as (spec & anno & t & o & c & _ & H1 & H2); [by left|reflexivity|].
    split; [exact Hrun|]. split; [exact Hc|]. split; [exact Ha|]. split; [exact Hd|].
    split; eexists; eassumption.
Defined.

(** *** The world after one parsed pair *)

Lemma exp1_world_bound :
  session exp1_world !! "workspace" = Some (PPath example_workspace)
  /\ fs exp1_world !! (example_workspace ++ ["deconv-mzMLs"])
     = Some {[ "exp1_deconv.mzML" := Bytes [] ]}
  /\ fs exp1_world !! (example_workspace ++ ["anno-mzMLs"])
     = Some {[ "exp1_annotated.mzML" := Bytes [] ]}
  /\ caches exp1_world {[ "exp1_deconv.mzML" := exp1_deconv_path ]}
       {[ "exp1_annotated.mzML" := exp1_anno_path ]}
  /\ session exp1_world !! "experiment-df" = Some (PTable [exp1_row])
  /\ registries exp1_world ["exp1_deconv.mzML"] ["exp1_annotated.mzML"].
Proof. repeat split; vm_compute; reflexivity. Qed.

Lemma showUploadedFilesTable_rebuilds_witness :
  exists t,
    showUploadedFilesTable exp1_world
    = (Ok true,
       World (<["experiment-df" := PTable t]> (session exp1_world)) (fs exp1_world)
         (page exp1_world
          ++ [st_write "#"; st_write "#";
              st_markdown "**Uploaded experiments in current workspace**";
              st_dataframe t; st_write "#"]))
    /\ List.length t = 1.
Proof.
  destruct exp1_world_bound as (_ & _ & _ & Hcache & _).
  destruct (proj1 (showUploadedFilesTable_rebuilds exp1_world _ _ Hcache))
    as (t & _ & Hrun & Hlen & _).
  - reflexivity.
  - vm_compute. lia.
  - exists t. split; [exact Hrun|]. rewrite Hlen. reflexivity.
Defined.

Lemma handleInputFiles_idempotent_witness :
  handleInputFiles [named "exp1_deconv.mzML"] exp1_world = (Ok (), exp1_world)
  /\ handleInputFiles [named "exp1_deconv.mzML"; named "exp1_annotated.mzML"] exp1_world
     = handleInputFiles [named "exp1_annotated.mzML"] exp1_world.
Proof.
  apply (proj1 (@handleInputFiles_idempotent (list string)) exp1_world
           (named "exp1_deconv.mzML") [named "exp1_annotated.mzML"]
           ["exp1_deconv.mzML"]).
  - vm_compute. reflexivity.
  - compute_done.
Defined.

Lemma exp1_world_plain_targets :
  plain_targets example_workspace ["exp1"; "ghost"] (fs exp1_world).
Proof.
  intros e He. apply elem_of_cons in He as [->|He];
    [|apply list_elem_of_singleton in He as ->];
    repeat split; vm_compute; reflexivity.
Qed.

Lemma remove_selected_mzML_files_exact_witness :
  (exists fd' fa' dc' ac',
      remove_selected_mzML_files ["exp1"] [] exp1_world
      = (Ok [],
         World
           (<["experiment-df" := PTable []]>
              (<["anno_dfs" := PFrames ac']>
                 (<["deconv_dfs" := PFrames dc']> (session exp1_world))))
           (<[example_workspace ++ ["anno-mzMLs"] := fa']>
              (<[example_workspace ++ ["deconv-mzMLs"] := fd']> (fs exp1_world)))
           (page exp1_world ++ [st_success "Selected mzML files removed!"]))
      /\ fd' !! "exp1_deconv.mzML" = None /\ dc' !! "exp1_deconv.mzML" = None
      /\ fa' !! "exp1_annotated.mzML" = None /\ ac' !! "exp1_annotated.mzML" = None)
  /\ (exists fd' dc',
        remove_selected_mzML_files ["exp1"; "ghost"] [] exp1_world
        = (Raise (FileNotFoundError
                    ((example_workspace ++ ["deconv-mzMLs"]) ++ ["ghost_deconv.mzML"])),
           World (<["deconv_dfs" := PFrames dc']> (session exp1_world))
             (<[example_workspace ++ ["deconv-mzMLs"] := fd']> (fs exp1_world))
             (page exp1_world))
        /\ fd' !! "exp1_deconv.mzML" = None /\ dc' !! "exp1_deconv.mzML" = None).
Proof.
  destruct exp1_world_bound as (Hws & Hfd & Hfa & Hcache & Ht & _).
  split.
  - destruct (proj1 (remove_selected_mzML_files_exact ["exp1"] [] exp1_world
                       example_workspace _ _ _ _ _ Hws Hfd Hfa Hcache Ht))
      as (fd' & fa' & dc' & ac' & Hrun & Hd & _ & Ha & _).
    + compute_done.
    + intros k Hk. apply list_elem_of_singleton in Hk as ->. split; by eexists.
    + intros k Hk. apply list_elem_of_singleton in Hk as ->. split; by eexists.
    + exists fd', fa', dc', ac'. split; [exact Hrun|].
      destruct (Hd "exp1_deconv.mzML") as [Hd1 Hd2]; [by left|].
      destruct (Ha "exp1_annotated.mzML") as [Ha1 Ha2]; [by left|].
      repeat split; assumption.
  - destruct (proj2 (remove_selected_mzML_files_exact ["exp1"; "ghost"] [] exp1_world
                       example_workspace _ _ _ _ _ Hws Hfd Hfa Hcache Ht)
                exp1_world_plain_targets)
      as (_ & _ & Hprefix & _).
    destruct (Hprefix ["exp1"] "ghost" [] eq_refl) as (fd' & dc' & Hrun & Hgone & _).
    + apply NoDup_singleton.
    + intros x Hx. apply list_elem_of_singleton in Hx as ->. split; by eexists.
    + reflexivity.
    + exists fd', dc'. split; [exact Hrun|].
      apply (Hgone "exp1"). apply list_elem_of_here.
Defined.

Lemma remove_all_then_nothing_uploaded_witness :
  exists w1 w2,
    remove_all exp1_world = (Ok (), w1)
    /\ fs w1 !! (example_workspace ++ ["deconv-mzMLs"]) = Some ∅
    /\ fs w1 !! (example_workspace ++ ["anno-mzMLs"]) = Some ∅
    /\ caches w1 ∅ ∅
    /\ page_run example_parser None w1 = (Ok false, w2)
    /\ page w2 = page w1 ++ [st_info "No mzML added yet!"].
Proof.
  destruct exp1_world_bound as (Hws & _ & _ & [Hdc Hac] & Ht & [Hdl Hal]).
  destruct (remove_all_then_nothing_uploaded example_parser exp1_world
              example_workspace _ _ _ _ _ Hws Hdl Hal Hdc Hac Ht)
    as (w1 & Hrun & Hd1 & Hd2 & _ & Hc & _ & _ & w2 & Hrun2 & Hpage & _).
  exists w1, w2. split; [exact Hrun|]. split; [exact Hd1|]. split; [exact Hd2|].
  split; [exact Hc|]. split; [exact Hrun2|exact Hpage].
Defined.

(** *** Where the code departs from the design document *)

(** C9: a submitted file named [sample.mzML] passes the [mzML] test, matches
    neither suffix, and the look-up of the session key [""] raises: the
    file is not skipped, the run of the page ends with a [KeyError]. *)
Theorem handleInputFiles_unclassified_raises :
  let w := (initializeWorkspace input_file_types parsed_df_types
              (@fresh_world (list string))).2 in
  session_name_of "sample.mzML" = ""
  /\ handleInputFiles [named "sample.mzML"] w = (Raise (KeyError ""), w)
  /\ handleInputFiles [named "sample.mzML"; named "exp1_deconv.mzML"] w
     = (Raise (KeyError ""), w)
  /\ (page_run example_parser (Some [named "sample.mzML"]) fresh_world).1
     = Raise (KeyError "")
  /\ handleInputFiles [named "notes.txt"] w = (Ok (), w).
Proof. repeat split; vm_compute; reflexivity. Qed.

(** C4 as the design document states it fails.  Starting from
    [mispaired_world] (rows [A] and [C]), removing [A] and [C] stops with a
    not-found error at [C_deconv.mzML], after the deconvolved side of [A]
    was deleted; the [D] pair submitted next is parsed, and the display
    step of that run ends normally with an error message: the table still
    has the two old rows while the annotated cache has three keys. *)
Lemma summary_table_misses_cached_key :
  let w2 := (remove_selected_mzML_files ["A"; "C"] [] mispaired_world).2 in
  let run := page_run example_parser
               (Some [named "D_deconv.mzML"; named "D_annotated.mzML"]) w2 in
  run.1 = Ok false
  /\ summary run.2
     = Some [Row "A" "A_deconv.mzML" "A_annotated.mzML";
             Row "C" "B_deconv.mzML" "C_annotated.mzML"]
  /\ match session run.2 !! "anno_dfs" with
     | Some (PFrames ac) => sorted (keys_of ac)
     | _ => []
     end = ["A_annotated.mzML"; "C_annotated.mzML"; "D_annotated.mzML"]
  /\ match session run.2 !! "deconv_dfs" with
     | Some (PFrames dc) => sorted (keys_of dc)
     | _ => []
     end = ["B_deconv.mzML"; "D_deconv.mzML"].
Proof. repeat split; vm_compute; reflexivity. Qed.

(** A removal that succeeds patches the table: after removing [B] from a
    session whose pairs are ([B_annotated], [A_deconv]) and ([C_annotated],
    [B_deconv]), the remaining row still names [B_deconv.mzML], which is
    neither cached nor on disk, where a rebuild would name [A_deconv.mzML]. *)
Lemma removal_patches_summary_table :
  let w1 := (page_run example_parser
               (Some [named "A_deconv.mzML"; named "B_deconv.mzML";
                      named "B_annotated.mzML"; named "C_annotated.mzML"])
               fresh_world).2 in
  let run := remove_selected_mzML_files ["B"] [] w1 in
  run.1 = Ok []
  /\ summary run.2 = Some [Row "C" "B_deconv.mzML" "C_annotated.mzML"]
  /\ match session run.2 !! "deconv_dfs" with
     | Some (PFrames dc) => sorted (keys_of dc)
     | _ => []
     end = ["A_deconv.mzML"]
  /\ (showUploadedFilesTable run.2).1 = Ok true
  /\ summary (showUploadedFilesTable run.2).2
     = Some [Row "C" "A_deconv.mzML" "C_annotated.mzML"].
Proof. repeat split; vm_compute; reflexivity. Qed.

(** C6 as the design document states it fails.  Removing [exp1] and the
    unknown [ghost] in one call ends with a not-found error, but the
    deconvolved file and cache entry of [exp1] are gone by then, while its
    annotated file and cache entry are still there. *)
Lemma failed_removal_mutates :
  let run := remove_selected_mzML_files ["exp1"; "ghost"] [] exp1_world in
  run.1 = Raise (FileNotFoundError
                   (example_workspace ++ ["deconv-mzMLs"; "ghost_deconv.mzML"]))
  /\ fs exp1_world !! (example_workspace ++ ["deconv-mzMLs"])
     = Some {[ "exp1_deconv.mzML" := Bytes [] ]}
  /\ fs run.2 !! (example_workspace ++ ["deconv-mzMLs"]) = Some ∅
  /\ session run.2 !! "deconv_dfs" = Some (PFrames ∅)
  /\ fs run.2 !! (example_workspace ++ ["anno-mzMLs"])
     = Some {[ "exp1_annotated.mzML" := Bytes [] ]}
  /\ session run.2 !! "anno_dfs"
     = Some (PFrames {[ "exp1_annotated.mzML" := exp1_anno_path ]})
  /\ run.2 <> exp1_world.
Proof.
  repeat split; try (vm_compute; reflexivity).
  intros Heq. apply (f_equal (fun w => fs w !! (example_workspace ++ ["deconv-mzMLs"]))) in Heq.
  vm_compute in Heq. discriminate.
Qed.

End Scenarios.

(** ** Reading parameters back, saving twice, switching workspace *)

Module ParamsProofs.
Import Py Fs Common Params CommonProofs Examples.

Section Params.
Context {frame : Type}.
Variable json_loads : list Byte.byte -> option (list (string * pyval frame)).
Implicit Types (params : list (string * pyval frame)).
Implicit Types (st : session_state frame) (d : disk frame).

Lemma overridden_idemp st params :
  overridden st (overridden st params) = overridden st params.
Proof.
  unfold overridden. rewrite List.map_map. apply List.map_ext. intros [k v]. cbn.
  by destruct (st !! k).
Qed.

Lemma child_ne (ws : list string) (name : string) : ws <> ws ++ [name].
Proof.
  intros H. apply (f_equal List.length) in H. rewrite length_app in H. simpl in H. lia.
Qed.

Lemma not_serialisable_overridden st params k v :
  k ∈ dict_keys params -> st !! k = Some v -> serialisable v = false ->
  forallb (fun kv => serialisable kv.2) (overridden st params) = false.
Proof.
  unfold overridden, dict_keys. induction params as [|[k' v'] ps IH]; cbn [List.map forallb].
  - by intros ?%elem_of_nil.
  - rewrite fmap_cons. intros Hin Hk Hv. apply andb_false_iff.
    apply elem_of_cons in Hin as [Heq|Hin].
    + left. cbn in Heq. subst k'. cbn. by rewrite Hk.
    + right. by apply IH.
Qed.

(** X1: The file a successful save leaves behind reads back as the merged
    dictionary, from any session bound to the same workspace. *)
Theorem load_params_after_save params st st' d ws files :
  NoDup (dict_keys params) ->
  workspace_attr st = Ok ws ->
  workspace_attr st' = Ok ws ->
  d !! ws = Some files ->
  d !! (ws ++ ["params.json"]) = None ->
  (forall k x, (k, x) ∈ params -> serialisable x = true) ->
  (forall k x, k ∈ dict_keys params -> st !! k = Some x -> serialisable x = true) ->
  (save_params params st d).1.1 = Ok ()
  /\ load_params json_loads false st' (save_params params st d).2
     = Returns (overridden st params).
Proof.
  intros Hnd Hws Hws' Hdir Hnodir Hp Hs. unfold save_params.
  rewrite Hws, Hdir, Hnodir, (merge_overrides_overridden params st Hnd).
  rewrite (bool_decide_eq_false_2 (is_Some None)) by (by intros [? ?]).
  rewrite (serialisable_overridden st params Hp Hs). split; [done|]. cbn [snd].
  unfold load_params. rewrite Hws'. unfold path_exists, read_json.
  rewrite lookup_insert_ne by apply child_ne. rewrite Hnodir.
  rewrite (bool_decide_eq_false_2 (is_Some None)) by (by intros [? ?]).
  rewrite lookup_insert_eq, lookup_insert_eq.
  by rewrite bool_decide_eq_true_2.
Qed.

(** X2: A session value that [json.dump] cannot encode, stored under a key
    of [params], makes the save raise [TypeError] after the file was opened
    for writing: what the file held is lost, and the next [load_params]
    raises instead of falling back to the defaults. *)
Theorem save_params_unserialisable params st st' d ws files k v :
  NoDup (dict_keys params) ->
  workspace_attr st = Ok ws ->
  workspace_attr st' = Ok ws ->
  d !! ws = Some files ->
  d !! (ws ++ ["params.json"]) = None ->
  k ∈ dict_keys params -> st !! k = Some v -> serialisable v = false ->
  save_params params st d
  = (Raise TypeError, overridden st params,
     <[ws := <["params.json" := Truncated]> files]> d)
  /\ load_params json_loads false st' (save_params params st d).2
     = Raises (PyExn ValueError).
Proof.
  intros Hnd Hws Hws' Hdir Hnodir Hk Hv Hbad.
  assert (save_params params st d
          = (Raise TypeError, overridden st params,
             <[ws := <["params.json" := Truncated]> files]> d)) as Hsave.
  { unfold save_params.
    rewrite Hws, Hdir, Hnodir, (merge_overrides_overridden params st Hnd).
    rewrite (bool_decide_eq_false_2 (is_Some None)) by (by intros [? ?]).
    by rewrite (not_serialisable_overridden st params k v Hk Hv Hbad). }
  split; [done|]. rewrite Hsave. cbn [snd].
  unfold load_params. rewrite Hws'. unfold path_exists, read_json.
  rewrite lookup_insert_ne by apply child_ne. rewrite Hnodir.
  rewrite (bool_decide_eq_false_2 (is_Some None)) by (by intros [? ?]).
  rewrite lookup_insert_eq, lookup_insert_eq.
  by rewrite bool_decide_eq_true_2.
Qed.

(** X3: Saving again what a save returned, in the same session, changes
    nothing: same outcome, same dictionary, same disk. *)
Theorem save_params_twice params st d :
  NoDup (dict_keys params) ->
  save_params (save_params params st d).1.2 st (save_params params st d).2
  = save_params params st d.
Proof.
  intros Hnd. unfold save_params.
  rewrite (merge_overrides_overridden params st Hnd).
  assert (NoDup (dict_keys (overridden st params))) as Hnd'
    by (by rewrite dict_keys_overridden).
  destruct (workspace_attr st) as [ws|e] eqn:Hws; cbn [fst snd].
  2:{ by rewrite (merge_overrides_overridden _ st Hnd'), overridden_idemp. }
  destruct (d !! ws) as [files|] eqn:Hdir; cbn [fst snd].
  2:{ by rewrite (merge_overrides_overridden _ st Hnd'), overridden_idemp, Hdir. }
  destruct (bool_decide (is_Some (d !! (ws ++ ["params.json"])))) eqn:Hfree;
    cbn [fst snd].
  { by rewrite (merge_overrides_overridden _ st Hnd'), overridden_idemp, Hdir, Hfree. }
  destruct (forallb _ (overridden st params)) eqn:Hser; cbn [fst snd].
  - rewrite (merge_overrides_overridden _ st Hnd'), overridden_idemp.
    rewrite lookup_insert_eq, (lookup_insert_ne _ ws) by apply child_ne.
    by rewrite Hfree, Hser, !insert_insert_eq.
  - rewrite (merge_overrides_overridden _ st Hnd'), overridden_idemp.
    rewrite lookup_insert_eq, (lookup_insert_ne _ ws) by apply child_ne.
    by rewrite Hfree, Hser, !insert_insert_eq.
Qed.

(** Without a parameter file in the workspace, or when defaults are
    asked for, [load_params] reads [assets/default-params.json] and
    nothing of the workspace. *)
Lemma load_params_default default st d ws :
  workspace_attr st = Ok ws ->
  path_exists ws "params.json" d && negb default = false ->
  load_params json_loads default st d
  = read_json json_loads ["assets"] "default-params.json" d.
Proof. intros Hws H. unfold load_params. by rewrite Hws, H. Qed.
End Params.

Lemma load_params_after_save_witness :
  load_params (fun _ => None) false example_session'
    (save_params example_params example_session example_disk).2
  = Returns (overridden example_session example_params).
Proof.
  apply (load_params_after_save (fun _ => None) example_params example_session
           example_session' example_disk example_workspace example_files).
  - compute_done.
  - reflexivity.
  - reflexivity.
  - reflexivity.
  - reflexivity.
  - intros k x Hin. unfold example_params in Hin.
    repeat (apply elem_of_cons in Hin as [Heq|Hin];
            [injection Heq as -> ->; reflexivity|]).
    by apply elem_of_nil in Hin.
  - intros k x Hin. unfold example_params, dict_keys in Hin. simpl in Hin.
    repeat (apply elem_of_cons in Hin as [->|Hin];
            [vm_compute; intros [= <-]; reflexivity|]).
    by apply elem_of_nil in Hin.
Defined.

Lemma save_params_unserialisable_witness :
  save_params example_params unserialisable_session example_disk
  = (Raise TypeError, overridden unserialisable_session example_params,
     <[example_workspace := <["params.json" := Truncated]> example_files]> example_disk)
  /\ load_params (fun _ => None) false unserialisable_session
       (save_params example_params unserialisable_session example_disk).2
     = Raises (PyExn ValueError).
Proof.
  apply (save_params_unserialisable (fun _ => None) example_params
           unserialisable_session unserialisable_session example_disk
           example_workspace example_files "threads" (PObject "slider")).
  - compute_done.
  - reflexivity.
  - reflexivity.
  - reflexivity.
  - reflexivity.
  - compute_done.
  - reflexivity.
  - reflexivity.
Defined.

Lemma save_params_twice_witness :
  save_params (save_params example_params example_session example_disk).1.2
    example_session (save_params example_params example_session example_disk).2
  = save_params example_params example_session example_disk.
Proof. apply save_params_twice. compute_done. Defined.

End ParamsProofs.

Module SidebarProofs.
Import Py Fs Common Sidebar CommonProofs Examples.

Section Sidebar.
Context {frame : Type}.
Implicit Types (params : list (string * pyval frame)).
Implicit Types (st : session_state frame).

Lemma lookup_drop_keys (keys : list string) : forall st k,
  List.fold_left
    (fun st key => if bool_decide (is_Some (st !! key)) then delete key st else st)
    keys st !! k
  = if bool_decide (k ∈ keys) then None else st !! k.
Proof.
  induction keys as [|key keys IH]; intros st k; cbn [List.fold_left].
  - by rewrite bool_decide_eq_false_2 by (by intros ?%elem_of_nil).
  - rewrite IH. destruct (decide (k ∈ keys)) as [Hin|Hnotin].
    + rewrite (bool_decide_eq_true_2 _ Hin).
      by rewrite (bool_decide_eq_true_2 (k ∈ key :: keys)) by (by right).
    + rewrite (bool_decide_eq_false_2 _ Hnotin).
      destruct (decide (k = key)) as [->|Hne].
      * rewrite (bool_decide_eq_true_2 (key ∈ key :: keys)) by (by left).
        case_bool_decide as Hsome; [by rewrite lookup_delete_eq|].
        by apply eq_None_not_Some.
      * rewrite (bool_decide_eq_false_2 (k ∈ key :: keys))
          by (by intros [?|?]%elem_of_cons).
        case_bool_decide; [by rewrite lookup_delete_ne|done].
Qed.

(** After the loop no key of [params] is a session key; the other entries
    are as before. *)
Lemma lookup_drop_overrides params st k :
  drop_overrides params st !! k
  = if bool_decide (k ∈ dict_keys params) then None else st !! k.
Proof. apply lookup_drop_keys. Qed.

(** A session without any key of [params] overrides nothing. *)
Lemma merge_overrides_no_override params st :
  (forall k, k ∈ dict_keys params -> st !! k = None) ->
  merge_overrides params st = params.
Proof.
  unfold merge_overrides.
  apply (map_fold_weak_ind
           (fun r m => (forall k, k ∈ dict_keys params -> m !! k = None) -> r = params)).
  - done.
  - intros i x m r Hfresh IH Hnone.
    assert (i ∉ dict_keys params) as Hi.
    { intros Hin. specialize (Hnone i Hin). by rewrite lookup_insert_eq in Hnone. }
    rewrite IH.
    + unfold override_step. by rewrite bool_decide_eq_false_2.
    + intros k Hk. specialize (Hnone k Hk).
      rewrite lookup_insert_ne in Hnone; [done|]. by intros ->.
Qed.

Lemma path_parts_plain s :
  rfind "/" s = (-1)%Z -> s <> "" -> s <> "." -> path_parts s = [s].
Proof.
  intros Hsep Hne Hdot. unfold path_parts.
  rewrite (FileUploadProofs.split_on_absent _ _ Hsep). cbn [List.filter].
  destruct (String.eqb_spec s ""); [done|].
  destruct (String.eqb_spec s "."); [done|]. done.
Qed.

Lemma path_join_plain (base : list string) s :
  rfind "/" s = (-1)%Z -> s <> "" -> s <> "." -> path_join base s = base ++ [s].
Proof.
  intros Hsep Hne Hdot. unfold path_join. rewrite (path_parts_plain s Hsep Hne Hdot).
  destruct s as [|c s']; [done|]. cbn [is_absolute].
  destruct (Ascii.eqb_spec c "/") as [->|?]; [|done].
  cbn [rfind] in Hsep. pose proof (FileUploadProofs.rfind_lower "/" s').
  destruct (0 <=? rfind "/" s')%Z eqn:E; [lia|]. simpl in Hsep. lia.
Qed.

(** X4: The callback of the workspace selector removes from the session every
    entry stored under a parameter name, keeps the others, and binds the
    workspace to [workspaces/<chosen>]; a save in the session it leaves
    therefore writes parameters as they are, with nothing carried over from
    the workspace before.  If [chosen-workspace] is itself a parameter name
    the callback raises [KeyError] with the entries already removed. *)
Theorem change_workspace_drops_overrides params st :
  (forall s,
      "chosen-workspace" ∉ dict_keys params ->
      st !! "chosen-workspace" = Some (PStr s) ->
      exists st',
        change_workspace params st = (Ok (), st')
        /\ st' !! "workspace" = Some (PPath (path_join ["workspaces"] s))
        /\ (forall k, k ∈ dict_keys params -> k <> "workspace" -> st' !! k = None)
        /\ (forall k, k ∉ dict_keys params -> k <> "workspace" -> st' !! k = st !! k)
        /\ (forall p,
              (forall k, k ∈ dict_keys p -> k ∈ dict_keys params /\ k <> "workspace") ->
              merge_overrides p st' = p)
        /\ (rfind "/" s = (-1)%Z -> s <> "" -> s <> "." ->
            path_join ["workspaces"] s = ["workspaces"; s]))
  /\ ("chosen-workspace" ∈ dict_keys params ->
      change_workspace params st
      = (Raise (KeyError "chosen-workspace"), drop_overrides params st)
      /\ forall k, k ∈ dict_keys params -> drop_overrides params st !! k = None).
Proof.
  split.
  - intros s Hkey Hchosen. unfold change_workspace.
    rewrite lookup_drop_overrides, (bool_decide_eq_false_2 _ Hkey), Hchosen.
    eexists. split; [done|].
    assert (forall k, k ∈ dict_keys params -> k <> "workspace" ->
              <["workspace" := PPath (path_join ["workspaces"] s)]>
                (drop_overrides params st) !! k = None) as Hgone.
    { intros k Hk Hne. rewrite lookup_insert_ne by done.
      by rewrite lookup_drop_overrides, bool_decide_eq_true_2. }
    split_and!.
    + by rewrite lookup_insert_eq.
    + done.
    + intros k Hk Hne. rewrite lookup_insert_ne by done.
      by rewrite lookup_drop_overrides, bool_decide_eq_false_2.
    + intros p Hp. apply merge_overrides_no_override.
      intros k Hk. destruct (Hp k Hk). by apply Hgone.
    + apply (path_join_plain ["workspaces"]).
  - intros Hkey. unfold change_workspace.
    rewrite lookup_drop_overrides, (bool_decide_eq_true_2 _ Hkey). split; [done|].
    intros k Hk. by rewrite lookup_drop_overrides, bool_decide_eq_true_2.
Qed.
End Sidebar.

Lemma change_workspace_drops_overrides_witness :
  exists st',
    change_workspace example_params switching_session = (Ok (), st')
    /\ st' !! "workspace" = Some (PPath ["workspaces"; "other"])
    /\ st' !! "image-format" = None
    /\ merge_overrides example_params st' = example_params.
Proof.
  destruct (proj1 (change_workspace_drops_overrides example_params switching_session)
              "other")
    as (st' & Hrun & Hws & Hgone & _ & Hsave & Hplain).
  - compute_done.
  - reflexivity.
  - exists st'. split; [exact Hrun|]. split.
    + rewrite Hws. do 2 apply f_equal. apply Hplain; [reflexivity|discriminate..].
    + split.
      * apply Hgone; [compute_done|discriminate].
      * apply Hsave. intros k Hk. split; [exact Hk|].
        intros ->. revert Hk. compute_done.
Defined.

End SidebarProofs.

Module ResetProofs.
Import Py Fs Common FsSpec FsProofs Examples.

Section Reset.
Context {frame : Type}.
Implicit Types (d : disk frame) (p q : list string).

Lemma prefix_antisym p q : p `prefix_of` q -> q `prefix_of` p -> p = q.
Proof.
  intros [k Hk] [k' Hk']. rewrite Hk' in Hk at 1. rewrite <- app_assoc in Hk.
  rewrite <- (app_nil_r q) in Hk at 1. apply app_inv_head in Hk.
  symmetry in Hk. apply app_eq_nil in Hk as [-> _]. by rewrite app_nil_r in Hk'.
Qed.

Lemma ancestors_lookup p q : q `prefix_of` p -> q <> [] -> q ∈ ancestors p.
Proof.
  intros [k ->] Hne. unfold ancestors. apply list_elem_of_In, in_map_iff.
  exists (List.length q). split.
  - by rewrite take_app_length.
  - apply in_seq. rewrite length_app. destruct q; [done|]. simpl. lia.
Qed.

Lemma lookup_reset_directory_below p d q :
  (forall q, p `prefix_of` q -> is_Some (d !! q) -> is_Some (d !! p)) ->
  p `prefix_of` q -> q <> p -> reset_directory p d !! q = None.
Proof.
  intros Htree Hpq Hqp. unfold reset_directory. rewrite lookup_mkdir_parents.
  assert (q ∉ ancestors p) as Hanc.
  { intros Hin%elem_of_ancestors. by apply Hqp, prefix_antisym. }
  rewrite (bool_decide_eq_false_2 _ Hanc). case_bool_decide as Hex.
  - by rewrite lookup_rmtree, bool_decide_eq_true_2.
  - destruct (d !! q) as [x|] eqn:Hq; [|done].
    exfalso. apply Hex. apply (Htree q Hpq). by eexists.
Qed.

Lemma lookup_reset_directory_above p d q :
  q `prefix_of` p -> q <> [] -> q <> p ->
  reset_directory p d !! q = Some (default ∅ (d !! q)).
Proof.
  intros Hqp Hq Hneq. unfold reset_directory. rewrite lookup_mkdir_parents.
  rewrite (bool_decide_eq_true_2 _ (ancestors_lookup p q Hqp Hq)).
  assert (¬ p `prefix_of` q) as Hnot
    by (intros Hpq; by apply Hneq, prefix_antisym).
  case_bool_decide.
  - rewrite lookup_rmtree, bool_decide_eq_false_2 by done. by destruct (d !! q).
  - by destruct (d !! q).
Qed.

(** [no_file_on_path], one path component at a time. *)
Lemma no_file_on_path_check p d :
  (forall k, k < List.length p ->
     match d !! take k p, p !! k with
     | Some files, Some n => files !! n = None
     | _, _ => True
     end) ->
  no_file_on_path p d.
Proof.
  intros H q n files [rest Hp] Hq.
  assert (take (List.length q) p = q) as Htake.
  { rewrite Hp, <- !app_assoc. by rewrite take_app_length. }
  assert (p !! List.length q = Some n) as Hn.
  { rewrite Hp, <- app_assoc. by apply (list_lookup_middle q rest n). }
  specialize (H (List.length q)). rewrite Htake, Hq, Hn in H. apply H.
  by apply lookup_lt_is_Some.
Qed.

Lemma nil_not_ancestor p : [] ∉ ancestors p.
Proof.
  unfold ancestors. intros Hin%list_elem_of_In%in_map_iff.
  destruct Hin as (n & Hn & Hin%in_seq). destruct p, n; simpl in *; try done; lia.
Qed.

(** X5: With no file in the way, [reset_directory p] leaves [p] as an empty
    directory, removes every directory below it, makes the missing
    directories above it, and leaves all other directories, and the files
    of those above it, alone; doing it twice is doing it once. *)
Theorem reset_directory_subtree p d :
  p <> [] ->
  no_file_on_path p d ->
  (forall q, p `prefix_of` q -> is_Some (d !! q) -> is_Some (d !! p)) ->
  reset_directory p d !! p = Some ∅
  /\ (forall q, p `prefix_of` q -> q <> p -> reset_directory p d !! q = None)
  /\ (forall q, q `prefix_of` p -> q <> [] -> q <> p ->
        reset_directory p d !! q = Some (default ∅ (d !! q)))
  /\ (forall q, ¬ p `prefix_of` q -> ¬ q `prefix_of` p ->
        reset_directory p d !! q = d !! q)
  /\ reset_directory p (reset_directory p d) = reset_directory p d.
Proof.
  intros Hne _ Htree.
  split_and!; [by apply lookup_reset_directory_eq
              |intros q; by apply lookup_reset_directory_below
              |apply lookup_reset_directory_above
              |apply lookup_reset_directory_ne|].
  assert (forall q, p `prefix_of` q -> is_Some (reset_directory p d !! q) ->
            is_Some (reset_directory p d !! p)) as Htree'.
  { intros q _ _. rewrite lookup_reset_directory_eq by done. by eexists. }
  apply map_eq. intros q.
  destruct (decide (p `prefix_of` q)) as [Hpq|Hpq].
  - destruct (decide (q = p)) as [->|Hneq].
    + by rewrite !lookup_reset_directory_eq.
    + by rewrite !lookup_reset_directory_below.
  - destruct (decide (q `prefix_of` p)) as [Hqp|Hqp].
    + destruct (decide (q = [])) as [->|Hq].
      * unfold reset_directory at 1. rewrite lookup_mkdir_parents.
        rewrite bool_decide_eq_true_2
          by (rewrite lookup_reset_directory_eq by done; by eexists).
        rewrite lookup_rmtree, bool_decide_eq_false_2 by done.
        destruct (reset_directory p d !! []) as [x|] eqn:Hx; [done|].
        by rewrite bool_decide_eq_false_2 by apply nil_not_ancestor.
      * assert (q <> p) as Hneq by (intros ->; by apply Hpq).
        rewrite (lookup_reset_directory_above p (reset_directory p d) q Hqp Hq Hneq).
        by rewrite (lookup_reset_directory_above p d q Hqp Hq Hneq).
    + by rewrite !lookup_reset_directory_ne.
Qed.
End Reset.

Lemma reset_directory_subtree_witness :
  reset_directory (example_workspace ++ ["deconv-mzMLs"]) nested_disk
    !! (example_workspace ++ ["deconv-mzMLs"]) = Some ∅
  /\ reset_directory (example_workspace ++ ["deconv-mzMLs"]) nested_disk
       !! (example_workspace ++ ["deconv-mzMLs"; "cache"]) = None
  /\ reset_directory (example_workspace ++ ["deconv-mzMLs"]) nested_disk
       !! example_workspace = Some example_files.
Proof.
  destruct (reset_directory_subtree (example_workspace ++ ["deconv-mzMLs"]) nested_disk)
    as (Hself & Hbelow & Habove & _).
  - discriminate.
  - apply no_file_on_path_check.
    intros [|[|[|k]]] Hk; [exact I|exact I|reflexivity|cbn in Hk; lia].
  - intros q Hpq _. vm_compute. by eexists.
  - split; [exact Hself|]. split.
    + apply Hbelow; [by exists ["cache"]|discriminate].
    + rewrite Habove; [reflexivity|by exists ["deconv-mzMLs"]|discriminate..].
Defined.

End ResetProofs.

(** ** More about names, ingestion, initialisation and the pairing cycle *)

Module NamingProofs.
Import Py Fs Common FileUpload FileUploadProofs.

Lemma append_assoc a b c : (a +:+ b) +:+ c = a +:+ (b +:+ c).
Proof.
  induction a as [|x a IH]; [done|].
  exact (f_equal (String x) IH).
Qed.

Lemma substring_all s : String.substring 0 (String.length s) s = s.
Proof. induction s as [|x s IH]; [done|]. cbn. by rewrite IH. Qed.

Lemma substring_0_append e t : String.substring 0 (String.length e) (e +:+ t) = e.
Proof.
  induction e as [|x e IH]; [by destruct t|].
  exact (f_equal (String x) IH).
Qed.

Lemma substring_skip_append p s :
  String.substring (String.length p) (String.length s) (p +:+ s) = s.
Proof. induction p as [|x p IH]; [apply substring_all|]. exact IH. Qed.

Lemma substring_split n s :
  (n <= String.length s)%nat ->
  String.substring 0 n s +:+ String.substring n (String.length s - n) s = s.
Proof.
  revert n. induction s as [|x s IH]; intros [|n] Hn; cbn [String.length] in *;
    try done; try lia.
  - exact (f_equal (String x) (substring_all s)).
  - exact (f_equal (String x) (IH n ltac:(lia))).
Qed.

(** [endswith] is the suffix relation. *)
Lemma endswith_append p suffix : endswith (p +:+ suffix) suffix = true.
Proof.
  unfold endswith. rewrite append_length.
  replace (String.length p + String.length suffix - String.length suffix)%nat
    with (String.length p) by lia.
  rewrite substring_skip_append, String.eqb_refl.
  apply andb_true_iff. split; [|done]. apply Nat.leb_le. lia.
Qed.

Lemma endswith_inv s suffix :
  endswith s suffix = true -> exists p, s = p +:+ suffix.
Proof.
  unfold endswith. intros [Hlen Heq]%andb_true_iff.
  apply Nat.leb_le in Hlen. apply String.eqb_eq in Heq.
  exists (String.substring 0 (String.length s - String.length suffix) s).
  pose proof (substring_split (String.length s - String.length suffix) s
                ltac:(lia)) as H.
  replace (String.length s - (String.length s - String.length suffix))%nat
    with (String.length suffix) in H by lia.
  rewrite Heq in H. by symmetry.
Qed.

Lemma endswith_shorter s a b : endswith s (a +:+ b) = true -> endswith s b = true.
Proof.
  intros [p ->]%endswith_inv. rewrite <- append_assoc. apply endswith_append.
Qed.

Lemma endswith_same_length s a b :
  endswith s a = true -> endswith s b = true ->
  String.length a = String.length b -> a = b.
Proof.
  unfold endswith. intros [_ Ha]%andb_true_iff [_ Hb]%andb_true_iff Hlen.
  apply String.eqb_eq in Ha, Hb. rewrite <- Ha, <- Hb. by rewrite Hlen.
Qed.

Lemma rfind_append c e rest :
  rfind c rest = (-1)%Z ->
  rfind c (e +:+ String c rest) = Z.of_nat (String.length e).
Proof.
  intros Hrest. induction e as [|x e IH].
  - change (rfind c (String c rest) = 0%Z). unfold rfind; fold rfind.
    rewrite Hrest. cbn. by rewrite Ascii.eqb_refl.
  - change (String x e +:+ String c rest) with (String x (e +:+ String c rest)).
    unfold rfind; fold rfind. rewrite IH. cbn [String.length].
    assert ((0 <=? Z.of_nat (String.length e))%Z = true) as ->
      by (apply Z.leb_le; lia).
    lia.
Qed.

(** X6: The experiment name of a file name that is an identity, an
    underscore, and a rest without underscore is that identity, whatever
    underscores the identity has.  So for every annotated name that
    [handleInputFiles] accepts, the annotated file name that
    [remove_selected_mzML_files] builds from the experiment name is the name
    the experiment name came from. *)
Theorem experiment_of_round_trip :
  (forall e rest,
      rfind "_" rest = (-1)%Z -> experiment_of (e +:+ String "_" rest) = e)
  /\ (forall e, experiment_of (e +:+ "_annotated.mzML") = e)
  /\ (forall file_name,
        endswith file_name "_annotated.mzML" = true ->
        experiment_of file_name +:+ "_annotated.mzML" = file_name).
Proof.
  assert (forall e rest,
            rfind "_" rest = (-1)%Z -> experiment_of (e +:+ String "_" rest) = e) as H.
  { intros e rest Hrest. unfold experiment_of, slice_to.
    rewrite (rfind_append "_" e rest Hrest), append_length.
    assert ((Z.of_nat (String.length e) <? 0)%Z = false) as ->
      by (apply Z.ltb_ge; lia).
    rewrite Z.min_l, Nat2Z.id by lia.
    apply substring_0_append. }
  split_and!; [done|intros e; by apply H|].
  intros file_name [p ->]%endswith_inv. by rewrite (H p "annotated.mzML").
Qed.

(** X7: A name without underscore loses its last character: [rfind] gives
    [-1], which the slice reads as one before the end. *)
Theorem experiment_of_no_underscore file_name :
  rfind "_" file_name = (-1)%Z ->
  experiment_of file_name
  = String.substring 0 (String.length file_name - 1) file_name.
Proof.
  intros H. unfold experiment_of, slice_to. rewrite H. cbn [Z.ltb Z.compare].
  f_equal. lia.
Qed.

Lemma experiment_of_round_trip_witness :
  experiment_of "exp_1_annotated.mzML" +:+ "_annotated.mzML"
  = "exp_1_annotated.mzML".
Proof.
  exact (proj2 (proj2 experiment_of_round_trip) "exp_1_annotated.mzML" eq_refl).
Defined.

Lemma experiment_of_no_underscore_witness :
  experiment_of "annotated.mzML" = "annotated.mzM".
Proof. exact (experiment_of_no_underscore "annotated.mzML" eq_refl). Defined.

(** The two suffixes exclude each other, and either implies the [mzML]
    guard, so a name with a suffix selects exactly its bucket. *)
Lemma session_name_of_bucket file_name bucket :
  bucket = "deconv-mzMLs" /\ endswith file_name "_deconv.mzML" = true \/
  bucket = "anno-mzMLs" /\ endswith file_name "_annotated.mzML" = true ->
  endswith file_name "mzML" = true /\ session_name_of file_name = bucket.
Proof.
  unfold session_name_of. intros [[-> H]|[-> H]].
  - split; [by apply (endswith_shorter _ "_deconv.")|]. by rewrite H.
  - split; [by apply (endswith_shorter _ "_annotated.")|]. rewrite H.
    destruct (endswith file_name "_deconv.mzML") eqn:Hd; [|done].
    apply (endswith_shorter _ "_an" "notated.mzML") in H.
    by pose proof (endswith_same_length _ _ _ Hd H eq_refl).
Qed.

End NamingProofs.

Module IngestProofs.
Import Py Fs Common FileUpload FsSpec UploadSpec.
Import FileUploadProofs NamingProofs Examples.

Section IngestProofs.
Context {frame : Type}.
Implicit Types w : world frame.

(** X8: One new file with a plain name and one of the two suffixes, no
    file being in the way of the bucket directory and no directory in the
    way of the file: when the bucket directory exists the bytes are
    written there under the file's name and the name is appended to the
    bucket's list; when the directory is missing the write raises and
    nothing is registered. *)
Theorem handleInputFiles_new_file w file ws known bucket :
  bucket = "deconv-mzMLs" /\ endswith (name file) "_deconv.mzML" = true \/
  bucket = "anno-mzMLs" /\ endswith (name file) "_annotated.mzML" = true ->
  plain_name (name file) = true ->
  session w !! "workspace" = Some (PPath ws) ->
  session w !! bucket = Some (PStrList known) ->
  name file ∉ known ->
  no_file_on_path (ws ++ [bucket]) (fs w) ->
  fs w !! (ws ++ [bucket; name file]) = None ->
  handleInputFiles [file] w
  = match fs w !! (ws ++ [bucket]) with
    | Some files =>
        (Ok (),
         World (<[bucket := PStrList (known ++ [name file])]> (session w))
           (<[ws ++ [bucket] := <[name file := Bytes (getbuffer file)]> files]>
              (fs w))
           (page w))
    | None => (Raise (FileNotFoundError ((ws ++ [bucket]) ++ [name file])), w)
    end.
Proof.
  intros Hb _ Hws Hknown Hnew _ _.
  destruct (session_name_of_bucket _ _ Hb) as [Hm Hbucket].
  unfold handleInputFiles. cbn [for_each]. rewrite Hm, Hbucket. cbn [negb].
  cbv [bind get_item get_attr lift contains ret disk_update write_file
         list_append set_item raise].
  rewrite Hknown, bool_decide_eq_false_2 by done. rewrite Hws. cbn [as_path].
  destruct (fs w !! (ws ++ [bucket])) as [files|]; [|done].
  cbn [session fs page]. by rewrite Hknown.
Qed.

Lemma files_kept_refl w : files_kept w w.
Proof. intros dir files n c H1 H2. by exists files. Qed.

Lemma files_kept_trans w1 w2 w3 :
  files_kept w1 w2 -> files_kept w2 w3 -> files_kept w1 w3.
Proof.
  intros H12 H23 dir files n c H1 H2.
  destruct (H12 _ _ _ _ H1 H2) as (files2 & H3 & H4). by apply (H23 _ _ _ _ H3 H4).
Qed.

Lemma lists_extended_refl w : lists_extended w w.
Proof. intros key l H. exists []. by rewrite app_nil_r. Qed.

Lemma lists_extended_trans w1 w2 w3 :
  lists_extended w1 w2 -> lists_extended w2 w3 -> lists_extended w1 w3.
Proof.
  intros H12 H23 key l H1.
  destruct (H12 _ _ H1) as (m1 & H2). destruct (H23 _ _ H2) as (m2 & H3).
  exists (m1 ++ m2). by rewrite app_assoc.
Qed.

Lemma ingest_write w bucket known n c ws files :
  bucket ∈ input_file_types ->
  ingest_inv w ->
  workspace_attr (session w) = Ok ws ->
  session w !! bucket = Some (PStrList known) ->
  n ∉ known ->
  fs w !! (ws ++ [bucket]) = Some files ->
  let w' := World (<[bucket := PStrList (known ++ [n])]> (session w))
              (<[ws ++ [bucket] := <[n := c]> files]> (fs w)) (page w) in
  ingest_inv w' /\ files_kept w w' /\ lists_extended w w'.
Proof.
  intros Hbucket (Hreg & Hempty & Hlisted & Hflat) Hws Hknown Hnew Hdir w'.
  assert (bucket <> "workspace") as Hnw.
  { intros ->. revert Hbucket. unfold input_file_types. by compute_done. }
  assert (bucket <> "") as Hne.
  { intros ->. by rewrite Hempty in Hknown. }
  assert (workspace_attr (session w') = Ok ws) as Hws'.
  { revert Hws. unfold workspace_attr, w'. cbn [session].
    by rewrite lookup_insert_ne. }
  split_and!.
  - split_and!.
    + destruct Hreg as (dl & al & Hd & Ha). unfold registries, w'. cbn [session].
      assert (bucket = "deconv-mzMLs" \/ bucket = "anno-mzMLs") as [->| ->].
      { pose proof Hbucket as Hb. apply elem_of_cons in Hb as [->|Hb]; [by left|].
        apply list_elem_of_singleton in Hb as ->. by right. }
      * eexists _, al. rewrite lookup_insert_eq, lookup_insert_ne by done. done.
      * eexists dl, _. rewrite lookup_insert_eq, lookup_insert_ne by done. done.
    + unfold w'. cbn [session]. by rewrite lookup_insert_ne.
    + intros ws0 key l files0 n0 Hkey Hws0 Hl Hf Hn0.
      rewrite Hws' in Hws0. injection Hws0 as <-.
      unfold w' in Hl, Hf. cbn [session fs] in Hl, Hf.
      destruct (decide (bucket = key)) as [<-|Hk].
      * rewrite lookup_insert_eq in Hl. rewrite lookup_insert_eq in Hf.
        injection Hl as <-. injection Hf as <-.
        destruct (decide (n = n0)) as [<-|Hn].
        { apply elem_of_app. right. by apply list_elem_of_singleton. }
        rewrite lookup_insert_ne in Hn0 by done.
        apply elem_of_app. left. by apply (Hlisted ws bucket known files n0).
      * rewrite lookup_insert_ne in Hl by done.
        rewrite lookup_insert_ne in Hf by (intros [= ?]%(inj (app ws)); done).
        by apply (Hlisted ws key l files0 n0).
    + intros ws0 Hws0 b q Hb Hq. rewrite Hws' in Hws0. injection Hws0 as <-.
      unfold w'. cbn [fs]. rewrite lookup_insert_ne; [by apply (Hflat ws)|].
      intros [= <- Hnil]%(inj (app ws)). by rewrite <- Hnil in Hq.
  - intros dir files0 n0 c0 H1 H2. unfold w'. cbn [fs].
    destruct (decide (ws ++ [bucket] = dir)) as [<-|Hd].
    + rewrite lookup_insert_eq. eexists. split; [done|].
      rewrite Hdir in H1. injection H1 as <-.
      destruct (decide (n = n0)) as [<-|Hn]; [|by rewrite lookup_insert_ne].
      exfalso. apply Hnew. by apply (Hlisted ws bucket known files n).
    + rewrite lookup_insert_ne by done. by exists files0.
  - intros key l Hl. unfold w'. cbn [session].
    destruct (decide (bucket = key)) as [<-|Hk].
    + rewrite lookup_insert_eq. rewrite Hknown in Hl. injection Hl as <-.
      by exists [n].
    + rewrite lookup_insert_ne by done. exists []. by rewrite app_nil_r.
Qed.

Lemma handleInputFiles_one_keeps w file :
  ingest_inv w ->
  ingest_inv (handleInputFiles [file] w).2
  /\ files_kept w (handleInputFiles [file] w).2
  /\ lists_extended w (handleInputFiles [file] w).2.
Proof.
  intros Hinv.
  assert (forall r : result unit,
            ingest_inv (r, w).2 /\ files_kept w (r, w).2
            /\ lists_extended w (r, w).2) as Hsame.
  { intros r. split_and!; [done|apply files_kept_refl|apply lists_extended_refl]. }
  unfold handleInputFiles. cbn [for_each].
  destruct (endswith (name file) "mzML"); [|apply Hsame]. cbn [negb].
  assert (session_name_of (name file) = ""
          \/ session_name_of (name file) ∈ input_file_types) as [Hbucket|Hbucket].
  { unfold session_name_of, input_file_types.
    destruct (endswith _ "_deconv.mzML"); [right; compute_done|].
    destruct (endswith _ "_annotated.mzML"); [right; compute_done|by left]. }
  { rewrite Hbucket. cbv [bind get_item]. destruct Hinv as (_ & -> & _). apply Hsame. }
  set (bucket := session_name_of (name file)) in *.
  assert (exists known, session w !! bucket = Some (PStrList known)) as [known Hknown].
  { destruct Hinv as ((dl & al & Hd & Ha) & _).
    apply elem_of_cons in Hbucket as [->|Hbucket]; [by eexists|].
    apply list_elem_of_singleton in Hbucket as ->. by eexists. }
  cbv [bind get_item get_attr lift contains ret disk_update write_file
         list_append set_item raise].
  rewrite Hknown. case_bool_decide as Hin; [apply Hsame|].
  destruct (session w !! "workspace") as [p|] eqn:Hp; [|apply Hsame].
  destruct (as_path p) as [ws|] eqn:Hws; [|apply Hsame].
  destruct (fs w !! (ws ++ [bucket])) as [files|] eqn:Hdir; [|apply Hsame].
  cbn [session fs page]. rewrite Hknown. cbn [snd].
  apply (ingest_write w bucket known (name file) _ ws files); try done.
  unfold workspace_attr. by rewrite Hp.
Qed.

(** X9: Over a whole batch of files with plain names, under [ingest_inv]:
    every file that was on disk is
    still there with the content it had (an upload never overwrites), every
    list of names only grows at its end, and the invariant holds again
    afterwards, whether the batch ends normally or with an exception. *)
Theorem handleInputFiles_keeps_files uploaded_files : forall w,
  Forall (fun file => plain_name (name file) = true) uploaded_files ->
  ingest_inv w ->
  ingest_inv (handleInputFiles uploaded_files w).2
  /\ files_kept w (handleInputFiles uploaded_files w).2
  /\ lists_extended w (handleInputFiles uploaded_files w).2.
Proof.
  induction uploaded_files as [|file rest IH]; intros w Hplain Hinv.
  { split_and!; [done|apply files_kept_refl|apply lists_extended_refl]. }
  apply Forall_cons in Hplain as [_ Hplain].
  rewrite handleInputFiles_cons.
  destruct (handleInputFiles_one_keeps w file Hinv) as (H1 & H2 & H3).
  destruct (handleInputFiles [file] w) as [[[]|e] w1]; [|done].
  cbn [snd] in H1, H2, H3. destruct (IH w1 Hplain H1) as (H4 & H5 & H6).
  split_and!; [done|by eapply files_kept_trans|by eapply lists_extended_trans].
Qed.

End IngestProofs.
End IngestProofs.

Module InitProofs.
Import Py Fs Common FileUpload UploadSpec FsProofs FileUploadProofs Examples.

Section InitProofs.
Context {frame : Type}.
Implicit Types w : world frame.
Implicit Types st : session_state frame.

Lemma lookup_ensure_frames key k st :
  ensure_frames key st !! k
  = if decide (k = key) then Some (default (PFrames ∅) (st !! key)) else st !! k.
Proof.
  unfold ensure_frames. case_bool_decide as H; destruct (decide (k = key)) as [->|Hk].
  - by destruct H as [v ->].
  - done.
  - rewrite lookup_insert_eq. destruct (st !! key) as [v|] eqn:Hv; [|done].
    exfalso. apply H. by exists v.
  - by rewrite lookup_insert_ne.
Qed.

Lemma ensure_frames_present key st :
  is_Some (st !! key) -> ensure_frames key st = st.
Proof. intros H. unfold ensure_frames. by rewrite bool_decide_eq_true_2. Qed.

Lemma initializeWorkspace_df_turn_any df_type st d pg (k : unit -> M frame unit) :
  bind (bind (has_item df_type) (fun present =>
          if present then ret () else set_item df_type (PFrames ∅))) k
    (World st d pg)
  = k () (World (ensure_frames df_type st) d pg).
Proof.
  unfold bind at 1. unfold bind at 1. unfold has_item at 1, ensure_frames.
  cbn [session]. by case_bool_decide.
Qed.

(** [initializeWorkspace] always ends normally once the workspace is
    bound, in the world [initialised]. *)
Lemma initializeWorkspace_initialised w ws :
  session w !! "workspace" = Some (PPath ws) ->
  initializeWorkspace input_file_types parsed_df_types w
  = (Ok (), initialised ws w).
Proof.
  intros Hws. unfold initializeWorkspace.
  cbn [input_file_types parsed_df_types for_each].
  unfold bind at 1.
  rewrite (initializeWorkspace_dir_turn "deconv-mzMLs" w ws) by done.
  rewrite (initializeWorkspace_dir_turn "anno-mzMLs" _ ws);
    [|cbn [session]; by rewrite lookup_insert_ne|done].
  cbn [session fs page]. unfold ret at 1.
  rewrite (initializeWorkspace_df_turn_any "deconv_dfs").
  rewrite (initializeWorkspace_df_turn_any "anno_dfs").
  unfold ret, initialised, bucket_names. do 5 f_equal.
  rewrite lookup_mkdir_parents.
  destruct (fs w !! (ws ++ ["anno-mzMLs"])) as [x|]; [done|].
  case_bool_decide as Hanc; [|done].
  apply elem_of_ancestors in Hanc.
  by apply (sibling_not_prefix ws "anno-mzMLs" "deconv-mzMLs") in Hanc.
Qed.

Lemma lookup_initialised_dir w ws bucket :
  bucket ∈ input_file_types ->
  fs (initialised ws w) !! (ws ++ [bucket])
  = Some (default ∅ (fs w !! (ws ++ [bucket]))).
Proof.
  intros Hb. unfold initialised. cbn [fs].
  assert (forall b : string, ws ++ [b] ∈ ancestors (ws ++ [b])) as Hself.
  { intros b. apply ancestors_self. by destruct ws. }
  rewrite !lookup_mkdir_parents.
  apply elem_of_cons in Hb as [->|Hb];
    [|apply list_elem_of_singleton in Hb as ->].
  - destruct (fs w !! (ws ++ ["deconv-mzMLs"])); [done|].
    by rewrite (bool_decide_eq_true_2 _ (Hself "deconv-mzMLs")).
  - destruct (fs w !! (ws ++ ["anno-mzMLs"])); [done|].
    case_bool_decide; [done|].
    by rewrite (bool_decide_eq_true_2 _ (Hself "anno-mzMLs")).
Qed.

Lemma lookup_initialised_list w ws bucket :
  bucket ∈ input_file_types ->
  session (initialised ws w) !! bucket
  = Some (PStrList (bucket_names ws bucket (fs w))).
Proof.
  intros Hb. unfold initialised. cbn [session].
  rewrite !lookup_ensure_frames.
  apply elem_of_cons in Hb as [->|Hb];
    [|apply list_elem_of_singleton in Hb as ->].
  - repeat (destruct (decide _) as [?|_]; [done|]).
    by rewrite lookup_insert_ne, lookup_insert_eq.
  - repeat (destruct (decide _) as [?|_]; [done|]).
    by rewrite lookup_insert_eq.
Qed.

Lemma lookup_initialised_cache w ws key :
  key ∈ parsed_df_types ->
  session (initialised ws w) !! key
  = Some (default (PFrames ∅) (session w !! key)).
Proof.
  intros Hk. unfold initialised. cbn [session].
  apply elem_of_cons in Hk as [->|Hk];
    [|apply list_elem_of_singleton in Hk as ->].
  - rewrite lookup_ensure_frames. destruct (decide _) as [?|_]; [done|].
    rewrite lookup_ensure_frames. destruct (decide _) as [_|?]; [|done].
    by rewrite !lookup_insert_ne.
  - rewrite lookup_ensure_frames. destruct (decide _) as [_|?]; [|done].
    rewrite lookup_ensure_frames. destruct (decide _) as [?|_]; [done|].
    by rewrite !lookup_insert_ne.
Qed.

Lemma lookup_initialised_other w ws key :
  key ∉ input_file_types -> key ∉ parsed_df_types ->
  session (initialised ws w) !! key = session w !! key.
Proof.
  intros Hi Hp. unfold initialised. cbn [session].
  assert (key <> "deconv-mzMLs" /\ key <> "anno-mzMLs"
          /\ key <> "deconv_dfs" /\ key <> "anno_dfs") as (H1 & H2 & H3 & H4).
  { split_and!; intros ->; (by apply Hi; compute_done) || (by apply Hp; compute_done). }
  rewrite !lookup_ensure_frames.
  repeat (destruct (decide _) as [?|_]; [done|]).
  by rewrite !lookup_insert_ne.
Qed.

Lemma elem_of_bucket_names (ws : list string) (bucket : string) (d : disk frame)
    (n : string) :
  n ∈ bucket_names ws bucket d <-> is_Some (default ∅ (d !! (ws ++ [bucket])) !! n).
Proof.
  unfold bucket_names. rewrite list_elem_of_fmap. split.
  - intros ([k c] & -> & Hin). apply elem_of_map_to_list in Hin. by exists c.
  - intros [c Hc]. exists (n, c). split; [done|]. by apply elem_of_map_to_list.
Qed.

Lemma initialised_listed w ws :
  session w !! "workspace" = Some (PPath ws) -> listed (initialised ws w).
Proof.
  intros Hws ws0 key l files n Hkey Hws0 Hl Hf Hn.
  assert (ws0 = ws) as ->.
  { revert Hws0. unfold workspace_attr.
    rewrite lookup_initialised_other, Hws by compute_done. cbn. congruence. }
  rewrite lookup_initialised_list in Hl by done.
  rewrite lookup_initialised_dir in Hf by done.
  injection Hl as <-. injection Hf as <-. by apply elem_of_bucket_names.
Qed.

Lemma initialised_flat w ws :
  flat_buckets ws (fs w) -> flat_buckets ws (fs (initialised ws w)).
Proof.
  intros Hflat bucket q Hb Hq. unfold initialised. cbn [fs].
  rewrite !lookup_mkdir_parents, (Hflat bucket q Hb Hq).
  assert (forall b : string, ws ++ bucket :: q ∉ ancestors (ws ++ [b])) as Hanc.
  { intros b [k Hk]%elem_of_ancestors. apply (f_equal List.length) in Hk.
    rewrite !length_app in Hk. cbn [List.length] in Hk. destruct q; [done|].
    cbn [List.length] in Hk. lia. }
  by rewrite !bool_decide_eq_false_2 by apply Hanc.
Qed.

Lemma initialised_ingest_inv w ws :
  session w !! "workspace" = Some (PPath ws) ->
  flat_buckets ws (fs w) ->
  session w !! "" = None ->
  ingest_inv (initialised ws w).
Proof.
  intros Hws Hflat Hempty. split_and!.
  - eexists _, _. split; by apply lookup_initialised_list; compute_done.
  - by rewrite lookup_initialised_other by compute_done.
  - by apply initialised_listed.
  - intros ws0. unfold workspace_attr.
    rewrite lookup_initialised_other, Hws by compute_done. cbn [as_path].
    intros [= <-]. by apply initialised_flat.
Qed.

Lemma initialised_again w ws :
  session w !! "workspace" = Some (PPath ws) ->
  initialised ws (initialised ws w) = initialised ws w.
Proof.
  intros Hws.
  assert (forall b, b ∈ input_file_types ->
            bucket_names ws b (fs (initialised ws w)) = bucket_names ws b (fs w))
    as Hnames.
  { intros b Hb. unfold bucket_names. by rewrite lookup_initialised_dir. }
  unfold initialised at 1.
  rewrite !Hnames by compute_done.
  transitivity (World (session (initialised ws w)) (fs (initialised ws w))
                  (page (initialised ws w))); [|done].
  f_equal.
  - rewrite (insert_id (session (initialised ws w)) "deconv-mzMLs")
      by (by apply lookup_initialised_list; compute_done).
    rewrite (insert_id (session (initialised ws w)) "anno-mzMLs")
      by (by apply lookup_initialised_list; compute_done).
    rewrite (ensure_frames_present "deconv_dfs")
      by (rewrite lookup_initialised_cache by compute_done; by eexists).
    rewrite (ensure_frames_present "anno_dfs")
      by (rewrite lookup_initialised_cache by compute_done; by eexists).
    done.
  - apply map_eq. intros q. rewrite !lookup_mkdir_parents.
    unfold initialised. cbn [fs]. rewrite !lookup_mkdir_parents.
    destruct (fs w !! q); [done|].
    repeat case_bool_decide; done.
Qed.

(** X10: [initializeWorkspace] with a bound workspace and no file in the way
    of the directories never fails.  With bucket directories that hold
    files only: afterwards each bucket
    directory exists with the files it had, the list of each bucket is the
    duplicate-free listing of its directory, each parse cache is the one
    the session had or a new empty one, no other session key, no existing
    directory and not the page changed; and the world is ready for a batch
    of uploads when the session has no empty key. *)
Theorem initializeWorkspace_syncs w ws :
  session w !! "workspace" = Some (PPath ws) ->
  clear_way ws (fs w) ->
  flat_buckets ws (fs w) ->
  exists w',
    initializeWorkspace input_file_types parsed_df_types w = (Ok (), w')
    /\ page w' = page w
    /\ (forall bucket, bucket ∈ input_file_types ->
          exists l,
            session w' !! bucket = Some (PStrList l) /\ NoDup l
            /\ fs w' !! (ws ++ [bucket]) = Some (default ∅ (fs w !! (ws ++ [bucket])))
            /\ forall n,
                 n ∈ l <-> is_Some (default ∅ (fs w !! (ws ++ [bucket])) !! n))
    /\ (forall key, key ∈ parsed_df_types ->
          session w' !! key = Some (default (PFrames ∅) (session w !! key)))
    /\ (forall key, key ∉ input_file_types -> key ∉ parsed_df_types ->
          session w' !! key = session w !! key)
    /\ (forall q files, fs w !! q = Some files -> fs w' !! q = Some files)
    /\ (forall q, fs w !! q = None -> fs w' !! q = None \/ fs w' !! q = Some ∅)
    /\ (session w !! "" = None -> ingest_inv w').
Proof.
  intros Hws _ Hflat. exists (initialised ws w).
  split; [by apply initializeWorkspace_initialised|].
  split; [done|]. split_and!.
  - intros bucket Hb. exists (bucket_names ws bucket (fs w)). split_and!.
    + by apply lookup_initialised_list.
    + apply NoDup_fst_map_to_list.
    + by apply lookup_initialised_dir.
    + apply elem_of_bucket_names.
  - intros key. apply lookup_initialised_cache.
  - intros key. apply lookup_initialised_other.
  - intros q files Hq. unfold initialised. cbn [fs].
    by rewrite !lookup_mkdir_parents, Hq.
  - intros q Hq. unfold initialised. cbn [fs].
    rewrite !lookup_mkdir_parents, Hq. repeat case_bool_decide; auto.
  - intros Hempty. by apply initialised_ingest_inv.
Qed.

(** X11: Running [initializeWorkspace] a second time changes nothing: it is
    safe on every rerun of the page. *)
Theorem initializeWorkspace_idempotent w ws :
  session w !! "workspace" = Some (PPath ws) ->
  clear_way ws (fs w) ->
  initializeWorkspace input_file_types parsed_df_types
    (initializeWorkspace input_file_types parsed_df_types w).2
  = (Ok (), (initializeWorkspace input_file_types parsed_df_types w).2).
Proof.
  intros Hws _. rewrite (initializeWorkspace_initialised w ws Hws). cbn [snd].
  rewrite (initializeWorkspace_initialised _ ws).
  - by rewrite initialised_again.
  - by rewrite lookup_initialised_other by compute_done.
Qed.

(** X12: Without a workspace attribute nothing is created:
    [initializeWorkspace] stops at its first line with the world as it
    was, and so does the workflow entry point that starts with it. *)
Theorem initializeWorkspace_without_workspace
    {scalar : Type}
    (parser : list string -> list string -> disk frame ->
              result (frame * frame * scalar * scalar * scalar)) w :
  session w !! "workspace" = None ->
  initializeWorkspace input_file_types parsed_df_types w
  = (Raise (AttributeError "workspace"), w)
  /\ (forall uploaded_files,
        postprocessingAfterUpload_FD parser uploaded_files w
        = (Raise (AttributeError "workspace"), w)).
Proof.
  intros Hws.
  assert (initializeWorkspace input_file_types parsed_df_types w
          = (Raise (AttributeError "workspace"), w)) as H.
  { unfold initializeWorkspace. cbn [input_file_types for_each].
    cbv [bind get_attr]. by rewrite Hws. }
  split; [done|].
  intros uploaded_files. unfold postprocessingAfterUpload_FD.
  unfold bind at 1. by rewrite H.
Qed.

End InitProofs.
End InitProofs.

Module CycleProofs.
Import Py Fs Common FileUpload UploadSpec FsProofs FileUploadProofs InitProofs Examples.

Section CycleProofs.
Context {frame scalar : Type}.
Implicit Types (w : world frame) (dl al : list string).
Implicit Types (dc ac : gmap string frame).
Variable parser :
  list string -> list string -> disk frame ->
  result (frame * frame * scalar * scalar * scalar).

Lemma unparsed_nil dc l : (forall n, n ∈ l -> is_Some (dc !! n)) -> unparsed dc l = [].
Proof.
  intros H. destruct (unparsed dc l) as [|x l'] eqn:Hl; [done|].
  assert (x ∈ unparsed dc l) as [Hin Hnone]%elem_of_unparsed
    by (rewrite Hl; apply list_elem_of_here).
  destruct (H x Hin) as [v Hv]. congruence.
Qed.

Lemma unparsed_cached dc l n :
  unparsed dc l = [] -> n ∈ l -> is_Some (dc !! n).
Proof.
  intros Hnil Hin. destruct (dc !! n) as [v|] eqn:Hn; [by eexists|].
  assert (n ∈ unparsed dc l) as H by (by apply elem_of_unparsed).
  rewrite Hnil in H. by apply elem_of_nil in H.
Qed.

Lemma for_each_unchanged {A} (l : list A) (body : A -> M frame unit) w :
  (forall x, x ∈ l -> body x w = (Ok (), w)) -> for_each l body w = (Ok (), w).
Proof.
  induction l as [|x l IH]; intros H; [done|].
  cbn [for_each]. unfold bind. rewrite (H x) by apply list_elem_of_here.
  apply IH. intros y Hy. apply H. by apply list_elem_of_further.
Qed.

(** A loop that ends normally over pairs with [.mzML] annotated names has
    cached every name it went through, and has dropped nothing. *)
Lemma parse_loop_cached ws pairs : forall w dc ac w1,
  session w !! "workspace" = Some (PPath ws) ->
  caches w dc ac ->
  (forall a d, (a, d) ∈ pairs -> endswith a ".mzML" = true) ->
  for_each pairs (parse_pair parser) w = (Ok (), w1) ->
  exists dc1 ac1,
    caches w1 dc1 ac1
    /\ (forall k, k <> "anno_dfs" -> k <> "deconv_dfs" ->
                  session w1 !! k = session w !! k)
    /\ (forall k, is_Some (ac !! k) \/ k ∈ pairs.*1 -> is_Some (ac1 !! k))
    /\ (forall k, is_Some (dc !! k) \/ k ∈ pairs.*2 -> is_Some (dc1 !! k)).
Proof.
  induction pairs as [|[a d] pairs IH]; intros w dc ac w1 Hws Hc Hm Hrun.
  { injection Hrun as <-. exists dc, ac. split_and!; [done|done| |].
    - intros k [H|H]; [done|]. by apply elem_of_nil in H.
    - intros k [H|H]; [done|]. by apply elem_of_nil in H. }
  cbn [for_each] in Hrun. unfold bind in Hrun.
  assert (endswith a ".mzML" = true) as Hend by (apply (Hm a d), list_elem_of_here).
  destruct (parser (ws ++ ["anno-mzMLs"; a]) (ws ++ ["deconv-mzMLs"; d]) (fs w))
    as [[[[[spec anno] t] o] c]|e] eqn:Hp.
  - rewrite (parse_pair_ok parser a d w ws dc ac spec anno t o c Hws Hc Hend Hp)
      in Hrun.
    match type of Hrun with for_each _ _ ?w' = _ => set (w2 := w') in * end.
    destruct (IH w2 (<[d := spec]> dc) (<[a := anno]> ac) w1)
      as (dc1 & ac1 & Hc1 & Hother & Hac & Hdc).
    + unfold w2. cbn [session]. by rewrite !lookup_insert_ne.
    + unfold caches, w2. cbn [session].
      by rewrite lookup_insert_eq, lookup_insert_ne, lookup_insert_eq.
    + intros a' d' Hin. apply (Hm a' d'). by apply list_elem_of_further.
    + done.
    + exists dc1, ac1. split_and!; [done| | |].
      * intros k H1 H2. rewrite (Hother k H1 H2). unfold w2. cbn [session].
        by rewrite !lookup_insert_ne.
      * intros k Hk. apply Hac. rewrite fmap_cons in Hk. cbn [fst] in Hk.
        destruct (decide (k = a)) as [->|Hne].
        { left. rewrite lookup_insert_eq. by eexists. }
        rewrite lookup_insert_ne by done.
        destruct Hk as [Hk|Hk]; [by left|].
        apply elem_of_cons in Hk as [?|Hk]; [done|by right].
      * intros k Hk. apply Hdc. rewrite fmap_cons in Hk. cbn [snd] in Hk.
        destruct (decide (k = d)) as [->|Hne].
        { left. rewrite lookup_insert_eq. by eexists. }
        rewrite lookup_insert_ne by done.
        destruct Hk as [Hk|Hk]; [by left|].
        apply elem_of_cons in Hk as [?|Hk]; [done|by right].
  - by rewrite (parse_pair_raise parser a d w ws e Hws Hend Hp) in Hrun.
Qed.

(** X13: A cycle over equally many new names, all annotated ones ending in
    [.mzML], that ends normally has cached every registered name of both
    buckets, and the next cycle does nothing: a rerun of the page parses no
    file a second time. *)
Theorem parseUploadedFiles_settles w dl al dc ac ws w' :
  session w !! "workspace" = Some (PPath ws) ->
  session w !! "progress_bar_space" = Some PContainer ->
  registries w dl al -> caches w dc ac ->
  List.length (unparsed dc dl) = List.length (unparsed ac al) ->
  (forall a, a ∈ unparsed ac al -> endswith a ".mzML" = true) ->
  parseUploadedFiles parser w = (Ok (), w') ->
  (exists dc' ac',
      caches w' dc' ac'
      /\ (forall n, n ∈ dl -> is_Some (dc' !! n))
      /\ (forall n, n ∈ al -> is_Some (ac' !! n)))
  /\ registries w' dl al
  /\ parseUploadedFiles parser w' = (Ok (), w').
Proof.
  intros Hws Hbar Hreg Hc Hlen Hm Hrun.
  assert (exists dc' ac',
             caches w' dc' ac' /\ registries w' dl al
             /\ (forall n, n ∈ dl -> is_Some (dc' !! n))
             /\ (forall n, n ∈ al -> is_Some (ac' !! n)))
    as (dc' & ac' & Hc' & Hreg' & Hd' & Ha').
  { rewrite (parseUploadedFiles_new parser w dl al dc ac Hreg Hc) in Hrun.
    cbn zeta in Hrun. rewrite <- Hlen, Nat.eqb_refl in Hrun. cbn [negb] in Hrun.
    destruct (Nat.eqb_spec (List.length (unparsed dc dl)) 0) as [Hz|Hnz];
      cbn [andb] in Hrun.
    { pose proof Hz as Hz'. rewrite Hlen in Hz'.
      apply nil_length_inv in Hz, Hz'.
      injection Hrun as <-. exists dc, ac. split_and!; [done|done| |].
      - intros n. by apply unparsed_cached.
      - intros n. by apply unparsed_cached. }
    { unfold bind, get_item in Hrun. rewrite Hbar in Hrun.
      assert (forall a d,
                (a, d) ∈ zip (sorted (unparsed ac al)) (sorted (unparsed dc dl)) ->
                endswith a ".mzML" = true) as Hm'.
      { intros a d Hin. apply Hm.
        apply elem_of_zip_l in Hin. by rewrite sorted_Permutation in Hin. }
      destruct (parse_loop_cached ws _ w dc ac w' Hws Hc Hm' Hrun)
        as (dc1 & ac1 & Hc1 & Hother & Hac & Hdc).
      exists dc1, ac1. split_and!; [done| | |].
      + destruct Hreg as [H1 H2]. split; by rewrite Hother.
      + intros n Hn. apply Hdc. destruct (dc !! n) eqn:Hdn; [left; by eexists|].
        right. rewrite snd_zip by (rewrite !sorted_length; lia).
        rewrite sorted_Permutation. by apply elem_of_unparsed.
      + intros n Hn. apply Hac. destruct (ac !! n) eqn:Han; [left; by eexists|].
        right. rewrite fst_zip by (rewrite !sorted_length; lia).
        rewrite sorted_Permutation. by apply elem_of_unparsed. } }
  split; [by exists dc', ac'|]. split; [done|].
  rewrite (parseUploadedFiles_new parser w' dl al dc' ac' Hreg' Hc').
  by rewrite (unparsed_nil dc' dl Hd'), (unparsed_nil ac' al Ha').
Qed.

(** X14: New names of the annotated bucket that do not end in [.mzML] are
    passed over without a message: with as many new deconvolved names the
    cycle ends normally and changes nothing, so the same names are new
    again at every later cycle. *)
Theorem parseUploadedFiles_passes_over w dl al dc ac :
  session w !! "progress_bar_space" = Some PContainer ->
  registries w dl al -> caches w dc ac ->
  List.length (unparsed dc dl) = List.length (unparsed ac al) ->
  (forall a, a ∈ unparsed ac al -> endswith a ".mzML" = false) ->
  parseUploadedFiles parser w = (Ok (), w).
Proof.
  intros Hbar Hreg Hc Hlen Hm.
  rewrite (parseUploadedFiles_new parser w dl al dc ac Hreg Hc). cbn zeta.
  rewrite <- Hlen, Nat.eqb_refl. cbn [negb].
  destruct (_ && _); [done|].
  unfold bind at 1, get_item at 1. rewrite Hbar.
  apply for_each_unchanged. intros [a d] Hin. apply parse_pair_skip, Hm.
  apply elem_of_zip_l in Hin. by rewrite sorted_Permutation in Hin.
Qed.


End CycleProofs.
End CycleProofs.

Module CrossingProofs.
Import Py Fs Common FileUpload UploadSpec FileUploadProofs NamingProofs Examples.

Lemma ascii_compare_refl c : Ascii.compare c c = Eq.
Proof. unfold Ascii.compare. apply N.compare_refl. Qed.

Lemma compare_append p a b :
  String.compare (p +:+ a) (p +:+ b) = String.compare a b.
Proof.
  induction p as [|x p IH]; [done|].
  change (match Ascii.compare x x with
          | Eq => String.compare (p +:+ a) (p +:+ b)
          | Lt => Lt
          | Gt => Gt
          end = String.compare a b).
  by rewrite ascii_compare_refl.
Qed.

Lemma str_le_lt a b : String.compare a b = Lt -> str_le a b /\ ~ str_le b a.
Proof.
  intros H. unfold str_le, String.leb.
  rewrite (String.compare_antisym b a), H. by split.
Qed.

Lemma sorted_two x y :
  str_le x y -> ~ str_le y x -> forall l, l ≡ₚ [x; y] -> sorted l = [x; y].
Proof.
  intros H1 H2 l Hl. symmetry in Hl.
  apply Permutation_length_2_inv in Hl as [->| ->];
    unfold sorted, merge_sort; cbn; unfold decide_rel;
    destruct (str_le_dec x y); try done; destruct (str_le_dec y x); done.
Qed.

(** How two identities order under each suffix when the second extends
    the first by an underscore and a part that starts with a character
    between [a] and [d]. *)
Lemma extended_identity_order e c rest :
  Ascii.compare "a" c = Lt -> Ascii.compare c "d" = Lt ->
  let e' := e +:+ String "_" (String c rest) in
  String.compare (e +:+ "_annotated.mzML") (e' +:+ "_annotated.mzML") = Lt
  /\ String.compare (e' +:+ "_deconv.mzML") (e +:+ "_deconv.mzML") = Lt.
Proof.
  intros Ha Hd e'. unfold e'. rewrite !append_assoc, !compare_append.
  split.
  - change (match Ascii.compare "a" c with
            | Eq => String.compare "nnotated.mzML" (rest +:+ "_annotated.mzML")
            | Lt => Lt
            | Gt => Gt
            end = Lt).
    by rewrite Ha.
  - change (match Ascii.compare c "d" with
            | Eq => String.compare (rest +:+ "_deconv.mzML") "econv.mzML"
            | Lt => Lt
            | Gt => Gt
            end = Lt).
    by rewrite Hd.
Qed.

Section Crossing.
Context {frame scalar : Type}.
Implicit Types (w : world frame) (dl al : list string).
Implicit Types (dc ac : gmap string frame).
Variable parser :
  list string -> list string -> disk frame ->
  result (frame * frame * scalar * scalar * scalar).

(** X16: The two lists of new names are sorted independently, and the two
    suffixes do not sort alike.  When the new files are the two complete
    pairs of an identity [e] and of an identity that extends [e] by an
    underscore and a part starting with [b] or [c], the cycle hands the
    parser the annotated file of each identity together with the
    deconvolved file of the other. *)
Theorem parseUploadedFiles_crosses_pairs w dl al dc ac e c rest :
  Ascii.compare "a" c = Lt -> Ascii.compare c "d" = Lt ->
  session w !! "progress_bar_space" = Some PContainer ->
  registries w dl al -> caches w dc ac ->
  unparsed dc dl
    ≡ₚ [e +:+ "_deconv.mzML"; (e +:+ String "_" (String c rest)) +:+ "_deconv.mzML"] ->
  unparsed ac al
    ≡ₚ [e +:+ "_annotated.mzML";
        (e +:+ String "_" (String c rest)) +:+ "_annotated.mzML"] ->
  parseUploadedFiles parser w
  = for_each
      [(e +:+ "_annotated.mzML",
        (e +:+ String "_" (String c rest)) +:+ "_deconv.mzML");
       ((e +:+ String "_" (String c rest)) +:+ "_annotated.mzML",
        e +:+ "_deconv.mzML")]
      (parse_pair parser) w.
Proof.
  intros Ha Hd Hbar Hreg Hc Hdl Hal.
  destruct (extended_identity_order e c rest Ha Hd) as [Hlt_a Hlt_d].
  apply str_le_lt in Hlt_a as [Ha1 Ha2]. apply str_le_lt in Hlt_d as [Hd1 Hd2].
  rewrite (parseUploadedFiles_new parser w dl al dc ac Hreg Hc). cbn zeta.
  rewrite (sorted_two _ _ Ha1 Ha2 _ Hal).
  rewrite (sorted_two _ _ Hd1 Hd2 (unparsed dc dl))
    by (rewrite Hdl; apply Permutation_swap).
  rewrite (Permutation_length Hdl), (Permutation_length Hal).
  cbn [List.length Nat.eqb andb negb].
  unfold bind at 1, get_item at 1. by rewrite Hbar.
Qed.

(** X17: A selected experiment whose deconvolved file is on disk but not in
    the cache: the file is deleted first, then the cache deletion raises
    [KeyError]; nothing else was touched, the annotated file and the table
    row stay. *)
Theorem remove_selected_mzML_files_uncached e rest params w ws fd content_ dc :
  session w !! "workspace" = Some (PPath ws) ->
  fs w !! (ws ++ ["deconv-mzMLs"]) = Some fd ->
  fd !! (e +:+ "_deconv.mzML") = Some content_ ->
  session w !! "deconv_dfs" = Some (PFrames dc) ->
  dc !! (e +:+ "_deconv.mzML") = None ->
  remove_selected_mzML_files (e :: rest) params w
  = (Raise (KeyError (e +:+ "_deconv.mzML")),
     World (session w)
       (<[ws ++ ["deconv-mzMLs"] := delete (e +:+ "_deconv.mzML") fd]> (fs w))
       (page w)).
Proof.
  intros Hws Hdir Hfile Hcache Hmiss. rewrite remove_selected_unfold.
  rewrite (remove_files_run (e :: rest) w ws
             (Raise (KeyError (e +:+ "_deconv.mzML")))
             (World (session w)
                (<[ws ++ ["deconv-mzMLs"] := delete (e +:+ "_deconv.mzML") fd]> (fs w))
                (page w))); [done|done| |done].
  cbn [for_each]. cbv [bind disk_update unlink frames_del get_item raise].
  rewrite Hdir, Hfile. cbn [session fs page]. by rewrite Hcache, Hmiss.
Qed.

End Crossing.
End CrossingProofs.

(** ** The further properties on the example worlds *)

Module MoreScenarios.
Import Py Fs Common FileUpload FsSpec UploadSpec Examples.
Import FsProofs FileUploadProofs ResetProofs.
Import NamingProofs IngestProofs InitProofs CycleProofs CrossingProofs.

Lemma fresh_world_flat : flat_buckets example_workspace (fs (@fresh_world unit)).
Proof. intros bucket q Hb Hq. apply lookup_empty. Qed.

Lemma initialised_world_inv : ingest_inv initialised_world.
Proof.
  unfold initialised_world.
  rewrite (initializeWorkspace_initialised fresh_world example_workspace eq_refl).
  apply initialised_ingest_inv; [reflexivity|apply fresh_world_flat|reflexivity].
Qed.

Lemma handleInputFiles_new_file_witness :
  handleInputFiles [named "exp1_deconv.mzML"] initialised_world
  = (Ok (),
     World
       (<["deconv-mzMLs" := PStrList ["exp1_deconv.mzML"]]> (session initialised_world))
       (<[example_workspace ++ ["deconv-mzMLs"] := {[ "exp1_deconv.mzML" := Bytes [] ]}]>
          (fs initialised_world))
       (page initialised_world)).
Proof.
  refine (handleInputFiles_new_file initialised_world (named "exp1_deconv.mzML")
            example_workspace [] "deconv-mzMLs"
            (or_introl (conj eq_refl eq_refl)) eq_refl eq_refl eq_refl
            (not_elem_of_nil _) _ eq_refl).
  apply no_file_on_path_check.
  intros [|[|[|k]]] Hk; [exact I|reflexivity|reflexivity|cbn in Hk; lia].
Defined.

Lemma handleInputFiles_keeps_files_witness :
  files_kept initialised_world
    (handleInputFiles [named "exp1_deconv.mzML"; named "exp1_annotated.mzML"]
       initialised_world).2
  /\ lists_extended initialised_world
       (handleInputFiles [named "exp1_deconv.mzML"; named "exp1_annotated.mzML"]
          initialised_world).2.
Proof.
  destruct (handleInputFiles_keeps_files
              [named "exp1_deconv.mzML"; named "exp1_annotated.mzML"]
              initialised_world) as (_ & H1 & H2).
  { repeat constructor. }
  { exact initialised_world_inv. }
  split; [exact H1|exact H2].
Defined.

Lemma stale_world_clear_way : clear_way example_workspace (fs stale_world).
Proof.
  intros bucket Hb. apply no_file_on_path_check.
  apply elem_of_cons in Hb as [->|Hb];
    [|apply list_elem_of_singleton in Hb as ->];
    (intros [|[|[|k]]] Hk; [exact I|exact I|reflexivity|cbn in Hk; lia]).
Qed.

Lemma stale_world_flat : flat_buckets example_workspace (fs stale_world).
Proof.
  intros bucket q Hb Hq. unfold stale_world, example_disk. cbn [fs].
  rewrite !lookup_insert_ne; [apply lookup_empty|..];
    intros H; apply (f_equal List.length) in H; destruct q; cbn in H; done.
Qed.

Lemma initializeWorkspace_syncs_witness :
  exists w',
    initializeWorkspace input_file_types parsed_df_types stale_world = (Ok (), w')
    /\ session w' !! "deconv_dfs" = session stale_world !! "deconv_dfs"
    /\ ingest_inv w'.
Proof.
  destruct (initializeWorkspace_syncs stale_world example_workspace eq_refl
              stale_world_clear_way stale_world_flat)
    as (w' & Hrun & _ & _ & Hcache & _ & _ & _ & Hinv).
  exists w'. split; [exact Hrun|]. split.
  - rewrite (Hcache "deconv_dfs"); [reflexivity|]. apply list_elem_of_here.
  - apply Hinv. reflexivity.
Defined.

Lemma initializeWorkspace_idempotent_witness :
  initializeWorkspace input_file_types parsed_df_types
    (initializeWorkspace input_file_types parsed_df_types stale_world).2
  = (Ok (), (initializeWorkspace input_file_types parsed_df_types stale_world).2).
Proof.
  exact (initializeWorkspace_idempotent stale_world example_workspace eq_refl
           stale_world_clear_way).
Defined.

Lemma initializeWorkspace_without_workspace_witness :
  postprocessingAfterUpload_FD example_parser [] (World ∅ ∅ [])
  = (Raise (AttributeError "workspace"), World ∅ ∅ []).
Proof.
  exact (proj2 (initializeWorkspace_without_workspace example_parser
                  (World ∅ ∅ []) eq_refl) []).
Defined.

Lemma parseUploadedFiles_settles_witness :
  parseUploadedFiles example_parser
    (parseUploadedFiles example_parser two_pairs_world).2
  = (Ok (), (parseUploadedFiles example_parser two_pairs_world).2).
Proof.
  refine (proj2 (proj2 (parseUploadedFiles_settles example_parser two_pairs_world
            ["b_deconv.mzML"; "a_deconv.mzML"] ["a_annotated.mzML"; "b_annotated.mzML"]
            ∅ ∅ example_workspace _ _ _ _ _ _ _ _)));
    [reflexivity|reflexivity|split; reflexivity|split; reflexivity|reflexivity| |].
  - intros a Ha. change (a ∈ ["a_annotated.mzML"; "b_annotated.mzML"]) in Ha.
    apply elem_of_cons in Ha as [->|Ha]; [reflexivity|].
    apply list_elem_of_singleton in Ha as ->. reflexivity.
  - vm_compute. reflexivity.
Defined.

Lemma parseUploadedFiles_passes_over_witness :
  parseUploadedFiles example_parser stray_world = (Ok (), stray_world).
Proof.
  refine (parseUploadedFiles_passes_over example_parser stray_world
            ["a_deconv.mzML"] ["Thumbs.db"] ∅ ∅ _ _ _ _ _);
    [reflexivity|split; reflexivity|split; reflexivity|reflexivity|].
  intros a Ha. change (a ∈ ["Thumbs.db"]) in Ha.
  apply list_elem_of_singleton in Ha as ->. reflexivity.
Defined.



Lemma parseUploadedFiles_crosses_pairs_witness :
  parseUploadedFiles example_parser crossed_world
  = for_each [("a_annotated.mzML", "a_b_deconv.mzML");
              ("a_b_annotated.mzML", "a_deconv.mzML")]
      (parse_pair example_parser) crossed_world.
Proof.
  refine (parseUploadedFiles_crosses_pairs example_parser crossed_world
            ["a_deconv.mzML"; "a_b_deconv.mzML"]
            ["a_annotated.mzML"; "a_b_annotated.mzML"] ∅ ∅ "a" "b" ""
            eq_refl eq_refl _ _ _ _ _);
    [reflexivity|split; reflexivity|split; reflexivity| |];
    apply Permutation_refl.
Defined.

Lemma remove_selected_mzML_files_uncached_witness :
  remove_selected_mzML_files ["exp1"] [] stale_world
  = (Raise (KeyError "exp1_deconv.mzML"),
     World (session stale_world)
       (<[example_workspace ++ ["deconv-mzMLs"] := ∅]> (fs stale_world))
       (page stale_world)).
Proof.
  exact (remove_selected_mzML_files_uncached "exp1" [] [] stale_world
           example_workspace {[ "exp1_deconv.mzML" := Bytes [] ]} (Bytes [])
           {[ "old_deconv.mzML" := tt ]} eq_refl eq_refl eq_refl eq_refl eq_refl).
Defined.

End MoreScenarios.
